(** * Blog content service: authentication, ownership and engagement

    A shallow embedding of the Express/Mongoose server:
    - [utils/auth.js]: [generateToken], [verifyToken], [authenticate],
      [authorize], [checkOwnership];
    - [controllers/authController.js]: [register], [login];
    - [controllers/postController.js]: [getPost], [createPost], [updatePost],
      [deletePost], [likePost], [unlikePost];
    - [models/User.js], [models/Post.js], [models/Category.js]: the schemas'
      setters, validators, hooks and instance methods.

    A request handler is a function from the world (the three collections, the
    clock, the id generator and the pending persistence outages) to a response
    and a new world.  Every awaited database call may reject; the handler's
    [try]/[catch] turns a rejection into its catch-all response.

    A stored document is the record of the paths that the handlers read and
    write.  The book-keeping paths ([createdAt], [updatedAt], [__v]) are not
    among them, so an equation between two documents or two stores speaks of
    the modelled paths. *)

From Stdlib Require Import ZArith NArith List String Ascii Bool Lia.
Import ListNotations.

Open Scope string_scope.

(** ** JavaScript strings

    Text is modelled up to U+00FF: a string is a sequence of UTF-16 code units
    below 256, one [ascii] each, so [String.length] is JavaScript's [length]
    (['\u00e9'] counts 1).  The case and white-space operations are their
    JavaScript namesakes on that range, which they do not leave. *)
Module Js.

(** The upper-case letters below U+0100: A-Z and U+00C0-U+00DE without the
    multiplication sign U+00D7. *)
Definition is_upper (c : ascii) : bool :=
  let n := nat_of_ascii c in
  ((65 <=? n)%nat && (n <=? 90)%nat)
  || ((192 <=? n)%nat && (n <=? 222)%nat && negb (n =? 215)%nat).

Definition lower_ascii (c : ascii) : ascii :=
  if is_upper c then ascii_of_nat (nat_of_ascii c + 32) else c.

(** [String.prototype.toLowerCase] *)
Fixpoint toLowerCase (s : string) : string :=
  match s with
  | EmptyString => EmptyString
  | String c r => String (lower_ascii c) (toLowerCase r)
  end.

(** [\s], and what [trim] removes: tab to carriage return, the space and the
    no-break space U+00A0. *)
Definition is_space (c : ascii) : bool :=
  let n := nat_of_ascii c in
  (n =? 32)%nat || ((9 <=? n)%nat && (n <=? 13)%nat) || (n =? 160)%nat.

Fixpoint trimStart (s : string) : string :=
  match s with
  | String c r => if is_space c then trimStart r else s
  | EmptyString => EmptyString
  end.

Fixpoint trimEnd (s : string) : string :=
  match s with
  | EmptyString => EmptyString
  | String c r =>
      match trimEnd r with
      | EmptyString => if is_space c then EmptyString else String c EmptyString
      | r' => String c r'
      end
  end.

(** [String.prototype.trim] *)
Definition trim (s : string) : string := trimEnd (trimStart s).

(** [s.startsWith(p)] *)
Fixpoint startsWith (p s : string) : bool :=
  match p with
  | EmptyString => true
  | String a p' =>
      match s with
      | EmptyString => false
      | String b s' => Ascii.eqb a b && startsWith p' s'
      end
  end.

(** [s.split(sep)] for a one-character separator: [cur] is the segment
    read so far. *)
Fixpoint split_from (sep : ascii) (cur : string) (s : string) : list string :=
  match s with
  | EmptyString => [cur]
  | String c r =>
      if Ascii.eqb c sep then cur :: split_from sep EmptyString r
      else split_from sep (cur ++ String c EmptyString) r
  end.

Definition split (sep : ascii) (s : string) : list string :=
  split_from sep EmptyString s.

(** [s.includes(c)] for a character [c] *)
Fixpoint includes (c : ascii) (s : string) : bool :=
  match s with
  | EmptyString => false
  | String a r => Ascii.eqb a c || includes c r
  end.

(** [\w] *)
Definition is_word (c : ascii) : bool :=
  let n := nat_of_ascii c in
  ((48 <=? n)%nat && (n <=? 57)%nat) || ((65 <=? n)%nat && (n <=? 90)%nat)
  || ((97 <=? n)%nat && (n <=? 122)%nat) || (n =? 95)%nat.

Definition is_alnum (c : ascii) : bool :=
  let n := nat_of_ascii c in
  ((48 <=? n)%nat && (n <=? 57)%nat) || ((65 <=? n)%nat && (n <=? 90)%nat)
  || ((97 <=? n)%nat && (n <=? 122)%nat).

Fixpoint filter_chars (p : ascii -> bool) (s : string) : string :=
  match s with
  | EmptyString => EmptyString
  | String c r => if p c then String c (filter_chars p r) else filter_chars p r
  end.

(** [s.replace(/x+/g, '-')] for a character class [x]: every maximal run of
    class characters becomes one hyphen. [inrun] says the previous character
    was in the class. *)
Fixpoint collapse_runs (p : ascii -> bool) (inrun : bool) (s : string) : string :=
  match s with
  | EmptyString => EmptyString
  | String c r =>
      if p c then (if inrun then collapse_runs p true r
                   else String "-"%char (collapse_runs p true r))
      else String c (collapse_runs p false r)
  end.

(** Regular expressions over character classes, matched by derivatives; used
    for the schema's [match] validator. *)
Inductive regex : Type :=
| Nothing
| Eps
| Cls (p : ascii -> bool)
| Seq (r1 r2 : regex)
| Alt (r1 r2 : regex)
| Star (r : regex).

Fixpoint nullable (r : regex) : bool :=
  match r with
  | Nothing => false
  | Eps => true
  | Cls _ => false
  | Seq a b => nullable a && nullable b
  | Alt a b => nullable a || nullable b
  | Star _ => true
  end.

Fixpoint deriv (c : ascii) (r : regex) : regex :=
  match r with
  | Nothing => Nothing
  | Eps => Nothing
  | Cls p => if p c then Eps else Nothing
  | Seq a b =>
      if nullable a then Alt (Seq (deriv c a) b) (deriv c b)
      else Seq (deriv c a) b
  | Alt a b => Alt (deriv c a) (deriv c b)
  | Star a => Seq (deriv c a) (Star a)
  end.

(** [/^r$/.test(s)] *)
Fixpoint test (r : regex) (s : string) : bool :=
  match s with
  | EmptyString => nullable r
  | String c s' => test (deriv c r) s'
  end.

Definition Plus (r : regex) : regex := Seq r (Star r).
Definition Opt (r : regex) : regex := Alt Eps r.

End Js.

(** ** Outcomes of awaited calls *)

Inductive Error : Type :=
| DbFault                          (* the driver rejected the operation *)
| ValidationError (path : string)  (* a schema validator failed on [path] *)
| DuplicateKey (index : string)    (* E11000 on a unique index *)
| DocumentNotFound
| JsError (msg : string).          (* [new Error(msg)] *)

Inductive Outcome (A : Type) : Type :=
| Ok (a : A)
| Throw (e : Error).
Arguments Ok {A} a.
Arguments Throw {A} e.

(** ** Documents

    An [ObjectId] is compared through [toString()], which is injective, so a
    number stands for it.  Dates are milliseconds since the epoch.  A [Number]
    counter that only grows from 0 by 1 is a natural number. *)

Definition ObjectId : Type := N.

Inductive Role : Type := RoleUser | RoleAdmin.

Definition role_name (r : Role) : string :=
  match r with RoleUser => "user" | RoleAdmin => "admin" end.

Definition role_eqb (a b : Role) : bool :=
  match a, b with
  | RoleUser, RoleUser | RoleAdmin, RoleAdmin => true
  | _, _ => false
  end.

(** [userSchema], without [profile], the [timestamps] pair and the version
    key, which the operations below never read. *)
Record UserDoc : Type := mkUser {
  user_id : ObjectId;
  username : string;
  email : string;
  password : string;
  role : Role;
  isActive : bool;
  lastLogin : option Z
}.

(** A user document loaded with [.select('-password')]: what [req.user] is. *)
Record ReqUser : Type := mkReqUser {
  ru_id : ObjectId;
  ru_username : string;
  ru_email : string;
  ru_role : Role;
  ru_isActive : bool;
  ru_lastLogin : option Z
}.

Inductive Status : Type := Draft | Published | Archived.

Definition status_eqb (a b : Status) : bool :=
  match a, b with
  | Draft, Draft | Published, Published | Archived, Archived => true
  | _, _ => false
  end.

(** The schema's [enum: ['draft', 'published', 'archived']]. *)
Definition status_of_string (s : string) : option Status :=
  if String.eqb s "draft" then Some Draft
  else if String.eqb s "published" then Some Published
  else if String.eqb s "archived" then Some Archived
  else None.

Record Like : Type := mkLike {
  like_user : ObjectId;
  like_createdAt : Z
}.

Record Comment : Type := mkComment {
  comment_user : ObjectId;
  comment_content : string;
  comment_createdAt : Z
}.

(** [postSchema].  [meta], the [timestamps] pair ([createdAt], [updatedAt])
    and the version key [__v] are never read by the operations below and are
    left out: a [PostDoc] stands for the paths listed here, and two stored
    posts that are equal as [PostDoc] may differ in the book-keeping paths,
    which a write refreshes. *)
Record PostDoc : Type := mkPost {
  post_id : ObjectId;
  title : string;
  content : string;
  slug : string;
  category : ObjectId;
  author : ObjectId;
  tags : list string;
  status : Status;
  publishedAt : Z;
  views : N;
  likes : list Like;
  comments : list Comment;
  featured : bool
}.

(** [categorySchema], the paths the post controller touches. *)
Record CategoryDoc : Type := mkCategory {
  cat_id : ObjectId;
  cat_name : string;
  cat_isActive : bool;
  postCount : N
}.

(** ** The world of a request *)

(** The three collections, each in natural (insertion) order. *)
Record Db : Type := mkDb {
  users : list UserDoc;
  posts : list PostDoc;
  categories : list CategoryDoc
}.

(** [outages] schedules the persistence layer's behaviour: each awaited
    database call consumes the head, and fails when it is [true]; on the empty
    schedule every call goes through. *)
Record World : Type := mkWorld {
  db : Db;
  now : Z;
  outages : list bool;
  nextId : N;
  seed : N
}.

Definition healthy (w : World) : Prop := outages w = [].

Definition with_db (d : Db) (w : World) : World :=
  mkWorld d (now w) (outages w) (nextId w) (seed w).
Definition with_outages (o : list bool) (w : World) : World :=
  mkWorld (db w) (now w) o (nextId w) (seed w).

Definition with_users (l : list UserDoc) (d : Db) : Db :=
  mkDb l (posts d) (categories d).
Definition with_posts (l : list PostDoc) (d : Db) : Db :=
  mkDb (users d) l (categories d).
Definition with_categories (l : list CategoryDoc) (d : Db) : Db :=
  mkDb (users d) (posts d) l.

(** ** The monad of awaited code: state and exceptions *)

Definition M (A : Type) : Type := World -> Outcome A * World.

Definition ret {A} (a : A) : M A := fun w => (Ok a, w).

Definition bind {A B} (m : M A) (k : A -> M B) : M B :=
  fun w => match m w with
           | (Ok a, w') => k a w'
           | (Throw e, w') => (Throw e, w')
           end.

Definition throw {A} (e : Error) : M A := fun w => (Throw e, w).

Definition gets {A} (f : World -> A) : M A := fun w => (Ok (f w), w).

Definition modify_db (f : Db -> Db) : M unit :=
  fun w => (Ok tt, with_db (f (db w)) w).

Definition lift {A} (o : Outcome A) : M A := fun w => (o, w).

Declare Scope await_scope.
Delimit Scope await_scope with await.
Notation "x <- m ;; k" := (bind m (fun x => k))
  (at level 100, m at next level, right associativity) : await_scope.
Notation "m ;; k" := (bind m (fun _ => k))
  (at level 100, right associativity) : await_scope.
Open Scope await_scope.

(** One round trip to the database. *)
Definition io : M unit :=
  fun w => match outages w with
           | [] => (Ok tt, w)
           | false :: o => (Ok tt, with_outages o w)
           | true :: o => (Throw DbFault, with_outages o w)
           end.

(** [new ObjectId()] *)
Definition freshId : M ObjectId :=
  fun w => (Ok (nextId w),
            mkWorld (db w) (now w) (outages w) (N.succ (nextId w)) (seed w)).

(** ** Responses *)

Inductive Data : Type :=
| NoData
| PostData (post : PostDoc)
| LikesData (n : nat)
| AuthData (id : ObjectId) (uname mail : string) (r : Role) (token : string).

Record Response : Type := mkResponse {
  res_status : nat;
  res_success : bool;
  res_message : string;
  res_data : Data
}.

(** [res.status(code).json({ success: false, message })] *)
Definition failure (code : nat) (msg : string) : Response :=
  mkResponse code false msg NoData.

(** What a middleware does with a request: answer it, or call [next()] having
    attached a value to the request. *)
Inductive Step (A : Type) : Type :=
| Respond (r : Response)
| Next (a : A).
Arguments Respond {A} r.
Arguments Next {A} a.

(** [try { body } catch (error) { return on_error }]: the shape of every
    controller and middleware. *)
Definition catching {A} (body : M A) (on_error : A) : World -> A * World :=
  fun w => match body w with
           | (Ok r, w') => (r, w')
           | (Throw _, w') => (on_error, w')
           end.

(** ** Collections *)
Section Collection.
Context {D : Type} (id_of : D -> ObjectId).

Definition lookupById (id : ObjectId) (l : list D) : option D :=
  find (fun d => N.eqb (id_of d) id) l.

(** Writes [d] over the first document that has its [_id]. *)
Fixpoint replaceById (d : D) (l : list D) : list D :=
  match l with
  | [] => []
  | x :: r => if N.eqb (id_of x) (id_of d) then d :: r
              else x :: replaceById d r
  end.

(** Removes the first document that has this [_id]. *)
Fixpoint removeById (id : ObjectId) (l : list D) : list D :=
  match l with
  | [] => []
  | x :: r => if N.eqb (id_of x) id then r else x :: removeById id r
  end.
End Collection.

(** ** models/Post.js *)
Module Post.

Definition set_likes (l : list Like) (p : PostDoc) : PostDoc :=
  mkPost (post_id p) (title p) (content p) (slug p) (category p) (author p)
         (tags p) (status p) (publishedAt p) (views p) l (comments p)
         (featured p).

Definition set_views (v : N) (p : PostDoc) : PostDoc :=
  mkPost (post_id p) (title p) (content p) (slug p) (category p) (author p)
         (tags p) (status p) (publishedAt p) v (likes p) (comments p)
         (featured p).

(** The validators of the required paths [title] and [content]; the result
    is the first path that fails.  [category] and [author] are required too,
    and always present in a [PostDoc]. *)
Definition validate (p : PostDoc) : option string :=
  let t := String.length (title p) in
  let c := String.length (content p) in
  if (t <? 3)%nat || (100 <? t)%nat then Some "title"
  else if (c <? 10)%nat then Some "content"
  else None.

(** The [pre('save')] hook's slug: lower-case, drop what is not a letter, a
    digit or white space, turn each white-space run into a hyphen; the last
    two steps of the chain (merging hyphens, trimming) then find nothing to
    do. *)
Definition slugify (t : string) : string :=
  Js.collapse_runs Js.is_space false
    (Js.filter_chars (fun c => Js.is_alnum c || Js.is_space c)
       (Js.toLowerCase t)).

Definition findById (id : ObjectId) : M (option PostDoc) :=
  (io ;; gets (fun w => lookupById post_id id (posts (db w)))).

(** The number of posts that match [{ category, status }]. *)
Definition count (cat : ObjectId) (st : Status) (l : list PostDoc) : N :=
  N.of_nat (List.length
    (filter (fun p => N.eqb (category p) cat && status_eqb (status p) st) l)).

(** [Post.countDocuments({ category, status })] *)
Definition countDocuments (cat : ObjectId) (st : Status) : M N :=
  (io ;; gets (fun w => count cat st (posts (db w)))).

(** [doc.save(options)] on a document that was loaded from the collection
    and whose title was not modified (the slug hook does nothing). *)
Definition save (validateBeforeSave : bool) (p : PostDoc) : M PostDoc :=
  match (if validateBeforeSave then validate p else None) with
  | Some path => throw (ValidationError path)
  | None =>
      (io ;;
       stored <- gets (fun w => lookupById post_id (post_id p) (posts (db w))) ;;
       match stored with
       | None => throw DocumentNotFound
       | Some _ =>
           (modify_db (fun d => with_posts (replaceById post_id p (posts d)) d) ;;
            ret p)
       end)
  end.

(** [Post.create(doc)]: the schema's setters and defaults, validation, the
    slug hook, then the insert, which the unique index on [slug] can refuse. *)
Definition create (t c : string) (cat auth : ObjectId) (tgs : list string)
           (st_name : string) : M PostDoc :=
  (id <- freshId ;;
   t0 <- gets now ;;
   match status_of_string st_name with
   | None => throw (ValidationError "status")
   | Some st =>
   let doc :=
     mkPost id (Js.trim t) c EmptyString cat auth
            (map (fun x => Js.toLowerCase (Js.trim x)) tgs)
            st t0 0%N [] [] false in
   match validate doc with
   | Some path => throw (ValidationError path)
   | None =>
       let doc :=
         mkPost id (title doc) c (Js.toLowerCase (Js.trim (slugify (title doc))))
                cat auth (tags doc) st t0 0%N [] [] false in
       (io ;;
        clash <- gets (fun w =>
          existsb (fun p => String.eqb (slug p) (slug doc)) (posts (db w))) ;;
        if clash : bool then throw (DuplicateKey "slug")
        else (modify_db (fun d => with_posts (posts d ++ [doc]) d) ;; ret doc))
   end
   end).

(** The update document [{ title, content, category, tags, status }]; a key
    whose value is [undefined] is dropped from the update. *)
Record Update : Type := mkUpdate {
  upd_title : option string;
  upd_content : option string;
  upd_category : option ObjectId;
  upd_tags : option (list string);
  upd_status : option string
}.

Definition or_else {A} (o : option A) (d : A) : A :=
  match o with Some a => a | None => d end.

(** Casting: the setters of the paths that are set. *)
Definition cast_update (u : Update) : Update :=
  mkUpdate (option_map Js.trim (upd_title u)) (upd_content u) (upd_category u)
           (option_map (map (fun x => Js.toLowerCase (Js.trim x))) (upd_tags u))
           (upd_status u).

(** [runValidators: true]: the validators of the paths that are set. *)
Definition validate_update (u : Update) : option string :=
  let bad_title :=
    match upd_title u with
    | Some t => (String.length t <? 3)%nat || (100 <? String.length t)%nat
    | None => false
    end in
  let bad_content :=
    match upd_content u with
    | Some c => (String.length c <? 10)%nat
    | None => false
    end in
  let bad_status :=
    match upd_status u with
    | Some s => match status_of_string s with Some _ => false | None => true end
    | None => false
    end in
  if bad_title then Some "title"
  else if bad_content then Some "content"
  else if bad_status then Some "status"
  else None.

Definition apply_update (u : Update) (p : PostDoc) : PostDoc :=
  mkPost (post_id p)
         (or_else (upd_title u) (title p))
         (or_else (upd_content u) (content p))
         (slug p)
         (or_else (upd_category u) (category p))
         (author p)
         (or_else (upd_tags u) (tags p))
         (match upd_status u with
          | Some s => or_else (status_of_string s) (status p)
          | None => status p
          end)
         (publishedAt p) (views p) (likes p) (comments p) (featured p).

(** [Post.findByIdAndUpdate(id, update, { new: true, runValidators: true })]:
    no [save] hook runs, so the slug stays. *)
Definition findByIdAndUpdate (id : ObjectId) (u : Update) : M (option PostDoc) :=
  let u := cast_update u in
  match validate_update u with
  | Some path => throw (ValidationError path)
  | None =>
      (io ;;
       stored <- gets (fun w => lookupById post_id id (posts (db w))) ;;
       match stored with
       | None => ret None
       | Some p =>
           let p' := apply_update u p in
           (modify_db (fun d => with_posts (replaceById post_id p' (posts d)) d) ;;
            ret (Some p'))
       end)
  end.

(** [Post.findByIdAndDelete(id)] *)
Definition findByIdAndDelete (id : ObjectId) : M (option PostDoc) :=
  (io ;;
   found <- gets (fun w => lookupById post_id id (posts (db w))) ;;
   modify_db (fun d => with_posts (removeById post_id id (posts d)) d) ;;
   ret found).

(** Virtual [likeCount] *)
Definition likeCount (p : PostDoc) : nat := List.length (likes p).

Definition liked_by (userId : ObjectId) (p : PostDoc) : bool :=
  existsb (fun l => N.eqb (like_user l) userId) (likes p).

(** [postSchema.methods.addLike] *)
Definition addLike (userId : ObjectId) (this : PostDoc) : M PostDoc :=
  if negb (liked_by userId this) then
    (t <- gets now ;;
     save true (set_likes (likes this ++ [mkLike userId t]) this))
  else ret this.

(** [postSchema.methods.removeLike] *)
Definition removeLike (userId : ObjectId) (this : PostDoc) : M PostDoc :=
  save true
    (set_likes (filter (fun l => negb (N.eqb (like_user l) userId)) (likes this))
               this).

End Post.

(** ** models/Category.js *)
Module Category.

Definition set_postCount (n : N) (c : CategoryDoc) : CategoryDoc :=
  mkCategory (cat_id c) (cat_name c) (cat_isActive c) n.

(** The validators of the required path [name]. *)
Definition validate (c : CategoryDoc) : option string :=
  let n := String.length (cat_name c) in
  if (n <? 2)%nat || (50 <? n)%nat then Some "name" else None.

Definition findById (id : ObjectId) : M (option CategoryDoc) :=
  (io ;; gets (fun w => lookupById cat_id id (categories (db w)))).

(** [doc.save()] on a loaded category whose name was not modified. *)
Definition save (c : CategoryDoc) : M CategoryDoc :=
  match validate c with
  | Some path => throw (ValidationError path)
  | None =>
      (io ;;
       stored <- gets (fun w => lookupById cat_id (cat_id c) (categories (db w))) ;;
       match stored with
       | None => throw DocumentNotFound
       | Some _ =>
           (modify_db (fun d =>
              with_categories (replaceById cat_id c (categories d)) d) ;;
            ret c)
       end)
  end.

(** [categorySchema.methods.updatePostCount] *)
Definition updatePostCount (this : CategoryDoc) : M CategoryDoc :=
  (n <- Post.countDocuments (cat_id this) Published ;;
   save (set_postCount n this)).

End Category.

(** ** Dependencies: bcryptjs and jsonwebtoken

    The two libraries are not part of the repository.  Their entry points are
    written out as far as the server's behaviour depends on them; the
    cryptography itself is a parameter. *)

(** The part of bcryptjs past the argument checks: the salt generator and the
    key schedule, which may still reject a salt (revision, rounds, length). *)
Class BcryptCore : Type := {
  bcrypt_genSalt : nat -> N -> string;
  bcrypt_crypt : string -> string -> Outcome string
}.

(** The compact serialisation of a signed token.  A token that parses carries
    its claims and, symbolically, the key that made its signature. *)
Record JwtPayload : Type := mkPayload {
  jwt_userId : option ObjectId;
  jwt_iat : Z;
  jwt_exp : option Z
}.

Record Jws : Type := mkJws {
  jws_payload : JwtPayload;
  jws_key : string
}.

Class JwtCodec : Type := {
  jwt_encode : Jws -> string;
  jwt_decode : string -> option Jws
}.

Module bcrypt.
Section WithCore.
Context {core : BcryptCore}.

(** [bcrypt.hash(s, salt)]: the salt must announce version 2; the error
    quotes its first two characters. *)
Definition hash (s salt : string) : Outcome string :=
  if negb (Js.startsWith "$2" salt)
  then Throw (JsError ("Invalid salt version: " ++ String.substring 0 2 salt))
  else bcrypt_crypt s salt.

(** [bcrypt.compare(s, hash)]: a value that is not 60 characters long
    compares false; otherwise [s] is hashed under the salt that opens
    [hash] (its first 29 characters) and the two are compared. *)
Definition compare (s hash_ : string) : Outcome bool :=
  if negb (String.length hash_ =? 60)%nat then Ok false
  else match hash s (String.substring 0 29 hash_) with
       | Throw e => Throw e
       | Ok comp => Ok (String.eqb comp hash_)
       end.
End WithCore.
End bcrypt.

Module jwt.
Section WithCodec.
Context {codec : JwtCodec}.

(** [jwt.sign({ userId }, secret, { expiresIn })] at clock [t] (ms):
    [iat] is the clock in seconds and [exp] is [iat + expiresIn]. *)
Definition sign (userId : ObjectId) (secret : string) (expiresIn : Z) (t : Z)
  : string :=
  let iat := (t / 1000)%Z in
  jwt_encode (mkJws (mkPayload (Some userId) iat (Some (iat + expiresIn)%Z))
                    secret).

Definition expired (t : Z) (p : JwtPayload) : bool :=
  match jwt_exp p with
  | None => false
  | Some e => (e <=? t / 1000)%Z
  end.

(** [jwt.verify(token, secret)] at clock [t] (ms). *)
Definition verify (token secret : string) (t : Z) : Outcome JwtPayload :=
  if String.eqb token EmptyString then Throw (JsError "jwt must be provided")
  else
  match jwt_decode token with
  | None => Throw (JsError "jwt malformed")
  | Some j =>
      if negb (String.eqb (jws_key j) secret)
      then Throw (JsError "invalid signature")
      else if expired t (jws_payload j)
           then Throw (JsError "jwt expired")
           else Ok (jws_payload j)
  end.
End WithCodec.
End jwt.

(** ** models/User.js *)
Module User.

Definition set_lastLogin (t : option Z) (u : UserDoc) : UserDoc :=
  mkUser (user_id u) (username u) (email u) (password u) (role u)
         (isActive u) t.

(** [.select('-password')] *)
Definition select_no_password (u : UserDoc) : ReqUser :=
  mkReqUser (user_id u) (username u) (email u) (role u) (isActive u)
            (lastLogin u).

(** The schema's [match] on [email]:
    [/^\w+([.-]?\w+)*@\w+([.-]?\w+)*(\.\w{2,3})+$/] *)
Definition email_regex : Js.regex :=
  let w := Js.Cls Js.is_word in
  let dot := Js.Cls (fun c => Ascii.eqb c "."%char) in
  let dotdash := Js.Cls (fun c => Ascii.eqb c "."%char || Ascii.eqb c "-"%char) in
  let at_ := Js.Cls (fun c => Ascii.eqb c "@"%char) in
  let labels := Js.Seq (Js.Plus w)
                  (Js.Star (Js.Seq (Js.Opt dotdash) (Js.Plus w))) in
  Js.Seq labels
    (Js.Seq at_
       (Js.Seq labels
          (Js.Plus (Js.Seq dot (Js.Seq w (Js.Seq w (Js.Opt w))))))).

(** The schema's validators; the result is the first path that fails. *)
Definition validate (u : UserDoc) : option string :=
  let n := String.length (username u) in
  if (n <? 3)%nat || (30 <? n)%nat then Some "username"
  else if negb (Js.test email_regex (email u)) then Some "email"
  else if (String.length (password u) <? 8)%nat then Some "password"
  else None.

Definition findById (id : ObjectId) : M (option UserDoc) :=
  (io ;; gets (fun w => lookupById user_id id (users (db w)))).

(** [User.findOne(filter)]: the first match in natural order. *)
Definition findOne (filter_ : UserDoc -> bool) : M (option UserDoc) :=
  (io ;; gets (fun w => find filter_ (users (db w)))).

(** The filter [{ $or: [{ email }, { username }] }].  The query is cast with
    the schema, which runs the setters of the two paths on its values: [trim]
    and [lowercase] on [email], [trim] on [username]. *)
Definition email_or_username (mail uname : string) (u : UserDoc) : bool :=
  String.eqb (email u) (Js.toLowerCase (Js.trim mail))
  || String.eqb (username u) (Js.trim uname).

(** [userSchema.statics.findByEmailOrUsername] *)
Definition findByEmailOrUsername (identifier : string) : M (option UserDoc) :=
  findOne (email_or_username (Js.toLowerCase identifier) identifier).

(** [doc.save({ validateBeforeSave: false })] on a loaded user whose
    password was not modified (the hashing hook returns at once). *)
Definition save (u : UserDoc) : M UserDoc :=
  (io ;;
   stored <- gets (fun w => lookupById user_id (user_id u) (users (db w))) ;;
   match stored with
   | None => throw DocumentNotFound
   | Some _ =>
       (modify_db (fun d => with_users (replaceById user_id u (users d)) d) ;;
        ret u)
   end).

(** The same on a document loaded without its password: the selected paths
    are written back and the stored hash stays. *)
Definition save_selected (u : ReqUser) : M ReqUser :=
  (io ;;
   stored <- gets (fun w => lookupById user_id (ru_id u) (users (db w))) ;;
   match stored with
   | None => throw DocumentNotFound
   | Some s =>
       let s' := mkUser (ru_id u) (ru_username u) (ru_email u) (password s)
                        (ru_role u) (ru_isActive u) (ru_lastLogin u) in
       (modify_db (fun d => with_users (replaceById user_id s' (users d)) d) ;;
        ret u)
   end).

Section WithCore.
Context {core : BcryptCore}.

(** [userSchema.methods.comparePassword] *)
Definition comparePassword (candidatePassword : string) (this : UserDoc)
  : Outcome bool :=
  bcrypt.compare candidatePassword (password this).

(** [User.create({ username, email, password })]: setters and defaults,
    validation, the [pre('save')] hashing hook, then the insert, which
    the unique indexes on [email] and [username] can refuse. *)
Definition create (uname mail pw : string) : M UserDoc :=
  (id <- freshId ;;
   let doc := mkUser id (Js.trim uname) (Js.toLowerCase (Js.trim mail)) pw
                     RoleUser true None in
   match validate doc with
   | Some path => throw (ValidationError path)
   | None =>
       (salt <- (fun w => (Ok (bcrypt_genSalt 12 (seed w)),
                           mkWorld (db w) (now w) (outages w) (nextId w)
                                   (N.succ (seed w)))) ;;
        hashed <- lift (bcrypt.hash pw salt) ;;
        let doc := mkUser id (username doc) (email doc) hashed RoleUser true
                          None in
        io ;;
        clash_mail <- gets (fun w =>
          existsb (fun u => String.eqb (email u) (email doc)) (users (db w))) ;;
        clash_name <- gets (fun w =>
          existsb (fun u => String.eqb (username u) (username doc))
                  (users (db w))) ;;
        if clash_mail : bool then throw (DuplicateKey "email")
        else if clash_name : bool then throw (DuplicateKey "username")
        else (modify_db (fun d => with_users (users d ++ [doc]) d) ;; ret doc))
   end).
End WithCore.

End User.

(** ** utils/auth.js *)

(** [process.env.JWT_SECRET] and [process.env.JWT_EXPIRE], the lifetime in
    seconds. *)
Record Config : Type := mkConfig {
  JWT_SECRET : string;
  JWT_EXPIRE : Z
}.

(** The fall-backs: the development secret and ['7d']. *)
Definition default_config : Config :=
  mkConfig "your-secret-key-change-in-production" (7 * 24 * 60 * 60)%Z.

Inductive Resource : Type :=
| PostResource (p : PostDoc)
| CategoryResource (c : CategoryDoc)
| UserResource (u : UserDoc).

(** The three model files of the repository. *)
Inductive ModelName : Type := PostModel | CategoryModel | UserModel.

(** [require(`../models/${modelName}`)].  Which arguments the module system
    resolves to which model file is the platform's matter: besides the three
    names, ['Post.js'] and ['./Post'] load models/Post.js too.  An argument
    that loads no model makes the call, or the [findById] after it, throw. *)
Class ModuleLoader : Type := {
  require_model : string -> option ModelName;
  require_Post : require_model "Post" = Some PostModel;
  require_Category : require_model "Category" = Some CategoryModel;
  require_User : require_model "User" = Some UserModel
}.

(** [resource.author]: only the post schema has the path. *)
Definition resource_author (r : Resource) : option ObjectId :=
  match r with
  | PostResource p => Some (author p)
  | CategoryResource _ => None
  | UserResource _ => None
  end.

Module Auth.

(** [authHeader.split(' ')[1]]; a header that starts with ['Bearer '] has the
    segment. *)
Definition bearer_token (authHeader : string) : string :=
  nth 1 (Js.split " "%char authHeader) EmptyString.

Section WithCodec.
Context {codec : JwtCodec} (cfg : Config).

Definition generateToken (userId : ObjectId) : M string :=
  (t <- gets now ;;
   ret (jwt.sign userId (JWT_SECRET cfg) (JWT_EXPIRE cfg) t)).

Definition verifyToken (token : string) : M JwtPayload :=
  (t <- gets now ;;
   match jwt.verify token (JWT_SECRET cfg) t with
   | Ok decoded => ret decoded
   | Throw _ => throw (JsError "Invalid token")
   end).

(** [User.findById(decoded.userId)]: without a [userId] claim the query
    finds nothing. *)
Definition findTokenUser (decoded : JwtPayload) : M (option UserDoc) :=
  match jwt_userId decoded with
  | Some id => User.findById id
  | None => (io ;; ret None)
  end.

Definition authenticate (authorization : option string)
  : World -> Step ReqUser * World :=
  catching
    (match authorization with
     | None =>
         ret (Respond (failure 401 "Access denied. No token provided."))
     | Some authHeader =>
         if String.eqb authHeader EmptyString
            || negb (Js.startsWith "Bearer " authHeader)
         then ret (Respond (failure 401 "Access denied. No token provided."))
         else
           let token := bearer_token authHeader in
           (decoded <- verifyToken token ;;
            found <- findTokenUser decoded ;;
            match found with
            | None =>
                ret (Respond (failure 401 "Token is not valid. User not found."))
            | Some stored =>
                let user := User.select_no_password stored in
                if negb (ru_isActive user)
                then ret (Respond (failure 401 "Account is deactivated."))
                else
                  (t <- gets now ;;
                   let user :=
                     mkReqUser (ru_id user) (ru_username user) (ru_email user)
                               (ru_role user) (ru_isActive user) (Some t) in
                   user <- User.save_selected user ;;
                   ret (Next user))
            end)
     end)
    (Respond (failure 401 "Token is not valid.")).
End WithCodec.

(** [authorize(...roles)] *)
Definition authorize (roles : list string) (req_user : option ReqUser)
  : Step unit :=
  match req_user with
  | None => Respond (failure 401 "Authentication required.")
  | Some user =>
      if negb (existsb (String.eqb (role_name (ru_role user))) roles)
      then Respond (failure 403 "Access denied. Insufficient permissions.")
      else Next tt
  end.

(** The test [resource.author && resource.author.toString() !==
    req.user._id.toString() && req.user.role !== 'admin']. *)
Definition denied (resource : Resource) (user : ReqUser) : bool :=
  match resource_author resource with
  | None => false
  | Some a => negb (N.eqb a (ru_id user))
              && negb (role_eqb (ru_role user) RoleAdmin)
  end.

Section WithLoader.
Context {loader : ModuleLoader}.

(** [require(`../models/${modelName}`)] followed by [Model.findById]. *)
Definition Model_findById (modelName : string) (id : ObjectId)
  : M (option Resource) :=
  match require_model modelName with
  | Some PostModel =>
      (r <- Post.findById id ;; ret (option_map PostResource r))
  | Some CategoryModel =>
      (r <- Category.findById id ;; ret (option_map CategoryResource r))
  | Some UserModel =>
      (r <- User.findById id ;; ret (option_map UserResource r))
  | None => throw (JsError "Cannot find module")
  end.

(** [checkOwnership(modelName)] *)
Definition checkOwnership (modelName : string) (req_user : ReqUser)
           (id : ObjectId) : World -> Step Resource * World :=
  catching
    (found <- Model_findById modelName id ;;
     match found with
     | None => ret (Respond (failure 404 (modelName ++ " not found.")))
     | Some resource =>
         if denied resource req_user
         then ret (Respond (failure 403
                "Access denied. You can only modify your own resources."))
         else ret (Next resource)
     end)
    (Respond (failure 500 "Server error during ownership check.")).
End WithLoader.

End Auth.

(** ** controllers/authController.js *)
Module AuthController.

Record RegisterBody : Type := mkRegisterBody {
  reg_username : string;
  reg_email : string;
  reg_password : string
}.

(** The login form: the identifier travels in the field named [email]. *)
Record LoginBody : Type := mkLoginBody {
  login_email : string;
  login_password : string
}.

Section WithLibraries.
Context {core : BcryptCore} {codec : JwtCodec} (cfg : Config).

Definition register (body : RegisterBody) : World -> Response * World :=
  catching
    (existingUser <- User.findOne
       (User.email_or_username (Js.toLowerCase (reg_email body))
                               (reg_username body)) ;;
     match existingUser with
     | Some existing =>
         ret (failure 400
                (if String.eqb (email existing)
                               (Js.toLowerCase (reg_email body))
                 then "Email already exists"
                 else "Username already exists"))
     | None =>
         (user <- User.create (reg_username body) (reg_email body)
                              (reg_password body) ;;
          token <- Auth.generateToken cfg (user_id user) ;;
          ret (mkResponse 201 true "User registered successfully"
                 (AuthData (user_id user) (username user) (email user)
                           (role user) token)))
     end)
    (failure 500 "Server error during registration").

Definition login (body : LoginBody) : World -> Response * World :=
  catching
    (found <- User.findByEmailOrUsername (login_email body) ;;
     match found with
     | None => ret (failure 401 "Invalid credentials")
     | Some user =>
         (matches <- lift (User.comparePassword (login_password body) user) ;;
          if negb matches then ret (failure 401 "Invalid credentials")
          else if negb (isActive user)
          then ret (failure 401 "Account is deactivated")
          else
            (token <- Auth.generateToken cfg (user_id user) ;;
             t <- gets now ;;
             user <- User.save (User.set_lastLogin (Some t) user) ;;
             ret (mkResponse 200 true "Login successful"
                    (AuthData (user_id user) (username user) (email user)
                              (role user) token))))
     end)
    (failure 500 "Server error during login").
End WithLibraries.

End AuthController.

(** ** controllers/postController.js

    [populate] only decorates the document that is sent back; a response here
    carries the document itself.  The loggers are left out. *)
Module PostController.

Record CreateBody : Type := mkCreateBody {
  new_title : string;
  new_content : string;
  new_category : ObjectId;
  new_tags : option (list string);
  new_status : option string
}.

(** The ownership test of [updatePost] and [deletePost]:
    [post.author.toString() !== req.user._id.toString() &&
     req.user.role !== 'admin']. *)
Definition forbidden (post : PostDoc) (user : ReqUser) : bool :=
  negb (N.eqb (author post) (ru_id user))
  && negb (role_eqb (ru_role user) RoleAdmin).

Definition getPost (id : ObjectId) : World -> Response * World :=
  catching
    (found <- Post.findById id ;;
     match found with
     | None => ret (failure 404 "Post not found")
     | Some post =>
         (post <- Post.save false (Post.set_views (views post + 1)%N post) ;;
          ret (mkResponse 200 true EmptyString (PostData post)))
     end)
    (failure 500 "Server error retrieving post").

Definition createPost (req_user : ReqUser) (body : CreateBody)
  : World -> Response * World :=
  catching
    (categoryExists <- Category.findById (new_category body) ;;
     match categoryExists with
     | None => ret (failure 400 "Invalid category")
     | Some cat =>
         (post <- Post.create (new_title body) (new_content body)
                    (new_category body) (ru_id req_user)
                    (Post.or_else (new_tags body) [])
                    (match new_status body with
                     | Some st => if String.eqb st EmptyString then "published"
                                  else st
                     | None => "published"
                     end) ;;
          io ;;  (* post.populate('author', 'username') *)
          io ;;  (* post.populate('category', 'name') *)
          Category.updatePostCount cat ;;
          ret (mkResponse 201 true "Post created successfully" (PostData post)))
     end)
    (failure 500 "Server error creating post").

Definition updatePost (req_user : ReqUser) (id : ObjectId) (body : Post.Update)
  : World -> Response * World :=
  catching
    (found <- Post.findById id ;;
     match found with
     | None => ret (failure 404 "Post not found")
     | Some post =>
         if forbidden post req_user
         then ret (failure 403 "Not authorized to update this post")
         else
           (category_ok <-
              match Post.upd_category body with
              | Some cat =>
                  (categoryExists <- Category.findById cat ;;
                   ret (match categoryExists with Some _ => true | None => false end))
              | None => ret true
              end ;;
            if negb category_ok then ret (failure 400 "Invalid category")
            else
              (updatedPost <- Post.findByIdAndUpdate id body ;;
               match updatedPost with
               | None => throw (JsError "Cannot read properties of null")
               | Some updated =>
                   ret (mkResponse 200 true "Post updated successfully"
                          (PostData updated))
               end))
     end)
    (failure 500 "Server error updating post").

Definition deletePost (req_user : ReqUser) (id : ObjectId)
  : World -> Response * World :=
  catching
    (found <- Post.findById id ;;
     match found with
     | None => ret (failure 404 "Post not found")
     | Some post =>
         if forbidden post req_user
         then ret (failure 403 "Not authorized to delete this post")
         else
           (Post.findByIdAndDelete id ;;
            cat <- Category.findById (category post) ;;
            match cat with
            | Some c => (Category.updatePostCount c ;; ret tt)
            | None => ret tt
            end ;;
            ret (mkResponse 200 true "Post deleted successfully" NoData))
     end)
    (failure 500 "Server error deleting post").

Definition likePost (req_user : ReqUser) (id : ObjectId)
  : World -> Response * World :=
  catching
    (found <- Post.findById id ;;
     match found with
     | None => ret (failure 404 "Post not found")
     | Some post =>
         (post <- Post.addLike (ru_id req_user) post ;;
          ret (mkResponse 200 true "Post liked successfully"
                 (LikesData (Post.likeCount post))))
     end)
    (failure 500 "Server error liking post").

Definition unlikePost (req_user : ReqUser) (id : ObjectId)
  : World -> Response * World :=
  catching
    (found <- Post.findById id ;;
     match found with
     | None => ret (failure 404 "Post not found")
     | Some post =>
         (post <- Post.removeLike (ru_id req_user) post ;;
          ret (mkResponse 200 true "Post unliked successfully"
                 (LikesData (Post.likeCount post))))
     end)
    (failure 500 "Server error unliking post").

(** The world after [n] retrievals of the same post, one after the other. *)
Fixpoint retrieve (n : nat) (id : ObjectId) (w : World) : World :=
  match n with
  | O => w
  | S k => retrieve k id (snd (getPost id w))
  end.

End PostController.

(** ** The access policy, in the specification's words

    An actor may access a resource if the actor is an admin or the resource's
    owner is the actor. *)
Definition canAccess (actor : ReqUser) (post : PostDoc) : bool :=
  role_eqb (ru_role actor) RoleAdmin || N.eqb (author post) (ru_id actor).

(** ** Expected answers and documents *)

Definition updated_ok (p : PostDoc) : Response :=
  mkResponse 200 true "Post updated successfully" (PostData p).


(** A post after one more view. *)
Definition viewed (post : PostDoc) : PostDoc :=
  Post.set_views (views post + 1)%N post.

(** ** The category of an update *)


(** ** Sample data *)
Module Sample.

#[local] Open Scope N_scope.

(** A stand-in for the key schedule: the salt followed by 31 characters
    drawn from the password. *)
Definition crypt (s salt : string) : Outcome string :=
  Ok (salt ++ String.substring 0 31 (s ++ "..............................."))%string.

Definition core : BcryptCore :=
  {| bcrypt_genSalt := fun _ _ => "$2a$12$abcdefghijklmnopqrstuv";
     bcrypt_crypt := crypt |}.

Definition alice : UserDoc :=
  mkUser 1 "alice" "alice@example.com"
         "$2a$12$abcdefghijklmnopqrstuvPassw0rd......................."
         RoleUser true None.

Definition bob : UserDoc :=
  mkUser 2 "bob" "bob@example.com"
         "$2a$12$abcdefghijklmnopqrstuvS3cretPass....................."
         RoleUser true None.

Definition root : UserDoc :=
  mkUser 3 "root" "root@example.com"
         "$2a$12$abcdefghijklmnopqrstuvAdm1nPass......................"
         RoleAdmin true None.



Definition tech : CategoryDoc := mkCategory 10 "Technology" true 1.

Definition hello : PostDoc :=
  mkPost 20 "Hello world" "A first post about nothing." "hello-world"
         10 1 [] Published 1000%Z 0 [] [] false.

Definition store : Db := mkDb [alice; bob; root] [hello] [tech].

(** The sample store at clock [t] (ms), with the database up. *)
Definition world_at (t : Z) : World := mkWorld store t [] 100 0.

Definition world : World := world_at 1700000000000.

(** The same world with a schedule of outages. *)
Definition world_with (o : list bool) : World := with_outages o world.

(** A token table standing in for the codec: ["alice.jwt"], ["bob.jwt"] and
    ["root.jwt"] are the tokens issued in [world] under the default secret,
    ["forged.jwt"] names Alice under another key, ["stale.jwt"] is a token of
    hers that has run out. *)
Definition issued (id : ObjectId) : JwtPayload :=
  mkPayload (Some id) 1700000000%Z (Some 1700604800%Z).

Definition encode (j : Jws) : string :=
  match jwt_userId (jws_payload j) with
  | Some 1 => "alice.jwt"
  | Some 2 => "bob.jwt"
  | Some 3 => "root.jwt"
  | _ => "guest.jwt"
  end.

Definition decode (token : string) : option Jws :=
  if String.eqb token "alice.jwt"
  then Some (mkJws (issued 1) (JWT_SECRET default_config))
  else if String.eqb token "bob.jwt"
  then Some (mkJws (issued 2) (JWT_SECRET default_config))
  else if String.eqb token "root.jwt"
  then Some (mkJws (issued 3) (JWT_SECRET default_config))
  else if String.eqb token "forged.jwt"
  then Some (mkJws (issued 1) "guess")
  else if String.eqb token "stale.jwt"
  then Some (mkJws (mkPayload (Some 1) 1600000000%Z (Some 1600604800%Z))
                   (JWT_SECRET default_config))
  else None.

Definition codec : JwtCodec :=
  {| jwt_encode := encode; jwt_decode := decode |}.

(** The paths that load a model on the server's file system. *)
Definition require_ (modelName : string) : option ModelName :=
  if String.eqb modelName "Post" || String.eqb modelName "Post.js"
     || String.eqb modelName "./Post" then Some PostModel
  else if String.eqb modelName "Category" || String.eqb modelName "Category.js"
          || String.eqb modelName "./Category" then Some CategoryModel
  else if String.eqb modelName "User" || String.eqb modelName "User.js"
          || String.eqb modelName "./User" then Some UserModel
  else None.

Definition loader : ModuleLoader :=
  {| require_model := require_;
     require_Post := eq_refl;
     require_Category := eq_refl;
     require_User := eq_refl |}.

End Sample.

(** * More of the application *)

(** ** models/Post.js and models/Category.js, continued *)
Module PostMore.

Definition set_comments (l : list Comment) (p : PostDoc) : PostDoc :=
  mkPost (post_id p) (title p) (content p) (slug p) (category p) (author p)
         (tags p) (status p) (publishedAt p) (views p) (likes p) l
         (featured p).

(** Virtual [commentCount] *)
Definition commentCount (p : PostDoc) : nat := List.length (comments p).

(** Virtual [readingTime]:
    [Math.ceil(this.content.split(' ').length / wordsPerMinute)] with 200
    words per minute. *)
Definition readingTime (p : PostDoc) : nat :=
  let words := List.length (Js.split " "%char (content p)) in
  (words + 199) / 200.

(** The validators of a comment: [content] is required and at most 500
    characters long ([user] is required too, and always present). *)
Definition comment_valid (c : Comment) : bool :=
  negb (String.eqb (comment_content c) EmptyString)
  && (String.length (comment_content c) <=? 500)%nat.

(** [postSchema.methods.addComment] *)
Definition addComment (userId : ObjectId) (content_ : string) (this : PostDoc)
  : M PostDoc :=
  (t <- gets now ;;
   let pushed := mkComment userId (Js.trim content_) t in
   if negb (comment_valid pushed) then throw (ValidationError "comments.content")
   else Post.save true (set_comments (comments this ++ [pushed]) this)).

Definition is_hyphen (c : ascii) : bool := Ascii.eqb c "-"%char.

(** The whole chain of the [pre('save')] hooks of both schemas:
    [.toLowerCase().replace(/[^a-zA-Z0-9\s]/g, '').replace(/\s+/g, '-')
     .replace(/-+/g, '-').trim()] *)
Definition slug_chain (t : string) : string :=
  Js.trim
    (Js.collapse_runs is_hyphen false
       (Js.collapse_runs Js.is_space false
          (Js.filter_chars (fun c => Js.is_alnum c || Js.is_space c)
             (Js.toLowerCase t)))).

(** The characters of a slug. *)
Definition is_slug_char (c : ascii) : bool :=
  let n := nat_of_ascii c in
  ((48 <=? n)%nat && (n <=? 57)%nat) || ((97 <=? n)%nat && (n <=? 122)%nat)
  || is_hyphen c.

Fixpoint all_chars (p : ascii -> bool) (s : string) : bool :=
  match s with
  | EmptyString => true
  | String c r => p c && all_chars p r
  end.

(** No two hyphens in a row. *)
Fixpoint single_hyphens (s : string) : bool :=
  match s with
  | String a ((String b _) as r) =>
      negb (is_hyphen a && is_hyphen b) && single_hyphens r
  | _ => true
  end.

(** What the first two steps of the chain let through: digits, lower-case
    letters and white space. *)
Definition slug_source (c : ascii) : bool :=
  let n := nat_of_ascii c in
  ((48 <=? n)%nat && (n <=? 57)%nat) || ((97 <=? n)%nat && (n <=? 122)%nat)
  || Js.is_space c.

Definition head_hyphen (s : string) : bool :=
  match s with
  | String c _ => is_hyphen c
  | EmptyString => false
  end.

End PostMore.

(** ** middleware/validation.js: the category rule *)
Module Validation.

(** [validateCategoryExists] *)
Definition validateCategoryExists (category_ : ObjectId)
  : World -> Step unit * World :=
  catching
    (found <- Category.findById category_ ;;
     match found with
     | None => ret (Respond (failure 400 "Category does not exist or is inactive"))
     | Some c =>
         if negb (cat_isActive c)
         then ret (Respond (failure 400 "Category does not exist or is inactive"))
         else ret (Next tt)
     end)
    (Respond (failure 500 "Server error during category validation")).

End Validation.

(** ** controllers/authController.js, continued *)
Module AuthControllerMore.

Record PasswordBody : Type := mkPasswordBody {
  currentPassword : string;
  newPassword : string
}.

Section WithCore.
Context {core : BcryptCore}.

(** [bcrypt.genSalt(12)] *)
Definition genSalt12 : M string :=
  fun w => (Ok (bcrypt_genSalt 12 (seed w)),
            mkWorld (db w) (now w) (outages w) (nextId w) (N.succ (seed w))).

(** [user.password = newPassword; await user.save()]: validation, the
    [pre('save')] hook, which hashes a password that was modified, and the
    write.  Assigning the value the path already has modifies nothing. *)
Definition save_password (newPassword_ : string) (user : UserDoc) : M UserDoc :=
  let doc := mkUser (user_id user) (username user) (email user) newPassword_
                    (role user) (isActive user) (lastLogin user) in
  match User.validate doc with
  | Some path => throw (ValidationError path)
  | None =>
      (hashed <-
         (if String.eqb newPassword_ (password user) then ret newPassword_
          else (salt <- genSalt12 ;; lift (bcrypt.hash newPassword_ salt))) ;;
       let doc := mkUser (user_id user) (username user) (email user) hashed
                         (role user) (isActive user) (lastLogin user) in
       io ;;
       stored <- gets (fun w => lookupById user_id (user_id doc) (users (db w))) ;;
       match stored with
       | None => throw DocumentNotFound
       | Some _ =>
           (modify_db (fun d => with_users (replaceById user_id doc (users d)) d) ;;
            ret doc)
       end)
  end.

(** [changePassword] *)
Definition changePassword (req_user : ReqUser) (body : PasswordBody)
  : World -> Response * World :=
  catching
    (found <- User.findById (ru_id req_user) ;;
     match found with
     | None => throw (JsError "Cannot read properties of null")
     | Some user =>
         (matches <- lift (User.comparePassword (currentPassword body) user) ;;
          if negb matches
          then ret (failure 400 "Current password is incorrect")
          else
            (save_password (newPassword body) user ;;
             ret (mkResponse 200 true "Password changed successfully" NoData)))
     end)
    (failure 500 "Server error changing password").
End WithCore.

End AuthControllerMore.

(** ** controllers/postController.js, continued *)
Module PostControllerMore.

(** The answer of [addComment]: [data.comments] is the comment count. *)
Record CommentResponse : Type := mkCommentResponse {
  cres_status : nat;
  cres_success : bool;
  cres_message : string;
  cres_comments : option nat
}.

Definition comment_failure (code : nat) (msg : string) : CommentResponse :=
  mkCommentResponse code false msg None.

(** [addComment] *)
Definition addComment (req_user : ReqUser) (id : ObjectId) (content_ : string)
  : World -> CommentResponse * World :=
  catching
    (found <- Post.findById id ;;
     match found with
     | None => ret (comment_failure 404 "Post not found")
     | Some post =>
         (post <- PostMore.addComment (ru_id req_user) content_ post ;;
          ret (mkCommentResponse 201 true "Comment added successfully"
                 (Some (PostMore.commentCount post))))
     end)
    (comment_failure 500 "Server error adding comment").

End PostControllerMore.

(** ** Shapes of the account collection *)

(** No two accounts share an email, and no two share a user name: what the
    two unique indexes keep. *)
Definition accounts_unique (l : list UserDoc) : Prop :=
  NoDup (map email l) /\ NoDup (map username l).

(** No account appears twice in a like set. *)
Definition likes_distinct (p : PostDoc) : Prop :=
  NoDup (map like_user (likes p)).

(** The account [User.create] stores for a body, once the password is hashed,
    in a world whose next identifier is [nextId w]. *)
Definition created_account (w : World) (uname mail hashed : string) : UserDoc :=
  mkUser (nextId w) (Js.trim uname) (Js.toLowerCase (Js.trim mail)) hashed
         RoleUser true None.

(** The answer of a login that succeeds for account [u] at clock [t]. *)
Definition login_ok {codec : JwtCodec} (cfg : Config) (u : UserDoc) (t : Z)
  : Response :=
  mkResponse 200 true "Login successful"
    (AuthData (user_id u) (username u) (email u) (role u)
       (jwt.sign (user_id u) (JWT_SECRET cfg) (JWT_EXPIRE cfg) t)).

(** An account after its password was changed to the hash [hashed]. *)
Definition with_password (hashed : string) (u : UserDoc) : UserDoc :=
  mkUser (user_id u) (username u) (email u) hashed (role u) (isActive u)
         (lastLogin u).

(** The status [createPost] asks for: [status || 'published']. *)
Definition requested_status (body : PostController.CreateBody) : string :=
  match PostController.new_status body with
  | Some st => if String.eqb st EmptyString then "published" else st
  | None => "published"
  end.

(** The post [createPost] stores for [actor] and a body whose status is
    [st], in a world whose next identifier is [nextId w]. *)
Definition created_post (w : World) (actor : ReqUser)
           (body : PostController.CreateBody) (st : Status) : PostDoc :=
  let t := Js.trim (PostController.new_title body) in
  mkPost (nextId w) t (PostController.new_content body)
         (Js.toLowerCase (Js.trim (Post.slugify t)))
         (PostController.new_category body) (ru_id actor)
         (map (fun x => Js.toLowerCase (Js.trim x))
              (Post.or_else (PostController.new_tags body) []))
         st (now w) 0%N [] [] false.

(** Some stored post has this slug. *)
Definition slug_taken (s : string) (l : list PostDoc) : bool :=
  existsb (fun p => String.eqb (slug p) s) l.

(** The category [id] is stored and switched on. *)
Definition active_category (id : ObjectId) (d : Db) : bool :=
  match lookupById cat_id id (categories d) with
  | Some c => cat_isActive c
  | None => false
  end.

(** ** What a request on one post may write *)

(** The paths of a post that no engagement request writes. *)
Definition same_article (p q : PostDoc) : Prop :=
  post_id q = post_id p /\ title q = title p /\ content q = content p
  /\ slug q = slug p /\ category q = category p /\ author q = author p
  /\ tags q = tags p /\ status q = status p
  /\ publishedAt q = publishedAt p /\ featured q = featured p.

(** [w1] differs from [w] at most in the views, likes and comments of the
    post [id]. *)
Definition touches_one_post (id : ObjectId) (w w1 : World) : Prop :=
  map post_id (posts (db w1)) = map post_id (posts (db w))
  /\ (forall j, j <> id ->
        lookupById post_id j (posts (db w1)) = lookupById post_id j (posts (db w)))
  /\ (forall p, lookupById post_id id (posts (db w)) = Some p ->
        exists q, lookupById post_id id (posts (db w1)) = Some q
                  /\ same_article p q)
  /\ users (db w1) = users (db w)
  /\ categories (db w1) = categories (db w).

(** No write, or one write of the post [id] that keeps its article. *)
Definition wrote_at_most (id : ObjectId) (w w1 : World) : Prop :=
  db w1 = db w
  \/ exists p q, lookupById post_id id (posts (db w)) = Some p
                 /\ same_article p q
                 /\ db w1 = with_posts (replaceById post_id q (posts (db w))) (db w).

(** ** client/src/utils/validation.js

    A form value is a string or is missing ([null], [undefined]). *)
Module ClientValidation.

(** [validateRequired] *)
Definition validateRequired (value : option string) : bool :=
  match value with
  | None => false
  | Some s => (0 <? String.length (Js.trim s))%nat
  end.

(** [validateMinLength] *)
Definition validateMinLength (value : option string) (minLength : nat) : bool :=
  match value with
  | None => false
  | Some s => (minLength <=? String.length (Js.trim s))%nat
  end.

(** [validateMaxLength]: [!value || ...], and the empty string is falsy. *)
Definition validateMaxLength (value : option string) (maxLength : nat) : bool :=
  match value with
  | None => true
  | Some EmptyString => true
  | Some s => (String.length (Js.trim s) <=? maxLength)%nat
  end.

Record PostForm : Type := mkPostForm {
  form_title : option string;
  form_content : option string;
  form_category : option string
}.

(** The [errors] object of [validatePost]: a message per key that was set. *)
Record PostErrors : Type := mkPostErrors {
  err_title : option string;
  err_content : option string;
  err_category : option string
}.

Record PostValidation : Type := mkPostValidation {
  isValid : bool;
  errors : PostErrors
}.

Definition is_set (o : option string) : bool :=
  match o with Some _ => true | None => false end.

(** [validatePost] *)
Definition validatePost (post : PostForm) : PostValidation :=
  let e_title :=
    if negb (validateRequired (form_title post)) then Some "Title is required"
    else if negb (validateMinLength (form_title post) 3)
         then Some "Title must be at least 3 characters"
    else if negb (validateMaxLength (form_title post) 100)
         then Some "Title must be less than 100 characters"
    else None in
  let e_content :=
    if negb (validateRequired (form_content post)) then Some "Content is required"
    else if negb (validateMinLength (form_content post) 10)
         then Some "Content must be at least 10 characters"
    else None in
  let e_category :=
    if negb (validateRequired (form_category post)) then Some "Category is required"
    else None in
  mkPostValidation
    (negb (is_set e_title || is_set e_content || is_set e_category))
    (mkPostErrors e_title e_content e_category).

End ClientValidation.

(** ** More sample data *)
Module MoreSamples.

#[local] Open Scope N_scope.

(** The sample post once Bob has liked it. *)
Definition liked : PostDoc :=
  Post.set_likes [mkLike 2 1700000000000%Z] Sample.hello.

(** A category that was switched off. *)
Definition retired : CategoryDoc := mkCategory 11 "Retired" false 0.

Definition store : Db := mkDb [Sample.alice; Sample.bob; Sample.root]
                              [Sample.hello] [Sample.tech; retired].

Definition world : World := mkWorld store 1700000000000%Z [] 100 0.

(** The same world with a schedule of outages. *)
Definition world_with (o : list bool) : World := with_outages o world.

(** A post for the retired category, and one whose title gives the slug of
    the stored post. *)
Definition second : PostController.CreateBody :=
  PostController.mkCreateBody " Second post " "Content long enough" 11 None None.

Definition again : PostController.CreateBody :=
  PostController.mkCreateBody "Hello, World!" "Content long enough" 10 None None.

(** Text beyond ASCII: U+00E9 (e with acute accent) and the no-break space
    U+00A0. *)
Definition e_acute : ascii := ascii_of_nat 233.

Fixpoint repeat_char (c : ascii) (n : nat) : string :=
  match n with
  | O => EmptyString
  | S k => String c (repeat_char c k)
  end.


Definition two_letters : PostController.CreateBody :=
  PostController.mkCreateBody (repeat_char e_acute 2) "Content long enough"
    10 None None.

End MoreSamples.


(** * Properties *)

(** ** Collections and the monad *)
Section CollectionFacts.
Context {D : Type} (id_of : D -> ObjectId).

Lemma lookupById_id (id : ObjectId) (l : list D) (d : D) :
  lookupById id_of id l = Some d -> id_of d = id.
Proof.
  unfold lookupById. intros H. apply find_some in H.
  destruct H as [_ H]. now apply N.eqb_eq.
Qed.

Lemma lookupById_In (id : ObjectId) (l : list D) (d : D) :
  lookupById id_of id l = Some d -> In d l.
Proof. unfold lookupById. intros H. now apply find_some in H. Qed.

Lemma lookupById_replaceById (d x : D) (l : list D) :
  lookupById id_of (id_of d) l = Some x ->
  lookupById id_of (id_of d) (replaceById id_of d l) = Some d.
Proof.
  induction l as [|y l IH]; simpl; [discriminate|].
  destruct (N.eqb (id_of y) (id_of d)) eqn:E; simpl.
  - intros _. now rewrite N.eqb_refl.
  - rewrite E. exact IH.
Qed.

End CollectionFacts.

Arguments lookupById : simpl never.

Lemma io_healthy (w : World) : healthy w -> io w = (Ok tt, w).
Proof. unfold healthy, io. now intros ->. Qed.

Lemma bind_run {A B} (m : M A) (k : A -> M B) (w w' : World) (a : A) :
  m w = (Ok a, w') -> bind m k w = k a w'.
Proof. unfold bind. now intros ->. Qed.

Lemma bind_throw {A B} (m : M A) (k : A -> M B) (w w' : World) (e : Error) :
  m w = (Throw e, w') -> bind m k w = (Throw e, w').
Proof. unfold bind. now intros ->. Qed.

(** Splits on an innermost scrutinee of the goal. *)
Ltac case_split :=
  match goal with
  | |- context [match ?x with _ => _ end] =>
      lazymatch x with
      | context [match _ with _ => _ end] => fail
      | _ => destruct x eqn:?; simpl
      end
  end.

(** Unfolds the plumbing of awaited code. *)
Ltac run :=
  unfold catching, bind, ret, gets, throw, lift, modify_db, freshId in *;
  simpl in *.

(** ** Likes *)

Lemma liked_by_after_push (u : ObjectId) (t : Z) (p : PostDoc) :
  Post.liked_by u (Post.set_likes (likes p ++ [mkLike u t]) p) = true.
Proof.
  unfold Post.liked_by. simpl. rewrite existsb_app. simpl.
  rewrite N.eqb_refl. now rewrite orb_true_r.
Qed.

Lemma filter_not_liked (u : ObjectId) (l : list Like) :
  existsb (fun k => N.eqb (like_user k) u) l = false ->
  filter (fun k => negb (N.eqb (like_user k) u)) l = l.
Proof.
  induction l as [|k l IH]; simpl; [reflexivity|].
  intros H. apply orb_false_iff in H. destruct H as [H1 H2].
  rewrite H1. simpl. now rewrite IH.
Qed.

Lemma set_likes_same (p : PostDoc) : Post.set_likes (likes p) p = p.
Proof. now destruct p. Qed.

Lemma save_result (v : bool) (p p1 : PostDoc) (w w1 : World) :
  Post.save v p w = (Ok p1, w1) ->
  p1 = p /\ lookupById post_id (post_id p) (posts (db w1)) = Some p
  /\ outages w1 = tl (outages w).
Proof.
  unfold Post.save.
  destruct (if v then Post.validate p else None); [run; discriminate|].
  run. unfold io.
  destruct (outages w) as [|[] o] eqn:Ho; simpl; try discriminate;
    destruct (lookupById post_id (post_id p) (posts (db w))) eqn:L;
    try discriminate; intros H; inversion H; subst; simpl;
    (split; [reflexivity|split; [eapply lookupById_replaceById; eauto|]]);
    try rewrite Ho; reflexivity.
Qed.

(** C2. The like protocol is idempotent.  A second [addLike] by the same
    account finds the account in the set and resolves with the document as it
    is, touching neither the collection nor the database; so liking twice
    leaves the like set, and its size, as after liking once.  [removeLike] by
    an account that is not in the set saves the document with its like set
    unchanged.  At the HTTP
    level a repeated [likePost] answers 200 with the same count and leaves the
    world as it was. *)
Theorem like_protocol_idempotent (u : ObjectId) (p : PostDoc) (w : World) :
  (forall p1 w1, Post.addLike u p w = (Ok p1, w1) ->
     Post.addLike u p1 w1 = (Ok p1, w1)) /\
  (Post.liked_by u p = true -> Post.addLike u p w = (Ok p, w)) /\
  (Post.liked_by u p = false ->
     Post.removeLike u p w = Post.save true p w
     /\ forall p1 w1, Post.removeLike u p w = (Ok p1, w1) ->
          likes p1 = likes p /\ Post.likeCount p1 = Post.likeCount p
          /\ lookupById post_id (post_id p) (posts (db w1)) = Some p) /\
  (forall (actor : ReqUser) r1 w1,
     ru_id actor = u -> healthy w ->
     PostController.likePost actor (post_id p) w = (r1, w1) ->
     res_status r1 = 200%nat ->
     PostController.likePost actor (post_id p) w1 = (r1, w1)).
Proof.
  assert (twice : forall q v q1 v1, Post.addLike u q v = (Ok q1, v1) ->
                    Post.addLike u q1 v1 = (Ok q1, v1)).
  { intros q v q1 v1. unfold Post.addLike.
    destruct (Post.liked_by u q) eqn:L; simpl.
    - unfold ret. intros H. inversion H; subst. now rewrite L.
    - unfold bind at 1, gets. intros H. apply save_result in H.
      destruct H as (-> & _ & _). now rewrite liked_by_after_push. }
  split; [exact (twice p w)|]. split; [|split].
  - intros L. unfold Post.addLike. now rewrite L.
  - intros L. unfold Post.removeLike.
    rewrite (filter_not_liked u (likes p) L), set_likes_same.
    split; [reflexivity|]. intros p1 w1 H. apply save_result in H.
    now destruct H as (-> & H & _).
  - intros actor r1 w1 Hu Hw H H200. subst u.
    unfold PostController.likePost in H.
    unfold catching, bind at 1 in H. unfold Post.findById, bind at 1 in H.
    rewrite (io_healthy w Hw) in H. unfold gets at 1 in H.
    destruct (lookupById post_id (post_id p) (posts (db w))) as [q|] eqn:Lq.
    + assert (Hid : post_id q = post_id p) by (eapply lookupById_id; eauto).
      unfold bind at 1 in H.
      destruct (Post.addLike (ru_id actor) q w) as [[q1|e] v1] eqn:A.
      * unfold ret in H. inversion H; subst r1 w1. clear H H200.
        pose proof (twice _ _ _ _ A) as A2.
        assert (Lq1 : lookupById post_id (post_id p) (posts (db v1)) = Some q1
                      /\ healthy v1).
        { unfold Post.addLike in A.
          destruct (Post.liked_by (ru_id actor) q); simpl in A.
          - inversion A; subst. now split.
          - unfold bind at 1, gets in A.
            apply save_result in A. destruct A as (-> & A & Ho). simpl in *.
            rewrite <- Hid. split; [exact A|]. unfold healthy in *.
            now rewrite Ho, Hw. }
        destruct Lq1 as [Lq1 Hv1].
        unfold PostController.likePost, catching, bind at 1.
        unfold Post.findById, bind at 1.
        rewrite (io_healthy v1 Hv1). unfold gets at 1. rewrite Lq1.
        unfold bind at 1. rewrite A2. reflexivity.
      * inversion H; subst. discriminate.
    + unfold ret in H. inversion H; subst. discriminate.
Qed.

Lemma like_protocol_idempotent_witness :
  let bob := User.select_no_password Sample.bob in
  let once := PostController.likePost bob 20%N Sample.world in
  PostController.likePost bob 20%N (snd once) = (fst once, snd once)
  /\ res_data (fst once) = LikesData 1
  /\ Post.removeLike 1%N Sample.hello Sample.world
     = Post.save true Sample.hello Sample.world.
Proof.
  split; [|split].
  - exact (proj2 (proj2 (proj2
             (like_protocol_idempotent 2%N Sample.hello Sample.world)))
             (User.select_no_password Sample.bob)
             (fst (PostController.likePost (User.select_no_password Sample.bob)
                     20%N Sample.world))
             (snd (PostController.likePost (User.select_no_password Sample.bob)
                     20%N Sample.world))
             eq_refl eq_refl eq_refl eq_refl).
  - reflexivity.
  - exact (proj1 (proj1 (proj2 (proj2
             (like_protocol_idempotent 1%N Sample.hello Sample.world)))
             eq_refl)).
Defined.

(** ** Ownership of posts *)

Lemma Post_findById_healthy (id : ObjectId) (w : World) :
  healthy w ->
  Post.findById id w = (Ok (lookupById post_id id (posts (db w))), w).
Proof. intros H. unfold Post.findById. run. now rewrite (io_healthy w H). Qed.

Lemma Category_findById_healthy (id : ObjectId) (w : World) :
  healthy w ->
  Category.findById id w = (Ok (lookupById cat_id id (categories (db w))), w).
Proof. intros H. unfold Category.findById. run. now rewrite (io_healthy w H). Qed.


(** With the database up and a valid category, the recount is stored. *)
Lemma updatePostCount_healthy (c : CategoryDoc) (w : World) :
  healthy w -> Category.validate c = None ->
  lookupById cat_id (cat_id c) (categories (db w)) = Some c ->
  let n := Post.count (cat_id c) Published (posts (db w)) in
  Category.updatePostCount c w =
    (Ok (Category.set_postCount n c),
     with_db (with_categories
                (replaceById cat_id (Category.set_postCount n c)
                             (categories (db w))) (db w)) w).
Proof.
  intros H V L. unfold Category.updatePostCount, Post.countDocuments.
  unfold Category.save, Category.validate in *. simpl. rewrite V.
  run. rewrite (io_healthy w H). simpl. rewrite (io_healthy w H). simpl.
  now rewrite L.
Qed.




(** ** The published-post count of a category *)

(** X21.  [createPost] recounts: after a 201 the stored count of the post's
    category is the number of its published posts. *)
Lemma createPost_recounts (actor : ReqUser) (body : PostController.CreateBody)
      (w w1 : World) (r : Response) :
  healthy w ->
  PostController.createPost actor body w = (r, w1) ->
  res_status r = 201%nat ->
  exists c,
    lookupById cat_id (PostController.new_category body) (categories (db w1))
      = Some c
    /\ postCount c
       = Post.count (PostController.new_category body) Published (posts (db w1)).
Proof.
  intros Hw H H201. unfold PostController.createPost, catching in H.
  rewrite (bind_run _ _ _ _ _
             (Category_findById_healthy (PostController.new_category body) w Hw))
    in H.
  destruct (lookupById cat_id (PostController.new_category body)
                       (categories (db w))) as [c|] eqn:L.
  2: { run. inversion H; subst. discriminate. }
  assert (Hc : cat_id c = PostController.new_category body)
    by (eapply lookupById_id; eauto).
  unfold bind at 1 in H.
  destruct (Post.create _ _ _ _ _ _ w) as [[post|e] v] eqn:C.
  2: { inversion H; subst. discriminate. }
  assert (Hv : healthy v /\ categories (db v) = categories (db w)).
  { unfold Post.create in C. run.
    destruct (status_of_string _); [|discriminate].
    destruct (Post.validate _); [discriminate|].
    unfold io in C. simpl in C. pose proof Hw as Ho. unfold healthy in Ho.
    rewrite Ho in C. simpl in C.
    destruct (existsb _ _); [discriminate|].
    inversion C; subst. now split. }
  destruct Hv as [Hv Hcats].
  unfold bind at 1 in H. rewrite (io_healthy v Hv) in H.
  unfold bind at 1 in H. rewrite (io_healthy v Hv) in H.
  unfold bind at 1 in H.
  destruct (Category.validate c) as [path|] eqn:V.
  - unfold Category.updatePostCount, Post.countDocuments in H. run.
    rewrite (io_healthy v Hv) in H. simpl in H.
    unfold Category.save, Category.validate in *. simpl in H. rewrite V in H.
    run. inversion H; subst. discriminate.
  - rewrite <- Hc, <- Hcats in L.
    rewrite (updatePostCount_healthy c v Hv V L) in H. run.
    inversion H; subst. simpl. eexists. split.
    + rewrite <- Hc. eapply lookupById_replaceById with (d := Category.set_postCount _ c).
      simpl. exact L.
    + simpl. now rewrite Hc.
Qed.

(** X22.  [deletePost] recounts: after a 200 the stored count of the deleted
    post's category, if the category still exists, is the number of its published
    posts. *)
Lemma deletePost_recounts (actor : ReqUser) (id : ObjectId) (post : PostDoc)
      (w w1 : World) (r : Response) (c : CategoryDoc) :
  healthy w ->
  lookupById post_id id (posts (db w)) = Some post ->
  PostController.deletePost actor id w = (r, w1) ->
  res_status r = 200%nat ->
  lookupById cat_id (category post) (categories (db w1)) = Some c ->
  postCount c = Post.count (category post) Published (posts (db w1)).
Proof.
  intros Hw L H H200 Lc. unfold PostController.deletePost, catching in H.
  rewrite (bind_run _ _ _ _ _ (Post_findById_healthy id w Hw)), L in H.
  destruct (PostController.forbidden post actor); simpl in H.
  { run. inversion H; subst. discriminate. }
  unfold Post.findByIdAndDelete in H. run. rewrite (io_healthy w Hw) in H.
  simpl in H.
  set (w' := with_db (with_posts (removeById post_id id (posts (db w))) (db w)) w)
    in H.
  assert (Hw' : healthy w') by exact Hw.
  rewrite (Category_findById_healthy (category post) w' Hw') in H.
  destruct (lookupById cat_id (category post) (categories (db w'))) as [c0|] eqn:L0.
  - assert (Hc : cat_id c0 = category post) by (eapply lookupById_id; eauto).
    rewrite <- Hc in L0.
    destruct (Category.validate c0) as [path|] eqn:V.
    + unfold Category.updatePostCount, Post.countDocuments in H. run.
      rewrite (io_healthy w' Hw') in H. simpl in H.
      unfold Category.save, Category.validate in *. simpl in H. rewrite V in H.
      run. inversion H; subst. discriminate.
    + rewrite (updatePostCount_healthy c0 w' Hw' V L0) in H.
      inversion H; subst r w1. clear H. simpl in Lc. rewrite <- Hc in Lc.
      assert (E : Some c
                  = Some (Category.set_postCount
                            (Post.count (cat_id c0) Published
                               (removeById post_id id (posts (db w)))) c0))
        by exact (eq_trans (eq_sym Lc)
                    (lookupById_replaceById cat_id
                       (Category.set_postCount _ c0) c0 _ L0)).
      inversion E; subst c. simpl. now rewrite Hc.
  - inversion H; subst r w1. simpl in Lc. unfold w' in L0. simpl in L0.
    congruence.
Qed.

(** [updatePost] never writes to the categories. *)
Lemma updatePost_keeps_categories (actor : ReqUser) (id : ObjectId)
      (body : Post.Update) (w : World) :
  categories (db (snd (PostController.updatePost actor id body w)))
  = categories (db w).
Proof.
  unfold PostController.updatePost, catching, Post.findById, Category.findById,
    Post.findByIdAndUpdate.
  run. unfold io.
  repeat case_split; reflexivity.
Qed.

(** C4 at the failing input.  Alice turns her published post, the only one
    of category 10, into a draft: the update answers 200, no published post
    of the category is left, and the category still says 1. *)
Theorem updatePost_skips_recount :
  let alice := User.select_no_password Sample.alice in
  let to_draft := Post.mkUpdate None None None None (Some "draft") in
  let result := PostController.updatePost alice 20%N to_draft Sample.world in
  res_status (fst result) = 200%nat
  /\ option_map status (lookupById post_id 20%N (posts (db (snd result))))
     = Some Draft
  /\ Post.count 10%N Published (posts (db (snd result))) = 0%N
  /\ option_map postCount (lookupById cat_id 10%N (categories (db (snd result))))
     = Some 1%N.
Proof. repeat split. Qed.

(** ** View counting *)

Lemma Post_findById_result (id : ObjectId) (w w' : World) (x : option PostDoc) :
  Post.findById id w = (Ok x, w') ->
  x = lookupById post_id id (posts (db w)) /\ db w' = db w
  /\ outages w' = tl (outages w).
Proof.
  unfold Post.findById. run. unfold io.
  destruct (outages w) as [|[] o] eqn:Ho; simpl; intros H; inversion H; subst;
    simpl; rewrite ?Ho; auto.
Qed.

Lemma getPost_healthy (id : ObjectId) (post : PostDoc) (w : World) :
  healthy w ->
  lookupById post_id id (posts (db w)) = Some post ->
  PostController.getPost id w
  = (mkResponse 200 true EmptyString (PostData (viewed post)),
     with_db (with_posts (replaceById post_id (viewed post) (posts (db w)))
                         (db w)) w).
Proof.
  intros Hw L. unfold PostController.getPost, catching.
  rewrite (bind_run _ _ _ _ _ (Post_findById_healthy id w Hw)), L.
  assert (Hid : post_id post = id) by (eapply lookupById_id; eauto).
  unfold Post.save. run. rewrite (io_healthy w Hw). simpl.
  now rewrite Hid, L.
Qed.

Lemma retrieve_views (n : nat) :
  forall (id : ObjectId) (post : PostDoc) (w : World),
    healthy w ->
    lookupById post_id id (posts (db w)) = Some post ->
    option_map views
      (lookupById post_id id (posts (db (PostController.retrieve n id w))))
    = Some (views post + N.of_nat n)%N.
Proof.
  induction n as [|n IH]; intros id post w Hw L.
  - simpl. rewrite L. simpl. f_equal. lia.
  - cbn [PostController.retrieve]. rewrite (getPost_healthy id post w Hw L).
    cbn [snd].
    assert (Hid : post_id post = id) by (eapply lookupById_id; eauto).
    rewrite (IH id (viewed post)); [simpl; f_equal; lia|exact Hw|].
    simpl. rewrite <- Hid.
    apply (lookupById_replaceById post_id (viewed post) post).
    simpl. now rewrite Hid.
Qed.

(** C5 (amended).  A retrieval that answers 200 found the post, answers with
    its view counter raised by exactly one, and has stored that document; with
    the database up, [n] retrievals in a row raise the stored counter by
    exactly [n].  When the post is found and storing the counter fails, the
    read itself fails: the answer is 500 and the collection is as before. *)
Theorem getPost_view_counting (id : ObjectId) (w : World) :
  (forall r w1,
     PostController.getPost id w = (r, w1) -> res_status r = 200%nat ->
     exists post,
       lookupById post_id id (posts (db w)) = Some post
       /\ r = mkResponse 200 true EmptyString (PostData (viewed post))
       /\ views (viewed post) = (views post + 1)%N
       /\ lookupById post_id id (posts (db w1)) = Some (viewed post))
  /\ (forall post n,
        healthy w ->
        lookupById post_id id (posts (db w)) = Some post ->
        option_map views
          (lookupById post_id id (posts (db (PostController.retrieve n id w))))
        = Some (views post + N.of_nat n)%N)
  /\ (forall post o,
        lookupById post_id id (posts (db w)) = Some post ->
        outages w = false :: true :: o ->
        PostController.getPost id w
        = (failure 500 "Server error retrieving post", with_outages o w)).
Proof.
  split; [|split].
  - intros r w1 H H200. unfold PostController.getPost, catching in H.
    unfold bind at 1 in H.
    destruct (Post.findById id w) as [[found|e] v] eqn:F.
    2: { inversion H; subst. discriminate. }
    apply Post_findById_result in F. destruct F as (-> & Hdb & _).
    destruct (lookupById post_id id (posts (db w))) as [post|] eqn:L.
    2: { run. inversion H; subst. discriminate. }
    assert (Hid : post_id post = id) by (eapply lookupById_id; eauto).
    unfold bind at 1 in H.
    destruct (Post.save false _ v) as [[saved|e] v1] eqn:S.
    2: { inversion H; subst. discriminate. }
    apply save_result in S. destruct S as (-> & S & _).
    run. inversion H; subst r w1. exists post.
    repeat split. simpl in S. now rewrite Hid in S.
  - intros post n Hw L. now apply retrieve_views.
  - intros post o L Ho.
    assert (Hid : post_id post = id) by (eapply lookupById_id; eauto).
    unfold PostController.getPost, catching, Post.findById, Post.save.
    run. unfold io. rewrite Ho. simpl. rewrite L. simpl. reflexivity.
Qed.

Lemma getPost_view_counting_witness :
  option_map views
    (lookupById post_id 20%N
       (posts (db (PostController.retrieve 3 20%N Sample.world))))
  = Some 3%N
  /\ PostController.getPost 20%N (Sample.world_with [false; true])
     = (failure 500 "Server error retrieving post", Sample.world).
Proof.
  split.
  - exact (proj1 (proj2 (getPost_view_counting 20%N Sample.world))
             Sample.hello 3%nat eq_refl eq_refl).
  - exact (proj2 (proj2 (getPost_view_counting 20%N
                           (Sample.world_with [false; true])))
             Sample.hello [] eq_refl eq_refl).
Defined.

(** C5, as stated, fails: post 20 exists and is found, the write of its
    counter fails, and the read answers 500. *)
Lemma getPost_fails_with_the_counter :
  let w := Sample.world_with [false; true] in
  lookupById post_id 20%N (posts (db w)) = Some Sample.hello
  /\ fst (PostController.getPost 20%N w)
     = failure 500 "Server error retrieving post"
  /\ res_success (fst (PostController.getPost 20%N w)) = false.
Proof. repeat split. Qed.

(** ** Tokens and the authentication gate *)
Section TokenFacts.
Context {codec : JwtCodec} (cfg : Config).

Lemma verifyToken_world (token : string) (w w' : World) (o : Outcome JwtPayload) :
  Auth.verifyToken cfg token w = (o, w') -> w' = w.
Proof.
  unfold Auth.verifyToken. run.
  destruct (jwt.verify token (JWT_SECRET cfg) (now w)); intros H;
    now inversion H.
Qed.

Lemma verifyToken_ok_iff (token : string) (w : World) (decoded : JwtPayload) :
  Auth.verifyToken cfg token w = (Ok decoded, w) <->
  token <> EmptyString
  /\ exists j, jwt_decode token = Some j
               /\ jws_key j = JWT_SECRET cfg
               /\ jws_payload j = decoded
               /\ jwt.expired (now w) decoded = false.
Proof.
  unfold Auth.verifyToken, jwt.verify. run. split.
  - destruct (String.eqb token EmptyString) eqn:E; [discriminate|].
    apply String.eqb_neq in E.
    destruct (jwt_decode token) as [j|]; [|discriminate].
    destruct (String.eqb (jws_key j) (JWT_SECRET cfg)) eqn:K; [|discriminate].
    apply String.eqb_eq in K. simpl.
    destruct (jwt.expired (now w) (jws_payload j)) eqn:X; [discriminate|].
    intros H. inversion H; subst. split; [exact E|]. now exists j.
  - intros (E & j & D & K & P & X). apply String.eqb_neq in E.
    rewrite E, D. subst decoded. rewrite <- K, String.eqb_refl. simpl.
    now rewrite X.
Qed.

Lemma verifyToken_throws (token : string) (w w' : World) (e : Error) :
  Auth.verifyToken cfg token w = (Throw e, w') ->
  e = JsError "Invalid token".
Proof.
  unfold Auth.verifyToken. run.
  destruct (jwt.verify token (JWT_SECRET cfg) (now w)); intros H;
    now inversion H.
Qed.

Lemma bearer_not_empty (h : string) :
  Js.startsWith "Bearer " h = true -> String.eqb h EmptyString = false.
Proof. destruct h; [discriminate|reflexivity]. Qed.

Lemma expired_false (t e : Z) (p : JwtPayload) :
  jwt_exp p = Some e -> (jwt.expired t p = false <-> (t / 1000 < e)%Z).
Proof.
  unfold jwt.expired. intros ->. rewrite Z.leb_gt. reflexivity.
Qed.

(** C3. [verifyToken] resolves with the token's claims, the account
    identifier among them, exactly when the token is a well-formed token
    signed with the server's secret whose expiry, if it has one, is still
    ahead; in every other case it throws ['Invalid token'], and in both cases
    it changes nothing.  The gate answers a request whose token is refused
    with 401 and leaves the world alone.  A token issued by [generateToken]
    expires [JWT_EXPIRE] seconds after its issue (seven days by default): it
    verifies before that and is refused from then on. *)
Theorem verifyToken_sound_complete (token : string) (w : World) :
  (forall decoded w',
     Auth.verifyToken cfg token w = (Ok decoded, w') <->
     w' = w /\ token <> EmptyString
     /\ exists j, jwt_decode token = Some j
                  /\ jws_key j = JWT_SECRET cfg
                  /\ jws_payload j = decoded
                  /\ match jwt_exp decoded with
                     | Some e => (now w / 1000 < e)%Z
                     | None => True
                     end)
  /\ (forall e w',
        Auth.verifyToken cfg token w = (Throw e, w') ->
        e = JsError "Invalid token" /\ w' = w)
  /\ (forall h e w',
        Js.startsWith "Bearer " h = true ->
        Auth.bearer_token h = token ->
        Auth.verifyToken cfg token w = (Throw e, w') ->
        Auth.authenticate cfg (Some h) w
        = (Respond (failure 401 "Token is not valid."), w))
  /\ (forall userId,
        let j := mkJws (mkPayload (Some userId) (now w / 1000)
                                  (Some (now w / 1000 + JWT_EXPIRE cfg)%Z))
                       (JWT_SECRET cfg) in
        Auth.generateToken cfg userId w = (Ok (jwt_encode j), w)
        /\ forall later : World,
             jwt_decode (jwt_encode j) = Some j ->
             jwt_encode j <> EmptyString ->
             ((now later / 1000 < now w / 1000 + JWT_EXPIRE cfg)%Z ->
              Auth.verifyToken cfg (jwt_encode j) later
              = (Ok (jws_payload j), later))
             /\ ((now w / 1000 + JWT_EXPIRE cfg <= now later / 1000)%Z ->
                 Auth.verifyToken cfg (jwt_encode j) later
                 = (Throw (JsError "Invalid token"), later)))
  /\ JWT_EXPIRE default_config = 604800%Z.
Proof.
  split; [|split; [|split; [|split]]].
  - intros decoded w'. split.
    + intros H. pose proof (verifyToken_world _ _ _ _ H) as ->.
      apply verifyToken_ok_iff in H. destruct H as (E & j & D & K & P & X).
      split; [reflexivity|]. split; [exact E|]. exists j.
      repeat split; try assumption.
      destruct (jwt_exp decoded) as [e|] eqn:Ex; [|exact I].
      now apply (expired_false (now w) e decoded Ex).
    + intros (-> & E & j & D & K & P & X). apply verifyToken_ok_iff.
      split; [exact E|]. exists j. repeat split; try assumption.
      destruct (jwt_exp decoded) as [e|] eqn:Ex.
      * now apply (expired_false (now w) e decoded Ex).
      * unfold jwt.expired. now rewrite Ex.
  - intros e w' H. split; [eapply verifyToken_throws; eauto|].
    eapply verifyToken_world; eauto.
  - intros h e w' Hb Ht H. pose proof (verifyToken_world _ _ _ _ H) as ->.
    unfold Auth.authenticate, catching.
    rewrite (bearer_not_empty h Hb), Hb. simpl. rewrite Ht.
    now rewrite (bind_throw _ _ _ _ _ H).
  - intros userId j. split; [reflexivity|]. intros later D E. split.
    + intros Hlt. apply verifyToken_ok_iff. split; [exact E|]. exists j.
      repeat split; try assumption.
      apply (expired_false (now later) _ (jws_payload j) eq_refl). exact Hlt.
    + intros Hge. unfold Auth.verifyToken, jwt.verify. run.
      apply String.eqb_neq in E. rewrite E, D. simpl.
      rewrite String.eqb_refl. simpl. unfold jwt.expired. simpl.
      apply Z.leb_le in Hge. now rewrite Hge.
  - reflexivity.
Qed.
End TokenFacts.

Lemma verifyToken_sound_complete_witness :
  Auth.verifyToken (codec := Sample.codec) default_config "alice.jwt" Sample.world
  = (Ok (Sample.issued 1%N), Sample.world)
  /\ Auth.authenticate (codec := Sample.codec) default_config
       (Some "Bearer forged.jwt") Sample.world
     = (Respond (failure 401 "Token is not valid."), Sample.world)
  /\ Auth.verifyToken (codec := Sample.codec) default_config "alice.jwt"
       (Sample.world_at 1700604800000)
     = (Throw (JsError "Invalid token"),
        Sample.world_at 1700604800000).
Proof.
  split; [|split].
  - apply (proj1 (@verifyToken_sound_complete Sample.codec default_config
                    "alice.jwt" Sample.world)).
    split; [reflexivity|]. split; [discriminate|].
    exists (mkJws (Sample.issued 1%N) (JWT_SECRET default_config)).
    repeat split.
  - exact (proj1 (proj2 (proj2 (@verifyToken_sound_complete Sample.codec
                                  default_config "forged.jwt" Sample.world)))
             "Bearer forged.jwt" (JsError "Invalid token") Sample.world
             eq_refl eq_refl eq_refl).
  - refine (proj2 (proj2 (proj1 (proj2 (proj2 (proj2
              (@verifyToken_sound_complete Sample.codec default_config
                 "alice.jwt" Sample.world)))) 1%N)
              (Sample.world_at 1700604800000)
              eq_refl _) _).
    + discriminate.
    + vm_compute. discriminate.
Defined.

(** ** The last-login stamp *)
Section GateFacts.
Context {codec : JwtCodec} (cfg : Config).

(** C6 (amended).  A request carries a valid token that names an existing,
    active account.  With the database up the gate stamps the account's last
    login and hands the account on.  When the account is found and storing
    the stamp fails, the gate does not hand the request on: it answers 401
    ['Token is not valid.'] and the accounts are as before. *)
Theorem authenticate_lastLogin
  (h : string) (decoded : JwtPayload) (uid : ObjectId) (stored : UserDoc)
  (w : World) :
  Js.startsWith "Bearer " h = true ->
  Auth.verifyToken cfg (Auth.bearer_token h) w = (Ok decoded, w) ->
  jwt_userId decoded = Some uid ->
  lookupById user_id uid (users (db w)) = Some stored ->
  isActive stored = true ->
  (healthy w ->
   Auth.authenticate cfg (Some h) w
   = (Next (User.select_no_password
              (User.set_lastLogin (Some (now w)) stored)),
      with_db (with_users
                 (replaceById user_id
                    (User.set_lastLogin (Some (now w)) stored)
                    (users (db w)))
                 (db w)) w))
  /\ (forall o,
        outages w = false :: true :: o ->
        Auth.authenticate cfg (Some h) w
        = (Respond (failure 401 "Token is not valid."), with_outages o w)).
Proof.
  intros Hb Hv Hu L Ha.
  assert (Hid : user_id stored = uid) by (eapply lookupById_id; eauto).
  destruct stored as [sid sname smail spw srole sact slast].
  simpl in Hid, Ha. subst sid sact.
  split.
  - intros Hw. unfold Auth.authenticate, catching.
    rewrite (bearer_not_empty h Hb), Hb. simpl.
    rewrite (bind_run _ _ _ _ _ Hv).
    unfold Auth.findTokenUser. rewrite Hu. unfold User.findById.
    unfold User.save_selected. run. rewrite (io_healthy w Hw). simpl.
    rewrite L. simpl. rewrite (io_healthy w Hw). simpl.
    rewrite L. reflexivity.
  - intros o Ho. unfold Auth.authenticate, catching.
    rewrite (bearer_not_empty h Hb), Hb. simpl.
    rewrite (bind_run _ _ _ _ _ Hv).
    unfold Auth.findTokenUser. rewrite Hu. unfold User.findById.
    unfold User.save_selected. run. unfold io. rewrite Ho. simpl.
    rewrite L. simpl. reflexivity.
Qed.
End GateFacts.

Lemma authenticate_lastLogin_witness :
  fst (Auth.authenticate (codec := Sample.codec) default_config
         (Some "Bearer alice.jwt") Sample.world)
  = Next (User.select_no_password
            (User.set_lastLogin (Some 1700000000000%Z) Sample.alice))
  /\ Auth.authenticate (codec := Sample.codec) default_config
       (Some "Bearer alice.jwt") (Sample.world_with [false; true])
     = (Respond (failure 401 "Token is not valid."), Sample.world).
Proof.
  split.
  - rewrite (proj1 (@authenticate_lastLogin Sample.codec default_config
                      "Bearer alice.jwt" (Sample.issued 1%N) 1%N Sample.alice
                      Sample.world eq_refl eq_refl eq_refl eq_refl eq_refl)
               eq_refl).
    reflexivity.
  - exact (proj2 (@authenticate_lastLogin Sample.codec default_config
                    "Bearer alice.jwt" (Sample.issued 1%N) 1%N Sample.alice
                    (Sample.world_with [false; true])
                    eq_refl eq_refl eq_refl eq_refl eq_refl)
             [] eq_refl).
Defined.

(** C6, as stated, fails: Alice's token is valid and her account is active,
    the write of the stamp fails, and the gate answers 401 instead of handing
    the request on. *)
Lemma authenticate_blocked_by_the_stamp :
  let w := Sample.world_with [false; true] in
  Auth.verifyToken (codec := Sample.codec) default_config "alice.jwt" w
  = (Ok (Sample.issued 1%N), w)
  /\ lookupById user_id 1%N (users (db w)) = Some Sample.alice
  /\ isActive Sample.alice = true
  /\ fst (Auth.authenticate (codec := Sample.codec) default_config
            (Some "Bearer alice.jwt") w)
     = Respond (failure 401 "Token is not valid.").
Proof. repeat split. Qed.

(** ** Ownership of other resources *)

(** C9 (amended).  [checkOwnership] lets every authenticated actor through to
    a resource that has no [author] path, whatever the actor's role; gating by
    role is the separate [authorize] middleware, which, for every list of
    roles, lets an actor pass whose role is listed and refuses with 403 an
    actor whose role is not. *)
Theorem ownerless_resources_pass {loader : ModuleLoader}
  (modelName : string) (actor : ReqUser) (id : ObjectId) (resource : Resource)
  (w : World) :
  (Auth.Model_findById modelName id w = (Ok (Some resource), w) ->
   resource_author resource = None ->
   Auth.checkOwnership modelName actor id w = (Next resource, w))
  /\ (forall roles,
        (In (role_name (ru_role actor)) roles ->
         Auth.authorize roles (Some actor) = Next tt)
        /\ (~ In (role_name (ru_role actor)) roles ->
            Auth.authorize roles (Some actor)
            = Respond (failure 403 "Access denied. Insufficient permissions."))).
Proof.
  split.
  - intros F A. unfold Auth.checkOwnership, catching.
    rewrite (bind_run _ _ _ _ _ F). unfold Auth.denied. now rewrite A.
  - intros roles. unfold Auth.authorize.
    destruct (existsb (String.eqb (role_name (ru_role actor))) roles) eqn:E;
      simpl; split; intros H; try reflexivity.
    + exfalso. apply H. apply existsb_exists in E. destruct E as (x & Hx & Ex).
      apply String.eqb_eq in Ex. now subst x.
    + assert (X : existsb (String.eqb (role_name (ru_role actor))) roles = true).
      { apply existsb_exists. exists (role_name (ru_role actor)).
        split; [exact H|apply String.eqb_refl]. }
      rewrite X in E. discriminate.
Qed.

Lemma ownerless_resources_pass_witness :
  Auth.checkOwnership (loader := Sample.loader) "Category"
    (User.select_no_password Sample.bob) 10%N Sample.world
  = (Next (CategoryResource Sample.tech), Sample.world)
  /\ Auth.authorize ["admin"] (Some (User.select_no_password Sample.bob))
     = Respond (failure 403 "Access denied. Insufficient permissions.")
  /\ Auth.authorize ["admin"] (Some (User.select_no_password Sample.root))
     = Next tt
  /\ Auth.authorize ["editor"; "user"] (Some (User.select_no_password Sample.bob))
     = Next tt.
Proof.
  split; [|split; [|split]].
  - exact (proj1 (@ownerless_resources_pass Sample.loader "Category"
                    (User.select_no_password Sample.bob) 10%N
                    (CategoryResource Sample.tech) Sample.world)
             eq_refl eq_refl).
  - apply (proj2 (@ownerless_resources_pass Sample.loader "Category"
                    (User.select_no_password Sample.bob) 10%N
                    (CategoryResource Sample.tech) Sample.world) ["admin"]).
    simpl. intros [H|[]]. discriminate H.
  - apply (proj2 (@ownerless_resources_pass Sample.loader "Category"
                    (User.select_no_password Sample.root) 10%N
                    (CategoryResource Sample.tech) Sample.world) ["admin"]).
    simpl. now left.
  - apply (proj2 (@ownerless_resources_pass Sample.loader "Category"
                    (User.select_no_password Sample.bob) 10%N
                    (CategoryResource Sample.tech) Sample.world)
             ["editor"; "user"]).
    simpl. right. now left.
Defined.

(** C9, as stated, fails: Bob is not an admin, a category has no author, and
    [checkOwnership] hands Bob's request on. *)
Lemma non_admin_reaches_category :
  ru_role (User.select_no_password Sample.bob) = RoleUser
  /\ resource_author (CategoryResource Sample.tech) = None
  /\ Auth.checkOwnership (loader := Sample.loader) "Category"
       (User.select_no_password Sample.bob) 10%N Sample.world
     = (Next (CategoryResource Sample.tech), Sample.world).
Proof. repeat split. Qed.

(** ** Passwords *)
Section PasswordFacts.
Context {core : BcryptCore}.



End PasswordFacts.



(** ** Trimming and lower case *)

Lemma lower_ascii_idem (c : ascii) :
  Js.lower_ascii (Js.lower_ascii c) = Js.lower_ascii c.
Proof. destruct c as [[] [] [] [] [] [] [] []]; vm_compute; reflexivity. Qed.

Lemma toLowerCase_idem (s : string) :
  Js.toLowerCase (Js.toLowerCase s) = Js.toLowerCase s.
Proof.
  induction s as [|c s IH]; simpl; [reflexivity|].
  now rewrite lower_ascii_idem, IH.
Qed.

Lemma is_space_lower (c : ascii) :
  Js.is_space (Js.lower_ascii c) = Js.is_space c.
Proof. destruct c as [[] [] [] [] [] [] [] []]; vm_compute; reflexivity. Qed.

Lemma trimStart_toLowerCase (s : string) :
  Js.trimStart (Js.toLowerCase s) = Js.toLowerCase (Js.trimStart s).
Proof.
  induction s as [|c s IH]; simpl; [reflexivity|].
  rewrite is_space_lower. now destruct (Js.is_space c).
Qed.

Lemma trimEnd_toLowerCase (s : string) :
  Js.trimEnd (Js.toLowerCase s) = Js.toLowerCase (Js.trimEnd s).
Proof.
  induction s as [|c s IH]; simpl; [reflexivity|].
  rewrite IH, is_space_lower.
  destruct (Js.trimEnd s); simpl; [now destruct (Js.is_space c)|reflexivity].
Qed.

Lemma trim_toLowerCase (s : string) :
  Js.trim (Js.toLowerCase s) = Js.toLowerCase (Js.trim s).
Proof. unfold Js.trim. now rewrite trimStart_toLowerCase, trimEnd_toLowerCase. Qed.

(** The value of an [email] filter after the cast. *)
Lemma cast_lower (s : string) :
  Js.toLowerCase (Js.trim (Js.toLowerCase s)) = Js.toLowerCase (Js.trim s).
Proof. now rewrite trim_toLowerCase, toLowerCase_idem. Qed.

Lemma trimStart_head (s : string) (c : ascii) (r : string) :
  Js.trimStart s = String c r -> Js.is_space c = false.
Proof.
  induction s as [|a s IH]; simpl; [discriminate|].
  destruct (Js.is_space a) eqn:E; [exact IH|].
  intros H. inversion H; now subst.
Qed.

Lemma trimEnd_idem (s : string) : Js.trimEnd (Js.trimEnd s) = Js.trimEnd s.
Proof.
  induction s as [|c s IH]; simpl; [reflexivity|].
  destruct (Js.trimEnd s) as [|a t] eqn:E.
  - destruct (Js.is_space c) eqn:Sp; simpl; [reflexivity|now rewrite Sp].
  - simpl in *. rewrite IH. reflexivity.
Qed.

Lemma trimEnd_keeps_head (c : ascii) (r : string) :
  Js.is_space c = false ->
  exists r', Js.trimEnd (String c r) = String c r'.
Proof.
  intros Sp. simpl. destruct (Js.trimEnd r); rewrite ?Sp; eauto.
Qed.

Lemma trim_idem (s : string) : Js.trim (Js.trim s) = Js.trim s.
Proof.
  unfold Js.trim. destruct (Js.trimStart s) as [|c r] eqn:E; [reflexivity|].
  destruct (trimEnd_keeps_head c r (trimStart_head s c r E)) as [r' Hr].
  rewrite Hr. simpl Js.trimStart. rewrite (trimStart_head s c r E).
  rewrite <- Hr. apply trimEnd_idem.
Qed.

(** ** Registration *)
Section RegistrationFacts.
Context {core : BcryptCore} {codec : JwtCodec} (cfg : Config).

Lemma find_exists {A} (f : A -> bool) (l : list A) (x : A) :
  In x l -> f x = true -> exists y, find f l = Some y.
Proof.
  intros Hin Hf. destruct (find f l) as [y|] eqn:E; [now exists y|].
  now rewrite (find_none f l E x Hin) in Hf.
Qed.

(** C7.  With the database up and every stored account as the schema's
    setters leave it (email in lower case and trimmed, user name trimmed), a
    registration whose email, compared without regard to case, or whose user
    name belongs to a stored account answers 400 with a message that names a
    field which is indeed taken, and changes nothing.  (The query compares
    the user name as it would be stored, that is trimmed.) *)
Theorem register_rejects_duplicates
  (body : AuthController.RegisterBody) (w : World) :
  healthy w ->
  (forall u, In u (users (db w)) ->
             Js.toLowerCase (email u) = email u
             /\ Js.trim (email u) = email u
             /\ Js.trim (username u) = username u) ->
  (exists u, In u (users (db w))
             /\ (Js.toLowerCase (email u)
                 = Js.toLowerCase (AuthController.reg_email body)
                 \/ username u = AuthController.reg_username body)) ->
  exists msg,
    AuthController.register cfg body w = (failure 400 msg, w)
    /\ ((msg = "Email already exists"
         /\ exists u, In u (users (db w))
                      /\ Js.toLowerCase (email u)
                         = Js.toLowerCase (AuthController.reg_email body))
        \/ (msg = "Username already exists"
            /\ exists u, In u (users (db w))
                         /\ username u
                            = Js.trim (AuthController.reg_username body))).
Proof.
  intros Hw Hst (u & Hin & Hdup).
  assert (Hlow : forall v, In v (users (db w)) -> Js.toLowerCase (email v) = email v)
    by (intros v Hv; apply (Hst v Hv)).
  (* what the duplicate says once the query is cast *)
  assert (Hcast : (email u = Js.toLowerCase
                               (Js.trim (AuthController.reg_email body))
                   /\ email u = Js.toLowerCase (AuthController.reg_email body))
                  \/ username u = Js.trim (AuthController.reg_username body)).
  { destruct (Hst u Hin) as (Hl & Ht & Hn). destruct Hdup as [Hd|Hd].
    - left. rewrite Hl in Hd. split; [|exact Hd].
      rewrite <- trim_toLowerCase, <- Hd. now symmetry.
    - right. now rewrite <- Hd, Hn. }
  unfold AuthController.register, catching, User.findOne.
  run. rewrite (io_healthy w Hw). simpl.
  destruct (find_exists
              (User.email_or_username
                 (Js.toLowerCase (AuthController.reg_email body))
                 (AuthController.reg_username body))
              (users (db w)) u Hin) as [e He].
  { unfold User.email_or_username. rewrite cast_lower. apply orb_true_iff.
    destruct Hcast as [[Hc _]|Hc]; [left|right]; now apply String.eqb_eq. }
  rewrite He. simpl. eexists. split; [reflexivity|].
  apply find_some in He. destruct He as [Hein Hp].
  unfold User.email_or_username in Hp. rewrite cast_lower in Hp.
  destruct (String.eqb (email e) (Js.toLowerCase (AuthController.reg_email body)))
    eqn:E.
  - left. split; [reflexivity|]. exists e. split; [exact Hein|].
    apply String.eqb_eq in E. now rewrite (Hlow e Hein).
  - right. split; [reflexivity|].
    apply orb_true_iff in Hp. destruct Hp as [Hp|Hp]; apply String.eqb_eq in Hp.
    + destruct Hcast as [[Hc1 Hc2]|Hc]; [|now exists u].
      rewrite Hp, <- Hc1, Hc2, String.eqb_refl in E. discriminate.
    + now exists e.
Qed.
End RegistrationFacts.

Lemma register_rejects_duplicates_witness :
  exists msg,
    AuthController.register (core := Sample.core) (codec := Sample.codec)
      default_config
      (AuthController.mkRegisterBody "carol" "Alice@Example.COM" "Passw0rd1")
      Sample.world
    = (failure 400 msg, Sample.world)
    /\ ((msg = "Email already exists"
         /\ exists u, In u (users (db Sample.world))
                      /\ Js.toLowerCase (email u)
                         = Js.toLowerCase "Alice@Example.COM")
        \/ (msg = "Username already exists"
            /\ exists u, In u (users (db Sample.world))
                         /\ username u = Js.trim "carol")).
Proof.
  apply (@register_rejects_duplicates Sample.core Sample.codec default_config
           (AuthController.mkRegisterBody "carol" "Alice@Example.COM"
                                          "Passw0rd1")
           Sample.world).
  - reflexivity.
  - intros u [<-|[<-|[<-|[]]]]; repeat split.
  - exists Sample.alice. split; [now left|now left].
Defined.

(** ** Login *)
Section LoginFacts.
Context {core : BcryptCore} {codec : JwtCodec} (cfg : Config).




End LoginFacts.






(** * More properties *)

(** ** Slugs *)

Lemma kept_lower_char (c : ascii) :
  (Js.is_alnum (Js.lower_ascii c) || Js.is_space (Js.lower_ascii c))
  = PostMore.slug_source (Js.lower_ascii c).
Proof. destruct c as [[] [] [] [] [] [] [] []]; vm_compute; reflexivity. Qed.

Lemma slug_source_cases (c : ascii) :
  PostMore.slug_source c = true ->
  PostMore.is_hyphen c = false
  /\ (Js.is_space c = false -> PostMore.is_slug_char c = true).
Proof.
  destruct c as [[] [] [] [] [] [] [] []]; vm_compute; intros H;
    try discriminate H; split; try reflexivity; intros H'; try discriminate H';
    reflexivity.
Qed.

Lemma slug_char_not_space (c : ascii) :
  PostMore.is_slug_char c = true -> Js.is_space c = false.
Proof.
  destruct c as [[] [] [] [] [] [] [] []]; vm_compute; intros H;
    try discriminate H; reflexivity.
Qed.

Lemma filtered_lower_source (t : string) :
  PostMore.all_chars PostMore.slug_source
    (Js.filter_chars (fun c => Js.is_alnum c || Js.is_space c) (Js.toLowerCase t))
  = true.
Proof.
  induction t as [|c t IH]; simpl; [reflexivity|].
  destruct (Js.is_alnum (Js.lower_ascii c) || Js.is_space (Js.lower_ascii c)) eqn:K;
    [|exact IH].
  simpl. rewrite IH, andb_true_r. now rewrite <- kept_lower_char.
Qed.

Lemma single_hyphens_cons (c : ascii) (s : string) :
  PostMore.single_hyphens (String c s)
  = negb (PostMore.is_hyphen c && PostMore.head_hyphen s) && PostMore.single_hyphens s.
Proof.
  destruct s as [|b r]; simpl; [|reflexivity].
  now rewrite andb_false_r.
Qed.

Lemma collapse_spaces_shape (s : string) :
  PostMore.all_chars PostMore.slug_source s = true ->
  forall b,
    let r := Js.collapse_runs Js.is_space b s in
    PostMore.all_chars PostMore.is_slug_char r = true
    /\ PostMore.single_hyphens r = true
    /\ (b = true -> PostMore.head_hyphen r = false).
Proof.
  induction s as [|c s IH]; intros Hs b; [now repeat split|].
  simpl in Hs. apply andb_prop in Hs. destruct Hs as [Hc Hs].
  destruct (slug_source_cases c Hc) as [Hh Hslug].
  specialize (IH Hs). cbn zeta. cbn [Js.collapse_runs].
  destruct (Js.is_space c) eqn:Sp.
  - destruct b.
    + exact (IH true).
    + destruct (IH true) as (A & B & C). repeat split.
      * simpl. exact A.
      * rewrite single_hyphens_cons, B, (C eq_refl). now rewrite andb_false_r.
      * discriminate.
  - destruct (IH false) as (A & B & _). repeat split.
    + simpl. now rewrite (Hslug eq_refl), A.
    + rewrite single_hyphens_cons, B, Hh. reflexivity.
    + intros _. exact Hh.
Qed.

Lemma collapse_hyphens_id (s : string) :
  PostMore.single_hyphens s = true ->
  forall b, (b = true -> PostMore.head_hyphen s = false) ->
            Js.collapse_runs PostMore.is_hyphen b s = s.
Proof.
  induction s as [|c s IH]; intros Hs b Hb; [reflexivity|].
  rewrite single_hyphens_cons in Hs. apply andb_prop in Hs.
  destruct Hs as [H1 H2]. cbn [Js.collapse_runs].
  destruct (PostMore.is_hyphen c) eqn:Hc.
  - destruct b; [specialize (Hb eq_refl); simpl in Hb; congruence|].
    apply Ascii.eqb_eq in Hc. subst c.
    f_equal. apply (IH H2). intros _. simpl in H1.
    now destruct (PostMore.head_hyphen s).
  - f_equal. apply (IH H2). discriminate.
Qed.

Lemma trim_without_space (s : string) :
  PostMore.all_chars (fun c => negb (Js.is_space c)) s = true -> Js.trim s = s.
Proof.
  intros H. unfold Js.trim.
  assert (E : Js.trimStart s = s).
  { destruct s as [|c r]; [reflexivity|]. simpl in *.
    apply andb_prop in H. destruct H as [H _].
    now destruct (Js.is_space c). }
  rewrite E. clear E. induction s as [|c r IH]; [reflexivity|].
  simpl in *. apply andb_prop in H. destruct H as [Hc Hr].
  rewrite (IH Hr). destruct r; [|reflexivity].
  now destruct (Js.is_space c).
Qed.

Lemma all_chars_weaken (p q : ascii -> bool) (s : string) :
  (forall c, p c = true -> q c = true) ->
  PostMore.all_chars p s = true -> PostMore.all_chars q s = true.
Proof.
  intros Hpq. induction s as [|c r IH]; simpl; [reflexivity|].
  intros H. apply andb_prop in H. destruct H as [H1 H2].
  now rewrite (Hpq c H1), (IH H2).
Qed.

(** X1.  The last two steps of the slug hooks never change anything: the
    five-step chain of the source gives the same slug as its first three
    steps.  A slug holds only lower-case letters, digits and hyphens, and no
    two hyphens in a row. *)
Theorem slug_chain_shape (t : string) :
  PostMore.slug_chain t = Post.slugify t
  /\ PostMore.all_chars PostMore.is_slug_char (Post.slugify t) = true
  /\ PostMore.single_hyphens (Post.slugify t) = true.
Proof.
  unfold PostMore.slug_chain, Post.slugify.
  destruct (collapse_spaces_shape _ (filtered_lower_source t) false)
    as (A & B & _).
  cbn zeta in A, B. repeat split; try assumption.
  rewrite (collapse_hyphens_id _ B false) by discriminate.
  apply trim_without_space.
  apply (all_chars_weaken PostMore.is_slug_char); [|exact A].
  intros c Hc. now rewrite (slug_char_not_space c Hc).
Qed.

(** ** Reading time *)

Lemma split_from_length (sep : ascii) (s cur : string) :
  List.length (Js.split_from sep cur s)
  = S (String.length (Js.filter_chars (fun c => Ascii.eqb c sep) s)).
Proof.
  revert cur. induction s as [|c s IH]; intros cur; simpl; [reflexivity|].
  destruct (Ascii.eqb c sep); simpl; now rewrite IH.
Qed.

(** X2.  The reading time counts the segments between single spaces, one more
    than the spaces of the content, and rounds up to whole minutes of 200
    words: it is never 0, not even for an empty content. *)
Theorem readingTime_bounds (p : PostDoc) :
  let words :=
    S (String.length (Js.filter_chars (fun c => Ascii.eqb c " "%char) (content p))) in
  (1 <= PostMore.readingTime p)%nat
  /\ (words <= 200 * PostMore.readingTime p)%nat
  /\ (200 * PostMore.readingTime p < words + 200)%nat.
Proof.
  unfold PostMore.readingTime, Js.split. cbn zeta.
  rewrite split_from_length.
  generalize (String.length
                (Js.filter_chars (fun c => Ascii.eqb c " "%char) (content p))).
  intros n.
  pose proof (Nat.div_mod_eq (S n + 199) 200) as E.
  pose proof (Nat.mod_upper_bound (S n + 199) 200 ltac:(lia)) as U.
  lia.
Qed.

(** ** Writing a document back *)
Section ReplaceFacts.
Context {D : Type} (id_of : D -> ObjectId).

Lemma replaceById_self (d : D) (l : list D) :
  lookupById id_of (id_of d) l = Some d -> replaceById id_of d l = l.
Proof.
  unfold lookupById. induction l as [|y l IH]; simpl; [reflexivity|].
  destruct (N.eqb (id_of y) (id_of d)) eqn:E.
  - intros H. now inversion H.
  - intros H. now rewrite IH.
Qed.

Lemma replaceById_twice (d d' : D) (l : list D) :
  id_of d = id_of d' ->
  replaceById id_of d (replaceById id_of d' l) = replaceById id_of d l.
Proof.
  intros E. induction l as [|y l IH]; simpl; [reflexivity|].
  rewrite <- E. destruct (N.eqb (id_of y) (id_of d)) eqn:Ey; simpl.
  - now rewrite E, N.eqb_refl.
  - now rewrite Ey, IH.
Qed.
End ReplaceFacts.

Lemma world_eta (w : World) :
  with_db (mkDb (users (db w)) (posts (db w)) (categories (db w))) w = w.
Proof. now destruct w as [[us ps cs] t o n sd]. Qed.

Lemma save_healthy (v : bool) (p stored : PostDoc) (w : World) :
  healthy w ->
  (if v then Post.validate p else None) = None ->
  lookupById post_id (post_id p) (posts (db w)) = Some stored ->
  Post.save v p w
  = (Ok p, with_db (with_posts (replaceById post_id p (posts (db w))) (db w)) w).
Proof.
  intros Hw Hv L. unfold Post.save. rewrite Hv. run.
  rewrite (io_healthy w Hw). simpl. now rewrite L.
Qed.

(** ** The like set *)

Lemma liked_by_map (v : ObjectId) (l : list Like) :
  existsb (fun k => N.eqb (like_user k) v) l = true <-> In v (map like_user l).
Proof.
  rewrite existsb_exists, in_map_iff. split.
  - intros (k & Hk & E). apply N.eqb_eq in E. now exists k.
  - intros (k & E & Hk). exists k. split; [exact Hk|]. now apply N.eqb_eq.
Qed.

Lemma NoDup_map_filter {A B} (f : A -> B) (g : A -> bool) (l : list A) :
  NoDup (map f l) -> NoDup (map f (filter g l)).
Proof.
  induction l as [|a l IH]; simpl; [trivial|].
  intros H. inversion H as [|x xs Hn Hd]; subst.
  destruct (g a); simpl; [|now apply IH].
  constructor; [|now apply IH].
  intros Hin. apply Hn. apply in_map_iff in Hin.
  destruct Hin as (k & E & Hk). apply filter_In in Hk.
  apply in_map_iff. exists k. now split.
Qed.

(** X3.  Both like operations keep every account at most once in the like
    set of the document they resolve with. *)
Theorem likes_stay_distinct
  (u : ObjectId) (p p1 : PostDoc) (w w1 : World) :
  likes_distinct p ->
  Post.addLike u p w = (Ok p1, w1) \/ Post.removeLike u p w = (Ok p1, w1) ->
  likes_distinct p1.
Proof.
  unfold likes_distinct. intros Hd [H|H].
  - unfold Post.addLike in H. destruct (Post.liked_by u p) eqn:L; simpl in H.
    + inversion H; now subst.
    + unfold bind at 1, gets in H. apply save_result in H.
      destruct H as (-> & _ & _). simpl. rewrite map_app. simpl.
      apply NoDup_app; [exact Hd|repeat constructor; intros []|].
      intros a Ha [<-|[]]. apply liked_by_map in Ha.
      unfold Post.liked_by in L. congruence.
  - unfold Post.removeLike in H. apply save_result in H.
    destruct H as (-> & _ & _). simpl. now apply NoDup_map_filter.
Qed.

(** X4.  After [addLike] the accounts in the like set are the former ones and
    the actor; after [removeLike] they are the former ones without the
    actor. *)
Theorem like_membership (u v : ObjectId) (p p1 : PostDoc) (w w1 : World) :
  (Post.addLike u p w = (Ok p1, w1) ->
   Post.liked_by v p1 = Post.liked_by v p || N.eqb u v)
  /\ (Post.removeLike u p w = (Ok p1, w1) ->
      Post.liked_by v p1 = Post.liked_by v p && negb (N.eqb u v)).
Proof.
  split; intros H.
  - unfold Post.addLike in H. destruct (Post.liked_by u p) eqn:L; simpl in H.
    + inversion H; subst p1 w1.
      destruct (N.eqb u v) eqn:E; [|now rewrite orb_false_r].
      apply N.eqb_eq in E. subst v. now rewrite L.
    + unfold bind at 1, gets in H. apply save_result in H.
      destruct H as (-> & _ & _). unfold Post.liked_by. simpl.
      rewrite existsb_app. simpl. now rewrite orb_false_r.
  - unfold Post.removeLike in H. apply save_result in H.
    destruct H as (-> & _ & _). unfold Post.liked_by. simpl.
    induction (likes p) as [|k l IH]; simpl; [reflexivity|].
    destruct (N.eqb (like_user k) u) eqn:Ek; simpl.
    + rewrite IH. apply N.eqb_eq in Ek. rewrite Ek.
      destruct (N.eqb u v); simpl; [now rewrite andb_false_r|reflexivity].
    + rewrite IH. destruct (N.eqb (like_user k) v) eqn:Ev; simpl; [|reflexivity].
      apply N.eqb_eq in Ev. rewrite Ev in Ek. rewrite N.eqb_sym in Ek.
      now rewrite Ek.
Qed.

Lemma likes_stay_distinct_witness :
  likes_distinct MoreSamples.liked.
Proof.
  apply (likes_stay_distinct 2%N Sample.hello MoreSamples.liked Sample.world
           (with_db (with_posts [MoreSamples.liked] Sample.store) Sample.world)).
  - constructor.
  - left. reflexivity.
Defined.

Lemma like_membership_witness :
  Post.liked_by 2%N MoreSamples.liked = true
  /\ Post.liked_by 2%N Sample.hello = false.
Proof.
  split.
  - exact (proj1 (like_membership 2%N 2%N Sample.hello MoreSamples.liked
                    Sample.world
                    (with_db (with_posts [MoreSamples.liked] Sample.store)
                             Sample.world))
             eq_refl).
  - exact (proj2 (like_membership 2%N 2%N MoreSamples.liked Sample.hello
                    (with_db (with_posts [MoreSamples.liked] Sample.store)
                             Sample.world)
                    Sample.world)
             eq_refl).
Defined.

(** X5.  With the database up, a like by an account that had not liked the
    post, followed by an unlike by the same account, restores the like set:
    the first answer counts one like more and the like is stored last, the
    second answer counts the former number, and the stored post has the
    likes, the views and the comments it had before the two requests.
    Nothing else of the modelled store is touched. *)
Theorem like_then_unlike_restores
  (actor : ReqUser) (id : ObjectId) (post : PostDoc) (w : World) :
  healthy w ->
  lookupById post_id id (posts (db w)) = Some post ->
  Post.validate post = None ->
  Post.liked_by (ru_id actor) post = false ->
  let w1 := snd (PostController.likePost actor id w) in
  let w2 := snd (PostController.unlikePost actor id w1) in
  fst (PostController.likePost actor id w)
  = mkResponse 200 true "Post liked successfully"
      (LikesData (S (Post.likeCount post)))
  /\ option_map likes (lookupById post_id id (posts (db w1)))
     = Some (likes post ++ [mkLike (ru_id actor) (now w)])%list
  /\ fst (PostController.unlikePost actor id w1)
     = mkResponse 200 true "Post unliked successfully"
         (LikesData (Post.likeCount post))
  /\ (exists q, lookupById post_id id (posts (db w2)) = Some q
                /\ likes q = likes post /\ views q = views post
                /\ comments q = comments post)
  /\ touches_one_post id w w2.
Proof.
  intros Hw L V Lk.
  assert (Hid : post_id post = id) by (eapply lookupById_id; eauto).
  set (p1 := Post.set_likes (likes post ++ [mkLike (ru_id actor) (now w)]) post).
  set (v1 := with_db (with_posts (replaceById post_id p1 (posts (db w))) (db w)) w).
  assert (E1 : PostController.likePost actor id w
               = (mkResponse 200 true "Post liked successfully"
                    (LikesData (S (Post.likeCount post))), v1)).
  { unfold PostController.likePost, catching.
    rewrite (bind_run _ _ _ _ _ (Post_findById_healthy id w Hw)), L.
    assert (A : Post.addLike (ru_id actor) post w = (Ok p1, v1)).
    { unfold Post.addLike. rewrite Lk. simpl negb. cbv iota.
      unfold bind, gets.
      exact (save_healthy true p1 post w Hw V
               (eq_trans (f_equal (fun i => lookupById post_id i (posts (db w))) Hid) L)). }
    rewrite (bind_run _ _ _ _ _ A).
    unfold ret, Post.likeCount. simpl. rewrite length_app. simpl.
    now rewrite Nat.add_1_r. }
  assert (Hv1 : healthy v1) by exact Hw.
  assert (L1 : lookupById post_id id (posts (db v1)) = Some p1).
  { unfold v1. simpl. rewrite <- Hid.
    apply (lookupById_replaceById post_id p1 post). simpl. now rewrite Hid. }
  assert (E2 : PostController.unlikePost actor id v1
               = (mkResponse 200 true "Post unliked successfully"
                    (LikesData (Post.likeCount post)), w)).
  { unfold PostController.unlikePost, catching.
    rewrite (bind_run _ _ _ _ _ (Post_findById_healthy id v1 Hv1)), L1.
    unfold Post.removeLike.
    assert (F : Post.set_likes
                  (filter (fun l => negb (N.eqb (like_user l) (ru_id actor))) (likes p1))
                  p1 = post).
    { unfold p1. simpl. rewrite filter_app. simpl. rewrite N.eqb_refl. simpl.
      rewrite app_nil_r, (filter_not_liked _ _ Lk). now destruct post. }
    rewrite F.
    rewrite (bind_run _ _ _ _ _ (save_healthy true post p1 v1 Hv1 V
               (eq_trans (f_equal (fun i => lookupById post_id i (posts (db v1))) Hid) L1))).
    unfold ret. f_equal. unfold v1. simpl.
    rewrite (replaceById_twice post_id post p1) by reflexivity.
    rewrite (replaceById_self post_id post) by (now rewrite Hid).
    unfold with_db, with_posts. simpl. now destruct w as [[us ps cs] t o n sd]. }
  intros w1 w2. unfold w2, w1. rewrite E1. cbn [fst snd]. rewrite E2.
  cbn [fst snd]. rewrite L1.
  split; [reflexivity|]. split; [reflexivity|]. split; [reflexivity|].
  split.
  - exists post. now rewrite L.
  - unfold touches_one_post. repeat split; try reflexivity.
    intros p Lp. exists p. split; [exact Lp|]. unfold same_article. tauto.
Qed.

Lemma like_then_unlike_restores_witness :
  fst (PostController.unlikePost (User.select_no_password Sample.bob) 20%N
         (snd (PostController.likePost (User.select_no_password Sample.bob) 20%N
                 Sample.world)))
  = mkResponse 200 true "Post unliked successfully" (LikesData 0)
  /\ option_map likes
       (lookupById post_id 20%N
          (posts (db (snd (PostController.likePost
                             (User.select_no_password Sample.bob) 20%N
                             Sample.world)))))
     = Some [mkLike 2%N 1700000000000%Z].
Proof.
  pose proof (like_then_unlike_restores
                (User.select_no_password Sample.bob) 20%N Sample.hello
                Sample.world eq_refl eq_refl eq_refl eq_refl) as H.
  split; [exact (proj1 (proj2 (proj2 H)))|exact (proj1 (proj2 H))].
Defined.

(** ** Comments *)

Lemma Post_findById_frame (id : ObjectId) (w w' : World) (o : Outcome (option PostDoc)) :
  Post.findById id w = (o, w') -> db w' = db w /\ now w' = now w.
Proof.
  unfold Post.findById. run. unfold io.
  destruct (outages w) as [|[] l]; simpl; intros H; inversion H; now subst.
Qed.

Lemma save_throw_frame (v : bool) (p : PostDoc) (w w' : World) (e : Error) :
  Post.save v p w = (Throw e, w') -> db w' = db w.
Proof.
  unfold Post.save.
  destruct (if v then Post.validate p else None);
    [run; intros H; now inversion H|].
  run. unfold io.
  destruct (outages w) as [|[] l]; simpl;
    try (intros H; inversion H; now subst);
    destruct (lookupById post_id (post_id p) (posts (db w)));
    intros H; inversion H; now subst.
Qed.

(** X6.  Comments are only ever appended.  An [addComment] that answers 201
    found the post, stored it with the trimmed comment, stamped with the
    clock, after the comments it had, and reports one comment more; the
    trimmed comment is not empty and at most 500 characters long.  Any other
    answer leaves the collections as they were. *)
Theorem addComment_appends
  (actor : ReqUser) (id : ObjectId) (content_ : string) (w w1 : World)
  (r : PostControllerMore.CommentResponse) :
  PostControllerMore.addComment actor id content_ w = (r, w1) ->
  (PostControllerMore.cres_status r = 201%nat ->
   exists post,
     lookupById post_id id (posts (db w)) = Some post
     /\ lookupById post_id id (posts (db w1))
        = Some (PostMore.set_comments
                  (comments post
                   ++ [mkComment (ru_id actor) (Js.trim content_) (now w)]) post)
     /\ PostControllerMore.cres_comments r = Some (S (PostMore.commentCount post))
     /\ Js.trim content_ <> EmptyString
     /\ (String.length (Js.trim content_) <= 500)%nat)
  /\ (PostControllerMore.cres_status r <> 201%nat -> db w1 = db w).
Proof.
  intros H. unfold PostControllerMore.addComment, catching in H.
  unfold bind at 1 in H.
  destruct (Post.findById id w) as [[found|e] v] eqn:F.
  2: { apply Post_findById_frame in F. inversion H; subst.
       split; [discriminate|]. intros _. tauto. }
  destruct (Post_findById_frame _ _ _ _ F) as [Hdb Hnow].
  apply Post_findById_result in F. destruct F as (-> & _ & _).
  destruct (lookupById post_id id (posts (db w))) as [post|] eqn:L.
  2: { unfold ret in H. inversion H; subst. split; [discriminate|]. tauto. }
  assert (Hid : post_id post = id) by (eapply lookupById_id; eauto).
  unfold bind at 1 in H. unfold PostMore.addComment in H.
  unfold bind at 1, gets at 1 in H.
  destruct (PostMore.comment_valid
              (mkComment (ru_id actor) (Js.trim content_) (now v))) eqn:CV;
    cbn [negb] in H.
  2: { unfold throw in H. inversion H; subst. split; [discriminate|]. tauto. }
  destruct (Post.save true _ v) as [[saved|e] v1] eqn:S.
  2: { apply save_throw_frame in S. inversion H; subst.
       split; [discriminate|]. intros _. congruence. }
  apply save_result in S. destruct S as (-> & S & _).
  unfold ret in H. inversion H; subst r w1. clear H. split; [|simpl; congruence].
  intros _. exists post. simpl in S. rewrite Hid, Hnow in S.
  unfold PostMore.comment_valid in CV. simpl in CV.
  apply andb_prop in CV. destruct CV as [C1 C2].
  repeat split.
  - exact S.
  - simpl. unfold PostMore.commentCount. simpl. rewrite length_app. simpl.
    now rewrite Nat.add_1_r.
  - apply negb_true_iff in C1. now apply String.eqb_neq.
  - now apply Nat.leb_le.
Qed.

Lemma addComment_appends_witness :
  exists post,
    lookupById post_id 20%N (posts (db Sample.world)) = Some post
    /\ lookupById post_id 20%N
         (posts (db (snd (PostControllerMore.addComment
                            (User.select_no_password Sample.bob) 20%N
                            "  Nice one. " Sample.world))))
       = Some (PostMore.set_comments
                 (comments post
                  ++ [mkComment 2%N (Js.trim "  Nice one. ") (now Sample.world)])
                 post)
    /\ PostControllerMore.cres_comments
         (fst (PostControllerMore.addComment
                 (User.select_no_password Sample.bob) 20%N "  Nice one. "
                 Sample.world))
       = Some (S (PostMore.commentCount post))
    /\ Js.trim "  Nice one. " <> EmptyString
    /\ (String.length (Js.trim "  Nice one. ") <= 500)%nat.
Proof.
  exact (proj1 (addComment_appends
                  (User.select_no_password Sample.bob) 20%N "  Nice one. "
                  Sample.world _ _ eq_refl)
           eq_refl).
Defined.

(** A comment of 300 times U+00E9 is 300 characters long and is accepted. *)
Lemma addComment_counts_characters :
  String.length (MoreSamples.repeat_char MoreSamples.e_acute 300) = 300%nat
  /\ PostControllerMore.cres_status
       (fst (PostControllerMore.addComment
               (User.select_no_password Sample.bob) 20%N
               (MoreSamples.repeat_char MoreSamples.e_acute 300) Sample.world))
     = 201%nat.
Proof. split; vm_compute; reflexivity. Qed.

(** ** The gate, in general *)

Lemma User_findById_run (id : ObjectId) (w w' : World) (o : Outcome (option UserDoc)) :
  User.findById id w = (o, w') ->
  db w' = db w /\ now w' = now w
  /\ (forall x, o = Ok x -> x = lookupById user_id id (users (db w))).
Proof.
  unfold User.findById. run. unfold io.
  destruct (outages w) as [|[] l]; simpl; intros H; inversion H; subst;
    repeat split; intros x E; inversion E; reflexivity.
Qed.

Lemma save_selected_run (u : ReqUser) (w w' : World) (o : Outcome ReqUser) :
  User.save_selected u w = (o, w') ->
  match o with
  | Ok u' =>
      u' = u
      /\ exists s, lookupById user_id (ru_id u) (users (db w)) = Some s
                   /\ lookupById user_id (ru_id u) (users (db w'))
                      = Some (mkUser (ru_id u) (ru_username u) (ru_email u)
                                (password s) (ru_role u) (ru_isActive u)
                                (ru_lastLogin u))
  | Throw _ => db w' = db w
  end.
Proof.
  unfold User.save_selected. run. unfold io.
  destruct (outages w) as [|[] l]; simpl;
    try (intros H; inversion H; now subst);
    destruct (lookupById user_id (ru_id u) (users (db w))) as [s|] eqn:L;
    intros H; inversion H; subst; simpl; try reflexivity;
    (split; [reflexivity|]); exists s; (split; [reflexivity|]);
    apply (lookupById_replaceById user_id
             (mkUser (ru_id u) (ru_username u) (ru_email u) (password s)
                     (ru_role u) (ru_isActive u) (ru_lastLogin u)) s);
    exact L.
Qed.

Section GateInGeneral.
Context {codec : JwtCodec} (cfg : Config).

(** X7.  Whatever the state of the database, the gate hands a request on only
    for a header that starts with ['Bearer '] and carries a token that
    verifies and names a stored, active account; what it hands on is that
    account without its password, stamped with the clock, and the stamp is
    stored. *)
Theorem authenticate_hands_on_active_accounts
  (authorization : option string) (w w1 : World) (user : ReqUser) :
  Auth.authenticate cfg authorization w = (Next user, w1) ->
  exists h decoded stored,
    authorization = Some h
    /\ Js.startsWith "Bearer " h = true
    /\ Auth.verifyToken cfg (Auth.bearer_token h) w = (Ok decoded, w)
    /\ jwt_userId decoded = Some (user_id stored)
    /\ lookupById user_id (user_id stored) (users (db w)) = Some stored
    /\ isActive stored = true
    /\ user = User.select_no_password (User.set_lastLogin (Some (now w)) stored)
    /\ lookupById user_id (user_id stored) (users (db w1))
       = Some (User.set_lastLogin (Some (now w)) stored).
Proof.
  unfold Auth.authenticate, catching.
  destruct authorization as [h|]; [|unfold ret; intros H; inversion H].
  destruct (String.eqb h EmptyString || negb (Js.startsWith "Bearer " h)) eqn:B;
    [unfold ret; intros H; inversion H|].
  apply orb_false_iff in B. destruct B as [_ B]. apply negb_false_iff in B.
  unfold bind at 1.
  destruct (Auth.verifyToken cfg (Auth.bearer_token h) w) as [[decoded|e] v] eqn:V;
    [|intros H; inversion H].
  pose proof (verifyToken_world _ _ _ _ _ V) as ->.
  unfold bind at 1. unfold Auth.findTokenUser.
  destruct (jwt_userId decoded) as [uid|] eqn:U.
  2: { run. unfold io. destruct (outages w) as [|[] l]; simpl; intros H;
       inversion H. }
  destruct (User.findById uid w) as [[found|e] v] eqn:F; [|intros H; inversion H].
  destruct (User_findById_run _ _ _ _ F) as (Hdb & Hnow & Hx).
  rewrite (Hx found eq_refl). clear Hx.
  destruct (lookupById user_id uid (users (db w))) as [stored|] eqn:L;
    [|unfold ret; intros H; inversion H].
  assert (Hid : user_id stored = uid) by (eapply lookupById_id; eauto).
  destruct stored as [sid sname smail spw srole sact slast].
  simpl in Hid. subst sid. simpl.
  destruct sact; simpl; [|unfold ret; intros H; inversion H].
  unfold bind at 1, gets at 1. unfold bind at 1.
  destruct (User.save_selected _ v) as [[u'|e] v1] eqn:S;
    [|intros H; inversion H].
  apply save_selected_run in S. destruct S as (-> & s & Ls & Ls1).
  unfold ret. intros H. inversion H; subst user w1. clear H.
  simpl in Ls, Ls1. rewrite Hdb in Ls. rewrite L in Ls. inversion Ls; subst s.
  exists h, decoded,
    (mkUser uid sname smail spw srole true slast).
  simpl. rewrite Hnow. rewrite Hnow in Ls1. repeat split; try assumption.
Qed.

(** X8.  Every refusal of the gate is a 401 and changes no collection.  A
    request without a header that starts with ['Bearer '] is refused before
    the database is asked anything. *)
Theorem authenticate_refusals
  (authorization : option string) (w : World) :
  (forall r w1,
     Auth.authenticate cfg authorization w = (Respond r, w1) ->
     res_status r = 401%nat /\ res_success r = false /\ db w1 = db w)
  /\ ((forall h, authorization = Some h -> Js.startsWith "Bearer " h = false) ->
      Auth.authenticate cfg authorization w
      = (Respond (failure 401 "Access denied. No token provided."), w)).
Proof.
  split.
  - intros r w1. unfold Auth.authenticate, catching.
    destruct authorization as [h|];
      [|unfold ret; intros H; inversion H; now subst].
    destruct (String.eqb h EmptyString || negb (Js.startsWith "Bearer " h));
      [unfold ret; intros H; inversion H; now subst|].
    unfold bind at 1.
    destruct (Auth.verifyToken cfg (Auth.bearer_token h) w) as [[decoded|e] v] eqn:V;
      pose proof (verifyToken_world _ _ _ _ _ V) as ->;
      [|intros H; inversion H; now subst].
    unfold bind at 1.
    assert (F : exists o v, Auth.findTokenUser decoded w = (o, v)
                  /\ db v = db w
                  /\ (forall x, o = Ok (Some x) -> In x (users (db w)))).
    { unfold Auth.findTokenUser. destruct (jwt_userId decoded) as [uid|].
      - destruct (User.findById uid w) as [o v] eqn:F. exists o, v.
        destruct (User_findById_run _ _ _ _ F) as (Hdb & _ & Hx).
        repeat split; try assumption. intros x E.
        specialize (Hx _ E). symmetry in Hx. eapply lookupById_In; eauto.
      - run. unfold io. destruct (outages w) as [|[] l]; simpl;
          eexists; eexists; (split; [reflexivity|]); split; try reflexivity;
          intros x E; inversion E. }
    destruct F as (o & v & F & Hdb & _). rewrite F.
    destruct o as [[stored|]|e];
      try (unfold ret; intros H; inversion H; now subst).
    destruct (negb (ru_isActive (User.select_no_password stored)));
      [unfold ret; intros H; inversion H; now subst|].
    unfold bind at 1, gets at 1. unfold bind at 1.
    destruct (User.save_selected _ v) as [[u'|e] v1] eqn:S.
    + unfold ret. intros H. inversion H.
    + apply save_selected_run in S. intros H. inversion H; subst.
      repeat split. congruence.
  - intros Hno. unfold Auth.authenticate, catching.
    destruct authorization as [h|]; [|reflexivity].
    rewrite (Hno h eq_refl). simpl. now rewrite orb_true_r.
Qed.
End GateInGeneral.

Lemma authenticate_hands_on_active_accounts_witness :
  exists h decoded stored,
    Some "Bearer alice.jwt" = Some h
    /\ Js.startsWith "Bearer " h = true
    /\ Auth.verifyToken (codec := Sample.codec) default_config
         (Auth.bearer_token h) Sample.world = (Ok decoded, Sample.world)
    /\ jwt_userId decoded = Some (user_id stored)
    /\ lookupById user_id (user_id stored) (users (db Sample.world)) = Some stored
    /\ isActive stored = true
    /\ User.select_no_password
         (User.set_lastLogin (Some 1700000000000%Z) Sample.alice)
       = User.select_no_password
           (User.set_lastLogin (Some (now Sample.world)) stored)
    /\ lookupById user_id (user_id stored)
         (users (db (snd (Auth.authenticate (codec := Sample.codec)
                            default_config (Some "Bearer alice.jwt")
                            Sample.world))))
       = Some (User.set_lastLogin (Some (now Sample.world)) stored).
Proof.
  exact (@authenticate_hands_on_active_accounts Sample.codec default_config
           (Some "Bearer alice.jwt") Sample.world _ _ eq_refl).
Defined.

Lemma authenticate_refusals_witness :
  (res_status (failure 401 "Token is not valid.") = 401%nat
   /\ res_success (failure 401 "Token is not valid.") = false
   /\ db Sample.world = db Sample.world)
  /\ Auth.authenticate (codec := Sample.codec) default_config
       (Some "Basic YWxpY2U6c2VjcmV0") (Sample.world_with [true])
     = (Respond (failure 401 "Access denied. No token provided."),
        Sample.world_with [true]).
Proof.
  split.
  - exact (proj1 (@authenticate_refusals Sample.codec default_config
                    (Some "Bearer stale.jwt") Sample.world)
             (failure 401 "Token is not valid.") Sample.world eq_refl).
  - apply (proj2 (@authenticate_refusals Sample.codec default_config
                    (Some "Basic YWxpY2U6c2VjcmV0") (Sample.world_with [true]))).
    intros h E. inversion E. reflexivity.
Defined.

(** ** Ownership of posts, by the middleware *)

(** X9.  On posts, [checkOwnership] applies the policy of the controllers:
    for a model name that loads the Post model, with the database up it
    answers 404 for a post that does not exist, hands the post on to its
    author and to admins, and answers 403 to anybody else, and it answers
    500 when the database fails.  A model name that loads no model gives
    500 as well. *)
Theorem checkOwnership_on_posts {loader : ModuleLoader}
  (modelName : string) (actor : ReqUser) (id : ObjectId) (w : World) :
  (require_model modelName = Some PostModel ->
   healthy w ->
   Auth.checkOwnership modelName actor id w
   = match lookupById post_id id (posts (db w)) with
     | None => (Respond (failure 404 (modelName ++ " not found.")), w)
     | Some post =>
         if canAccess actor post then (Next (PostResource post), w)
         else (Respond (failure 403
                 "Access denied. You can only modify your own resources."), w)
     end)
  /\ (require_model modelName = None ->
      Auth.checkOwnership modelName actor id w
      = (Respond (failure 500 "Server error during ownership check."), w))
  /\ (forall o,
        require_model modelName = Some PostModel ->
        outages w = true :: o ->
        Auth.checkOwnership modelName actor id w
        = (Respond (failure 500 "Server error during ownership check."),
           with_outages o w)).
Proof.
  split; [|split].
  - intros R Hw. unfold Auth.checkOwnership, catching, Auth.Model_findById.
    rewrite R.
    rewrite (bind_run _ _ _ _ _
               (bind_run _ _ _ _ _ (Post_findById_healthy id w Hw))).
    destruct (lookupById post_id id (posts (db w))) as [post|]; [|reflexivity].
    simpl. unfold Auth.denied, canAccess. simpl.
    destruct (N.eqb (author post) (ru_id actor)),
      (role_eqb (ru_role actor) RoleAdmin); reflexivity.
  - intros R. unfold Auth.checkOwnership, catching, Auth.Model_findById.
    now rewrite R.
  - intros o R Ho. unfold Auth.checkOwnership, catching, Auth.Model_findById.
    rewrite R. unfold Post.findById. run. unfold io.
    now rewrite Ho.
Qed.

Lemma checkOwnership_on_posts_witness :
  Auth.checkOwnership (loader := Sample.loader) "Post.js"
    (User.select_no_password Sample.root) 20%N Sample.world
  = (Next (PostResource Sample.hello), Sample.world)
  /\ Auth.checkOwnership (loader := Sample.loader) "./Post"
       (User.select_no_password Sample.bob) 20%N Sample.world
     = (Respond (failure 403
          "Access denied. You can only modify your own resources."),
        Sample.world)
  /\ Auth.checkOwnership (loader := Sample.loader) "Comment"
       (User.select_no_password Sample.root) 20%N Sample.world
     = (Respond (failure 500 "Server error during ownership check."),
        Sample.world)
  /\ Auth.checkOwnership (loader := Sample.loader) "Post"
       (User.select_no_password Sample.root) 20%N (Sample.world_with [true])
     = (Respond (failure 500 "Server error during ownership check."),
        Sample.world).
Proof.
  split; [|split; [|split]].
  - exact (proj1 (@checkOwnership_on_posts Sample.loader "Post.js"
                    (User.select_no_password Sample.root) 20%N Sample.world)
             eq_refl eq_refl).
  - exact (proj1 (@checkOwnership_on_posts Sample.loader "./Post"
                    (User.select_no_password Sample.bob) 20%N Sample.world)
             eq_refl eq_refl).
  - exact (proj1 (proj2 (@checkOwnership_on_posts Sample.loader "Comment"
                           (User.select_no_password Sample.root) 20%N
                           Sample.world))
             eq_refl).
  - exact (proj2 (proj2 (@checkOwnership_on_posts Sample.loader "Post"
                           (User.select_no_password Sample.root) 20%N
                           (Sample.world_with [true])))
             [] eq_refl eq_refl).
Defined.

(** ** From the issue of a token to the gate *)

Lemma split_from_no_sep (sep : ascii) (s cur : string) :
  Js.includes sep s = false -> Js.split_from sep cur s = [(cur ++ s)%string].
Proof.
  revert cur. induction s as [|c s IH]; intros cur; simpl.
  - intros _. f_equal. induction cur as [|a cur IHc]; simpl; congruence.
  - intros H. apply orb_false_iff in H. destruct H as [Hc Hs].
    rewrite Hc. rewrite (IH _ Hs). f_equal.
    induction cur as [|a cur IHc]; simpl; congruence.
Qed.

Lemma bearer_token_append (token : string) :
  Js.includes " " token = false ->
  Auth.bearer_token ("Bearer " ++ token) = token.
Proof.
  intros H. unfold Auth.bearer_token, Js.split. simpl.
  now rewrite (split_from_no_sep " " token EmptyString H).
Qed.

Section IssuedTokens.
Context {codec : JwtCodec} (cfg : Config).

Lemma gate_opens (h : string) (decoded : JwtPayload) (stored : UserDoc) (w : World) :
  Js.startsWith "Bearer " h = true ->
  Auth.verifyToken cfg (Auth.bearer_token h) w = (Ok decoded, w) ->
  jwt_userId decoded = Some (user_id stored) ->
  lookupById user_id (user_id stored) (users (db w)) = Some stored ->
  isActive stored = true ->
  healthy w ->
  Auth.authenticate cfg (Some h) w
  = (Next (User.select_no_password (User.set_lastLogin (Some (now w)) stored)),
     with_db (with_users
                (replaceById user_id (User.set_lastLogin (Some (now w)) stored)
                             (users (db w)))
                (db w)) w).
Proof.
  intros Hb Hv Hu L Ha Hw.
  destruct stored as [sid sname smail spw srole sact slast].
  simpl in Hu, L, Ha. subst sact.
  unfold Auth.authenticate, catching.
  rewrite (bearer_not_empty h Hb), Hb. simpl.
  rewrite (bind_run _ _ _ _ _ Hv).
  unfold Auth.findTokenUser. rewrite Hu. unfold User.findById.
  unfold User.save_selected. run. rewrite (io_healthy w Hw). simpl.
  rewrite L. simpl. rewrite (io_healthy w Hw). simpl.
  rewrite L. reflexivity.
Qed.

Lemma gate_refuses (h : string) (e : Error) (w : World) :
  Js.startsWith "Bearer " h = true ->
  Auth.verifyToken cfg (Auth.bearer_token h) w = (Throw e, w) ->
  Auth.authenticate cfg (Some h) w
  = (Respond (failure 401 "Token is not valid."), w).
Proof.
  intros Hb H. unfold Auth.authenticate, catching.
  rewrite (bearer_not_empty h Hb), Hb. simpl.
  now rewrite (bind_throw _ _ _ _ _ H).
Qed.

(** X10.  The token that [generateToken] makes for an account opens the gate
    for that account, as long as the account is stored and active and the
    token's lifetime has not run out; from then on the gate answers 401.
    (The codec gives the token back its claims, and a token is not empty and
    has no space.) *)
Theorem issued_token_passes_the_gate (stored : UserDoc) (w later : World) :
  let j := mkJws (mkPayload (Some (user_id stored)) (now w / 1000)
                            (Some (now w / 1000 + JWT_EXPIRE cfg)%Z))
                 (JWT_SECRET cfg) in
  Auth.generateToken cfg (user_id stored) w = (Ok (jwt_encode j), w)
  /\ (jwt_decode (jwt_encode j) = Some j ->
      jwt_encode j <> EmptyString ->
      Js.includes " " (jwt_encode j) = false ->
      healthy later ->
      lookupById user_id (user_id stored) (users (db later)) = Some stored ->
      isActive stored = true ->
      ((now later / 1000 < now w / 1000 + JWT_EXPIRE cfg)%Z ->
       fst (Auth.authenticate cfg (Some ("Bearer " ++ jwt_encode j)) later)
       = Next (User.select_no_password
                 (User.set_lastLogin (Some (now later)) stored)))
      /\ ((now w / 1000 + JWT_EXPIRE cfg <= now later / 1000)%Z ->
          Auth.authenticate cfg (Some ("Bearer " ++ jwt_encode j)) later
          = (Respond (failure 401 "Token is not valid."), later))).
Proof.
  intros j. split; [reflexivity|]. intros D E Sp Hw L Ha.
  assert (Hb : Js.startsWith "Bearer " ("Bearer " ++ jwt_encode j) = true)
    by reflexivity.
  pose proof (bearer_token_append (jwt_encode j) Sp) as Ht.
  split.
  - intros Hlt.
    rewrite (gate_opens ("Bearer " ++ jwt_encode j) (jws_payload j) stored later
               Hb); try assumption; try reflexivity.
    rewrite Ht. apply verifyToken_ok_iff. split; [exact E|]. exists j.
    repeat split; try assumption.
    apply (expired_false (now later) _ (jws_payload j) eq_refl). exact Hlt.
  - intros Hge.
    apply (gate_refuses _ (JsError "Invalid token") later Hb).
    rewrite Ht. unfold Auth.verifyToken, jwt.verify. run.
    apply String.eqb_neq in E. rewrite E, D. simpl.
    rewrite String.eqb_refl. simpl. unfold jwt.expired. simpl.
    apply Z.leb_le in Hge. now rewrite Hge.
Qed.
End IssuedTokens.

Lemma issued_token_passes_the_gate_witness :
  fst (Auth.authenticate (codec := Sample.codec) default_config
         (Some "Bearer alice.jwt") (Sample.world_at 1700604799999))
  = Next (User.select_no_password
            (User.set_lastLogin (Some 1700604799999%Z) Sample.alice))
  /\ Auth.authenticate (codec := Sample.codec) default_config
       (Some "Bearer alice.jwt") (Sample.world_at 1700604800000)
     = (Respond (failure 401 "Token is not valid."),
        Sample.world_at 1700604800000).
Proof.
  split.
  - refine (proj1 (proj2 (@issued_token_passes_the_gate Sample.codec
                            default_config Sample.alice Sample.world
                            (Sample.world_at 1700604799999))
                     eq_refl _ eq_refl eq_refl eq_refl eq_refl) _).
    + discriminate.
    + reflexivity.
  - refine (proj2 (proj2 (@issued_token_passes_the_gate Sample.codec
                            default_config Sample.alice Sample.world
                            (Sample.world_at 1700604800000))
                     eq_refl _ eq_refl eq_refl eq_refl eq_refl) _).
    + discriminate.
    + vm_compute. discriminate.
Defined.

(** ** Registration, in general *)
Section RegistrationInGeneral.
Context {core : BcryptCore} {codec : JwtCodec} (cfg : Config).

Lemma create_run (uname mail pw : string) (w w' : World) (o : Outcome UserDoc) :
  User.create uname mail pw w = (o, w') ->
  match o with
  | Ok doc =>
      exists hashed,
        bcrypt.hash pw (bcrypt_genSalt 12 (seed w)) = Ok hashed
        /\ doc = created_account w uname mail hashed
        /\ existsb (fun u => String.eqb (email u) (email doc)) (users (db w)) = false
        /\ existsb (fun u => String.eqb (username u) (username doc)) (users (db w))
           = false
        /\ db w' = with_users (users (db w) ++ [doc]) (db w)
        /\ now w' = now w
        /\ outages w' = tl (outages w)
  | Throw _ => db w' = db w
  end.
Proof.
  unfold User.create. run.
  destruct (User.validate _); [intros H; inversion H; now subst|].
  destruct (bcrypt.hash pw _) as [hashed|e] eqn:Hh;
    simpl; [|intros H; inversion H; now subst].
  unfold io. simpl.
  destruct (outages w) as [|[] l] eqn:Ho; simpl;
    try (intros H; inversion H; now subst);
    (destruct (existsb (fun u => String.eqb (email u) (Js.toLowerCase (Js.trim mail)))
                       (users (db w))) eqn:C1;
     [intros H; inversion H; now subst|]);
    (destruct (existsb (fun u => String.eqb (username u) (Js.trim uname))
                       (users (db w))) eqn:C2;
     [intros H; inversion H; now subst|]);
    intros H; inversion H; subst; simpl; exists hashed;
    repeat split; assumption.
Qed.

Lemma findOne_frame (f : UserDoc -> bool) (w w' : World) (o : Outcome (option UserDoc)) :
  User.findOne f w = (o, w') ->
  db w' = db w /\ now w' = now w /\ nextId w' = nextId w /\ seed w' = seed w
  /\ outages w' = tl (outages w).
Proof.
  unfold User.findOne. run. unfold io.
  destruct (outages w) as [|[] l] eqn:Ho; simpl; intros H; inversion H; subst;
    simpl; rewrite ?Ho; repeat split.
Qed.

(** X11.  A registration either answers 201, and then exactly one account was
    added, after the others: the trimmed user name, the trimmed lower-case
    email, the hash of the password, the role ['user'], active, with the
    identifier and the token the answer carries; or it answers something else
    and the collections are as they were. *)
Theorem register_all_or_nothing
  (body : AuthController.RegisterBody) (w w1 : World) (r : Response) :
  AuthController.register cfg body w = (r, w1) ->
  (res_status r = 201%nat ->
   exists hashed,
     let doc := created_account w (AuthController.reg_username body)
                  (AuthController.reg_email body) hashed in
     bcrypt.hash (AuthController.reg_password body)
                 (bcrypt_genSalt 12 (seed w)) = Ok hashed
     /\ db w1 = with_users (users (db w) ++ [doc]) (db w)
     /\ res_data r
        = AuthData (nextId w) (username doc) (email doc) RoleUser
            (jwt.sign (nextId w) (JWT_SECRET cfg) (JWT_EXPIRE cfg) (now w)))
  /\ (res_status r <> 201%nat -> db w1 = db w).
Proof.
  intros H. unfold AuthController.register, catching in H.
  unfold bind at 1 in H.
  destruct (User.findOne _ w) as [[found|e] v] eqn:F.
  2: { apply findOne_frame in F. inversion H; subst.
       split; [discriminate|]. intros _. tauto. }
  destruct (findOne_frame _ _ _ _ F) as (Hdb & Hnow & Hid & Hseed & _).
  destruct found as [existing|].
  { unfold ret in H. inversion H; subst. split; [discriminate|]. tauto. }
  unfold bind at 1 in H.
  destruct (User.create _ _ _ v) as [[doc|e] v1] eqn:C.
  2: { apply create_run in C. inversion H; subst.
       split; [discriminate|]. intros _. congruence. }
  apply create_run in C. destruct C as (hashed & Hh & Hdoc & _ & _ & Hdb1 & Hnow1 & _).
  unfold Auth.generateToken in H. run. inversion H; subst r w1. clear H.
  split; [|simpl; congruence]. intros _. exists hashed.
  rewrite Hseed in Hh. rewrite Hdb in Hdb1. rewrite Hnow1, Hnow.
  subst doc. unfold created_account in *. rewrite Hid in *. simpl.
  repeat split; assumption.
Qed.

Lemma not_in_map {A} (f : A -> string) (x : string) (l : list A) :
  existsb (fun u => String.eqb (f u) x) l = false -> ~ In x (map f l).
Proof.
  intros H Hin. apply in_map_iff in Hin. destruct Hin as (u & E & Hu).
  assert (T : existsb (fun u => String.eqb (f u) x) l = true).
  { apply existsb_exists. exists u. split; [exact Hu|]. now apply String.eqb_eq. }
  congruence.
Qed.

Lemma NoDup_snoc {A} (l : list A) (x : A) :
  NoDup l -> ~ In x l -> NoDup (l ++ [x]).
Proof.
  intros Hl Hx. apply NoDup_app; [exact Hl|repeat constructor; intros []|].
  intros a Ha [<-|[]]. contradiction.
Qed.

(** X12.  Registration keeps the accounts apart: if no two stored accounts
    share an email or a user name before a registration, none do after it,
    whatever the request and whatever the database does. *)
Theorem register_keeps_accounts_unique
  (body : AuthController.RegisterBody) (w : World) :
  accounts_unique (users (db w)) ->
  accounts_unique
    (users (db (snd (AuthController.register cfg body w)))).
Proof.
  intros [He Hu].
  destruct (AuthController.register cfg body w) as [r w1] eqn:H. cbn [snd].
  unfold AuthController.register, catching in H.
  unfold bind at 1 in H.
  destruct (User.findOne _ w) as [[found|e] v] eqn:F.
  2: { apply findOne_frame in F. inversion H; subst.
       destruct F as (-> & _). now split. }
  destruct (findOne_frame _ _ _ _ F) as (Hdb & _).
  destruct found as [existing|].
  { unfold ret in H. inversion H; subst. rewrite Hdb. now split. }
  unfold bind at 1 in H.
  destruct (User.create _ _ _ v) as [[doc|e] v1] eqn:C.
  2: { apply create_run in C. inversion H; subst. rewrite C, Hdb. now split. }
  apply create_run in C. destruct C as (hashed & _ & _ & C1 & C2 & Hdb1 & _).
  unfold Auth.generateToken in H. run. inversion H; subst r w1. clear H.
  rewrite Hdb1. simpl. rewrite Hdb in *. unfold accounts_unique.
  rewrite !map_app. simpl. split; apply NoDup_snoc; try assumption.
  - now apply not_in_map.
  - now apply not_in_map.
Qed.
End RegistrationInGeneral.

(** Distinct literals in a list. *)
Ltac distinct :=
  repeat (constructor; [simpl; intuition discriminate|]); constructor.

Lemma register_all_or_nothing_witness :
  db (snd (AuthController.register (core := Sample.core) (codec := Sample.codec)
             default_config
             (AuthController.mkRegisterBody "alice" "alice2@example.com"
                                            "Passw0rd1")
             Sample.world))
  = db Sample.world.
Proof.
  apply (proj2 (@register_all_or_nothing Sample.core Sample.codec
                  default_config
                  (AuthController.mkRegisterBody "alice" "alice2@example.com"
                                                 "Passw0rd1")
                  Sample.world _ _ eq_refl)).
  vm_compute. discriminate.
Defined.

Lemma register_keeps_accounts_unique_witness :
  accounts_unique
    (users (db (snd (AuthController.register (core := Sample.core)
                       (codec := Sample.codec) default_config
                       (AuthController.mkRegisterBody "carol" "Carol@Example.com"
                                                      "Passw0rd1")
                       Sample.world)))).
Proof.
  apply (@register_keeps_accounts_unique Sample.core Sample.codec
           default_config).
  split; simpl; distinct.
Defined.

(** ** Login, in general *)

Lemma User_save_run (u : UserDoc) (w w' : World) (o : Outcome UserDoc) :
  User.save u w = (o, w') ->
  match o with
  | Ok u' => u' = u
             /\ db w' = with_users (replaceById user_id u (users (db w))) (db w)
  | Throw _ => db w' = db w
  end.
Proof.
  unfold User.save. run. unfold io.
  destruct (outages w) as [|[] l]; simpl;
    try (intros H; inversion H; now subst);
    destruct (lookupById user_id (user_id u) (users (db w)));
    intros H; inversion H; subst; simpl; auto.
Qed.

Section LoginInGeneral.
Context {core : BcryptCore} {codec : JwtCodec} (cfg : Config).

Lemma login_opens (identifier pw : string) (u : UserDoc) (w : World) :
  healthy w ->
  find (User.email_or_username (Js.toLowerCase identifier) identifier)
       (users (db w)) = Some u ->
  User.comparePassword pw u = Ok true ->
  isActive u = true ->
  lookupById user_id (user_id u) (users (db w)) <> None ->
  AuthController.login cfg (AuthController.mkLoginBody identifier pw) w
  = (login_ok cfg u (now w),
     with_db (with_users
                (replaceById user_id (User.set_lastLogin (Some (now w)) u)
                             (users (db w)))
                (db w)) w).
Proof.
  intros Hw F Hc Ha L.
  unfold AuthController.login, catching, User.findByEmailOrUsername,
    User.findOne, Auth.generateToken, User.save.
  run. rewrite (io_healthy w Hw). simpl. rewrite F. simpl.
  rewrite Hc. simpl. rewrite Ha. simpl. rewrite (io_healthy w Hw). simpl.
  destruct (lookupById user_id (user_id u) (users (db w))); [reflexivity|].
  now contradiction L.
Qed.

(** X13.  A login writes only when it answers 200: every other answer leaves
    the collections as they were.  With the database up, an identifier that
    no account answers to and a wrong password get the same 401; a
    deactivated account learns that it is deactivated only with the right
    password; an error of the comparison gives 500. *)
Theorem login_refusals (body : AuthController.LoginBody) (w : World) :
  (forall r w1,
     AuthController.login cfg body w = (r, w1) ->
     res_status r <> 200%nat -> db w1 = db w)
  /\ (healthy w ->
      match find (User.email_or_username
                    (Js.toLowerCase (AuthController.login_email body))
                    (AuthController.login_email body))
                 (users (db w)) with
      | None =>
          AuthController.login cfg body w
          = (failure 401 "Invalid credentials", w)
      | Some u =>
          (User.comparePassword (AuthController.login_password body) u
           = Ok false ->
           AuthController.login cfg body w
           = (failure 401 "Invalid credentials", w))
          /\ (User.comparePassword (AuthController.login_password body) u
              = Ok true ->
              isActive u = false ->
              AuthController.login cfg body w
              = (failure 401 "Account is deactivated", w))
          /\ (forall e,
                User.comparePassword (AuthController.login_password body) u
                = Throw e ->
                AuthController.login cfg body w
                = (failure 500 "Server error during login", w))
      end).
Proof.
  split.
  - intros r w1 H Hs. unfold AuthController.login, catching in H.
    unfold bind at 1 in H. unfold User.findByEmailOrUsername in H.
    destruct (User.findOne _ w) as [[found|e] v] eqn:F.
    2: { apply findOne_frame in F. inversion H; subst. tauto. }
    destruct (findOne_frame _ _ _ _ F) as (Hdb & _).
    destruct found as [u|]; [|unfold ret in H; inversion H; now subst].
    unfold bind at 1, lift in H.
    destruct (User.comparePassword _ u) as [[]|e];
      try (unfold ret in H; inversion H; now subst).
    simpl in H.
    destruct (isActive u); simpl in H;
      [|unfold ret in H; inversion H; now subst].
    unfold Auth.generateToken in H. unfold bind at 1 in H.
    unfold bind at 1, gets at 1, ret at 1 in H.
    unfold bind at 1, gets at 1 in H. unfold bind at 1 in H.
    destruct (User.save _ v) as [[u'|e] v1] eqn:S.
    + unfold ret in H. inversion H; subst. now contradiction Hs.
    + apply User_save_run in S. inversion H; subst. congruence.
  - intros Hw. unfold AuthController.login, catching,
      User.findByEmailOrUsername, User.findOne.
    run. rewrite (io_healthy w Hw). simpl.
    destruct (find _ (users (db w))) as [u|]; [|reflexivity].
    split; [|split].
    + now intros ->.
    + intros -> Ha. simpl. now rewrite Ha.
    + now intros e ->.
Qed.
End LoginInGeneral.

Lemma login_refusals_witness :
  (AuthController.login (core := Sample.core) (codec := Sample.codec)
     default_config (AuthController.mkLoginBody "alice" "letmein1") Sample.world
   = (failure 401 "Invalid credentials", Sample.world))
  /\ (AuthController.login (core := Sample.core) (codec := Sample.codec)
        default_config (AuthController.mkLoginBody "nobody" "Passw0rd")
        Sample.world
      = (failure 401 "Invalid credentials", Sample.world))
  /\ db (snd (AuthController.login (core := Sample.core) (codec := Sample.codec)
                default_config (AuthController.mkLoginBody "alice" "Passw0rd")
                (Sample.world_with [false; true])))
     = db Sample.world
  /\ (AuthController.login (core := Sample.core) (codec := Sample.codec)
        default_config (AuthController.mkLoginBody " Alice@Example.com " "letmein1")
        Sample.world
      = (failure 401 "Invalid credentials", Sample.world)).
Proof.
  split; [|split; [|split]].
  - exact (proj1 (proj2 (@login_refusals Sample.core Sample.codec default_config
                           (AuthController.mkLoginBody "alice" "letmein1")
                           Sample.world) eq_refl)
             eq_refl).
  - exact (proj2 (@login_refusals Sample.core Sample.codec default_config
                    (AuthController.mkLoginBody "nobody" "Passw0rd")
                    Sample.world) eq_refl).
  - apply (proj1 (@login_refusals Sample.core Sample.codec default_config
                    (AuthController.mkLoginBody "alice" "Passw0rd")
                    (Sample.world_with [false; true]))
             _ _ eq_refl).
    vm_compute. discriminate.
  - exact (proj1 (proj2 (@login_refusals Sample.core Sample.codec default_config
                           (AuthController.mkLoginBody " Alice@Example.com "
                                                       "letmein1")
                           Sample.world) eq_refl)
             eq_refl).
Defined.

(** ** From registration to login *)

Lemma find_snoc {A} (f : A -> bool) (l : list A) (x : A) :
  (forall v, In v l -> f v = false) -> f x = true ->
  find f (l ++ [x]) = Some x.
Proof.
  intros Hl Hx. induction l as [|a l IH]; simpl; [now rewrite Hx|].
  rewrite (Hl a (or_introl eq_refl)). apply IH.
  intros v Hv. apply Hl. now right.
Qed.

Lemma lookupById_snoc (l : list UserDoc) (x : UserDoc) :
  (forall v, In v l -> user_id v <> user_id x) ->
  lookupById user_id (user_id x) (l ++ [x]) = Some x.
Proof.
  intros Hl. unfold lookupById. apply find_snoc.
  - intros v Hv. apply N.eqb_neq. now apply Hl.
  - apply N.eqb_refl.
Qed.

Section RegistrationToLogin.
Context {core : BcryptCore} {codec : JwtCodec} (cfg : Config).

Lemma register_run (body : AuthController.RegisterBody) (w w1 : World) (r : Response) :
  healthy w ->
  AuthController.register cfg body w = (r, w1) ->
  res_status r = 201%nat ->
  exists hashed,
    bcrypt.hash (AuthController.reg_password body) (bcrypt_genSalt 12 (seed w))
    = Ok hashed
    /\ db w1 = with_users
                 (users (db w)
                  ++ [created_account w (AuthController.reg_username body)
                        (AuthController.reg_email body) hashed])
                 (db w)
    /\ now w1 = now w
    /\ healthy w1.
Proof.
  intros Hw H H201. unfold AuthController.register, catching in H.
  unfold bind at 1 in H.
  destruct (User.findOne _ w) as [[found|e] v] eqn:F.
  2: { inversion H; subst. discriminate. }
  destruct (findOne_frame _ _ _ _ F) as (Hdb & Hnow & Hid & Hseed & Ho).
  destruct found as [existing|].
  { unfold ret in H. inversion H; subst. discriminate. }
  unfold bind at 1 in H.
  destruct (User.create _ _ _ v) as [[doc|e] v1] eqn:C.
  2: { inversion H; subst. discriminate. }
  apply create_run in C.
  destruct C as (hashed & Hh & Hdoc & _ & _ & Hdb1 & Hnow1 & Ho1).
  unfold Auth.generateToken in H. run. inversion H; subst r w1. clear H.
  exists hashed. rewrite Hseed in Hh. rewrite Hdb in Hdb1.
  subst doc. unfold created_account in *. rewrite Hid in *.
  repeat split; try assumption; try congruence.
  unfold healthy in *. now rewrite Ho1, Ho, Hw.
Qed.

(** X14.  An account that has just registered can log in.  With the database
    up, after a registration that answered 201, a login with the same
    password and with the stored user name or the stored email as identifier
    answers 200 with a token for the new account, provided bcrypt accepts the
    password against the hash it has just made of it, the new identifier is
    not that of a stored account, and no stored account answers to the login
    identifier. *)
Theorem register_then_login
  (body : AuthController.RegisterBody) (identifier : string)
  (w w1 : World) (r : Response) :
  healthy w ->
  AuthController.register cfg body w = (r, w1) ->
  res_status r = 201%nat ->
  (forall hashed,
     bcrypt.hash (AuthController.reg_password body) (bcrypt_genSalt 12 (seed w))
     = Ok hashed ->
     bcrypt.compare (AuthController.reg_password body) hashed = Ok true) ->
  (forall v, In v (users (db w)) -> user_id v <> nextId w) ->
  identifier = Js.trim (AuthController.reg_username body)
  \/ identifier = Js.toLowerCase (Js.trim (AuthController.reg_email body)) ->
  (forall v, In v (users (db w)) ->
             User.email_or_username (Js.toLowerCase identifier) identifier v
             = false) ->
  fst (AuthController.login cfg
         (AuthController.mkLoginBody identifier (AuthController.reg_password body))
         w1)
  = mkResponse 200 true "Login successful"
      (AuthData (nextId w)
         (Js.trim (AuthController.reg_username body))
         (Js.toLowerCase (Js.trim (AuthController.reg_email body)))
         RoleUser
         (jwt.sign (nextId w) (JWT_SECRET cfg) (JWT_EXPIRE cfg) (now w))).
Proof.
  intros Hw H H201 Hlaw Hfresh Hident Hnone.
  destruct (register_run body w w1 r Hw H H201) as (hashed & Hh & Hdb & Hnow & Hw1).
  set (doc := created_account w (AuthController.reg_username body)
                (AuthController.reg_email body) hashed) in *.
  rewrite (login_opens cfg identifier (AuthController.reg_password body) doc w1 Hw1).
  - unfold login_ok. simpl. now rewrite Hnow.
  - rewrite Hdb. simpl. apply find_snoc; [exact Hnone|].
    unfold User.email_or_username, doc, created_account. simpl.
    destruct Hident as [->| ->].
    + rewrite trim_idem, String.eqb_refl. apply orb_true_r.
    + now rewrite cast_lower, trim_toLowerCase, toLowerCase_idem, trim_idem,
        String.eqb_refl.
  - unfold User.comparePassword, doc, created_account. simpl.
    now apply Hlaw.
  - reflexivity.
  - rewrite Hdb.
    change (lookupById user_id (user_id doc) (users (db w) ++ [doc]) <> None).
    rewrite (lookupById_snoc (users (db w)) doc); [discriminate|exact Hfresh].
Qed.
End RegistrationToLogin.

Lemma register_then_login_witness :
  fst (AuthController.login (core := Sample.core) (codec := Sample.codec)
         default_config (AuthController.mkLoginBody "carol" "Passw0rd1")
         (snd (AuthController.register (core := Sample.core)
                 (codec := Sample.codec) default_config
                 (AuthController.mkRegisterBody " carol" "Carol@Example.com"
                                                "Passw0rd1")
                 Sample.world)))
  = mkResponse 200 true "Login successful"
      (AuthData 100%N "carol" "carol@example.com" RoleUser "guest.jwt").
Proof.
  refine (@register_then_login Sample.core Sample.codec default_config
            (AuthController.mkRegisterBody " carol" "Carol@Example.com"
                                           "Passw0rd1")
            "carol" Sample.world _ _ eq_refl (surjective_pairing _) _ _ _
            (or_introl eq_refl) _).
  - vm_compute. reflexivity.
  - intros hashed H. vm_compute in H. inversion H. reflexivity.
  - intros v [<-|[<-|[<-|[]]]]; discriminate.
  - intros v [<-|[<-|[<-|[]]]]; reflexivity.
Defined.

(** ** Changing a password *)

Lemma find_replaceById (f : UserDoc -> bool) (d d' : UserDoc) (l : list UserDoc) :
  find f l = Some d ->
  lookupById user_id (user_id d) l = Some d ->
  user_id d' = user_id d ->
  f d' = true ->
  find f (replaceById user_id d' l) = Some d'.
Proof.
  intros F L E Hf. rewrite <- E in L. unfold lookupById in L.
  assert (Hd : f d = true) by (now apply find_some in F).
  induction l as [|a l IH]; simpl in *; [discriminate|].
  destruct (N.eqb (user_id a) (user_id d')) eqn:Ea.
  - simpl. now rewrite Hf.
  - simpl. destruct (f a) eqn:Fa.
    + inversion F; subst a. rewrite E, N.eqb_refl in Ea. discriminate.
    + now apply IH.
Qed.

Section PasswordChange.
Context {core : BcryptCore} {codec : JwtCodec} (cfg : Config).

(** X15.  With the database up, [changePassword] answers 400 and changes
    nothing when the current password is not accepted.  When it is accepted,
    a new password that fails the schema (one shorter than 8 characters, say)
    gives 500 and changes nothing; otherwise the account is stored with the
    hash of the new password, everything else as it was, and the answer is
    200.  An account that is no longer stored gives 500. *)
Theorem changePassword_outcomes
  (actor : ReqUser) (body : AuthControllerMore.PasswordBody) (w : World) :
  healthy w ->
  match lookupById user_id (ru_id actor) (users (db w)) with
  | None =>
      AuthControllerMore.changePassword actor body w
      = (failure 500 "Server error changing password", w)
  | Some user =>
      (User.comparePassword (AuthControllerMore.currentPassword body) user
       = Ok false ->
       AuthControllerMore.changePassword actor body w
       = (failure 400 "Current password is incorrect", w))
      /\ (User.comparePassword (AuthControllerMore.currentPassword body) user
          = Ok true ->
          (forall path,
             User.validate
               (with_password (AuthControllerMore.newPassword body) user)
             = Some path ->
             AuthControllerMore.changePassword actor body w
             = (failure 500 "Server error changing password", w))
          /\ (forall hashed,
                User.validate
                  (with_password (AuthControllerMore.newPassword body) user)
                = None ->
                AuthControllerMore.newPassword body <> password user ->
                bcrypt.hash (AuthControllerMore.newPassword body)
                            (bcrypt_genSalt 12 (seed w)) = Ok hashed ->
                fst (AuthControllerMore.changePassword actor body w)
                = mkResponse 200 true "Password changed successfully" NoData
                /\ db (snd (AuthControllerMore.changePassword actor body w))
                   = with_users
                       (replaceById user_id (with_password hashed user)
                                    (users (db w)))
                       (db w)))
  end.
Proof.
  intros Hw. unfold AuthControllerMore.changePassword, catching.
  unfold User.findById. run. rewrite (io_healthy w Hw). simpl.
  destruct (lookupById user_id (ru_id actor) (users (db w))) as [user|] eqn:L;
    [|reflexivity].
  assert (Hid : user_id user = ru_id actor) by (eapply lookupById_id; eauto).
  pose proof L as L'. rewrite <- Hid in L'.
  split; [now intros ->|]. intros ->. simpl. split.
  - intros path V. unfold AuthControllerMore.save_password.
    unfold with_password in V. now rewrite V.
  - intros hashed V Hne Hh. unfold AuthControllerMore.save_password.
    unfold with_password in V. rewrite V.
    apply String.eqb_neq in Hne. rewrite Hne.
    unfold AuthControllerMore.genSalt12. run. rewrite Hh. simpl.
    unfold io. simpl. pose proof Hw as Ho. unfold healthy in Ho. rewrite Ho.
    simpl. rewrite L'. simpl. split; reflexivity.
Qed.

(** X16.  After a password change that answered 200 the new password logs
    in: with the database up, for an active account that its user name
    designates, a login with the user name and the new password answers 200,
    provided bcrypt accepts the new password against the hash it has just
    made of it. *)
Theorem changePassword_then_login
  (actor : ReqUser) (body : AuthControllerMore.PasswordBody)
  (user : UserDoc) (hashed : string) (w : World) :
  healthy w ->
  lookupById user_id (ru_id actor) (users (db w)) = Some user ->
  find (User.email_or_username (Js.toLowerCase (username user)) (username user))
       (users (db w)) = Some user ->
  isActive user = true ->
  User.comparePassword (AuthControllerMore.currentPassword body) user = Ok true ->
  User.validate (with_password (AuthControllerMore.newPassword body) user) = None ->
  AuthControllerMore.newPassword body <> password user ->
  bcrypt.hash (AuthControllerMore.newPassword body) (bcrypt_genSalt 12 (seed w))
  = Ok hashed ->
  bcrypt.compare (AuthControllerMore.newPassword body) hashed = Ok true ->
  let w1 := snd (AuthControllerMore.changePassword actor body w) in
  fst (AuthControllerMore.changePassword actor body w)
  = mkResponse 200 true "Password changed successfully" NoData
  /\ lookupById user_id (user_id user) (users (db w1))
     = Some (with_password hashed user)
  /\ fst (AuthController.login cfg
            (AuthController.mkLoginBody (username user)
                                        (AuthControllerMore.newPassword body))
            w1)
     = login_ok cfg (with_password hashed user) (now w).
Proof.
  intros Hw L F Ha Hc V Hne Hh Hlaw w1.
  assert (Hid : user_id user = ru_id actor) by (eapply lookupById_id; eauto).
  pose proof L as L'. rewrite <- Hid in L'.
  assert (E : AuthControllerMore.changePassword actor body w
              = (mkResponse 200 true "Password changed successfully" NoData,
                 mkWorld (with_users
                            (replaceById user_id (with_password hashed user)
                                         (users (db w))) (db w))
                         (now w) [] (nextId w) (N.succ (seed w)))).
  { unfold AuthControllerMore.changePassword, catching.
    unfold User.findById. run. rewrite (io_healthy w Hw). simpl.
    rewrite L. simpl. rewrite Hc. simpl.
    unfold AuthControllerMore.save_password.
    unfold with_password in V. rewrite V.
    apply String.eqb_neq in Hne. rewrite Hne.
    unfold AuthControllerMore.genSalt12. run. rewrite Hh. simpl.
    unfold io. simpl. pose proof Hw as Ho. unfold healthy in Ho. rewrite Ho.
    simpl. rewrite L'. reflexivity. }
  unfold w1. rewrite E. cbn [fst snd]. split; [reflexivity|].
  assert (L1 : lookupById user_id (user_id user)
                 (replaceById user_id (with_password hashed user) (users (db w)))
               = Some (with_password hashed user)).
  { apply (lookupById_replaceById user_id (with_password hashed user) user).
    exact L'. }
  split; [exact L1|].
  rewrite (login_opens cfg (username user) (AuthControllerMore.newPassword body)
             (with_password hashed user)); try reflexivity; simpl.
  - apply (find_replaceById _ user); try assumption; try reflexivity.
    exact (proj2 (find_some _ _ F)).
  - exact Hlaw.
  - exact Ha.
  - rewrite L1. discriminate.
Qed.
End PasswordChange.

Lemma changePassword_outcomes_witness :
  (AuthControllerMore.changePassword (core := Sample.core)
     (User.select_no_password Sample.alice)
     (AuthControllerMore.mkPasswordBody "letmein1" "N3wPassw0rd") Sample.world
   = (failure 400 "Current password is incorrect", Sample.world))
  /\ (AuthControllerMore.changePassword (core := Sample.core)
        (User.select_no_password Sample.alice)
        (AuthControllerMore.mkPasswordBody "Passw0rd" "short") Sample.world
      = (failure 500 "Server error changing password", Sample.world))
  /\ fst (AuthControllerMore.changePassword (core := Sample.core)
            (User.select_no_password Sample.alice)
            (AuthControllerMore.mkPasswordBody "Passw0rd" "N3wPassw0rd")
            Sample.world)
     = mkResponse 200 true "Password changed successfully" NoData
  /\ (AuthControllerMore.changePassword (core := Sample.core)
        (User.select_no_password Sample.alice)
        (AuthControllerMore.mkPasswordBody "Passw0rd"
           (MoreSamples.repeat_char MoreSamples.e_acute 5))
        Sample.world
      = (failure 500 "Server error changing password", Sample.world)).
Proof.
  split; [|split; [|split]].
  - exact (proj1 (@changePassword_outcomes Sample.core
                    (User.select_no_password Sample.alice)
                    (AuthControllerMore.mkPasswordBody "letmein1" "N3wPassw0rd")
                    Sample.world eq_refl)
             eq_refl).
  - exact (proj1 (proj2 (@changePassword_outcomes Sample.core
                           (User.select_no_password Sample.alice)
                           (AuthControllerMore.mkPasswordBody "Passw0rd" "short")
                           Sample.world eq_refl)
                    eq_refl)
             "password" eq_refl).
  - refine (proj1 (proj2 (proj2 (@changePassword_outcomes Sample.core
                                   (User.select_no_password Sample.alice)
                                   (AuthControllerMore.mkPasswordBody
                                      "Passw0rd" "N3wPassw0rd")
                                   Sample.world eq_refl)
                            eq_refl)
                     "$2a$12$abcdefghijklmnopqrstuvN3wPassw0rd...................."
                     eq_refl _ eq_refl)).
    discriminate.
  - exact (proj1 (proj2 (@changePassword_outcomes Sample.core
                           (User.select_no_password Sample.alice)
                           (AuthControllerMore.mkPasswordBody "Passw0rd"
                              (MoreSamples.repeat_char MoreSamples.e_acute 5))
                           Sample.world eq_refl)
                    eq_refl)
             "password" eq_refl).
Defined.

Lemma changePassword_then_login_witness :
  fst (AuthController.login (core := Sample.core) (codec := Sample.codec)
         default_config (AuthController.mkLoginBody "alice" "N3wPassw0rd")
         (snd (AuthControllerMore.changePassword (core := Sample.core)
                 (User.select_no_password Sample.alice)
                 (AuthControllerMore.mkPasswordBody "Passw0rd" "N3wPassw0rd")
                 Sample.world)))
  = mkResponse 200 true "Login successful"
      (AuthData 1%N "alice" "alice@example.com" RoleUser "alice.jwt").
Proof.
  refine (proj2 (proj2 (@changePassword_then_login Sample.core Sample.codec
                          default_config
                          (User.select_no_password Sample.alice)
                          (AuthControllerMore.mkPasswordBody
                             "Passw0rd" "N3wPassw0rd")
                          Sample.alice
                          "$2a$12$abcdefghijklmnopqrstuvN3wPassw0rd...................."
                          Sample.world
                          eq_refl eq_refl eq_refl eq_refl eq_refl eq_refl _
                          eq_refl eq_refl))).
  discriminate.
Defined.

(** ** Creating a post *)

Lemma Post_create_ok
  (actor : ReqUser) (body : PostController.CreateBody) (st : Status) (w : World) :
  status_of_string (requested_status body) = Some st ->
  Post.validate (created_post w actor body st) = None ->
  slug_taken (slug (created_post w actor body st)) (posts (db w)) = false ->
  match outages w with true :: _ => False | _ => True end ->
  Post.create (PostController.new_title body) (PostController.new_content body)
    (PostController.new_category body) (ru_id actor)
    (Post.or_else (PostController.new_tags body) []) (requested_status body) w
  = (Ok (created_post w actor body st),
     mkWorld (with_posts (posts (db w) ++ [created_post w actor body st]) (db w))
             (now w) (tl (outages w)) (N.succ (nextId w)) (seed w)).
Proof.
  intros Hst Hv Hs Ho. unfold Post.create. run. rewrite Hst.
  unfold Post.validate, created_post in *. simpl in *. rewrite Hv.
  unfold io. simpl. unfold slug_taken in Hs.
  destruct (outages w) as [|[] l]; [|contradiction|]; simpl; now rewrite Hs.
Qed.


(** X18.  [createPost] does not undo the insert.  When the category is found
    and the post is inserted, and the database then fails while the author is
    being populated, the answer is 500 although the post is stored; the
    category's count is not refreshed. *)
Theorem createPost_keeps_the_post_on_failure
  (actor : ReqUser) (body : PostController.CreateBody) (cat : CategoryDoc)
  (st : Status) (w : World) (o : list bool) :
  outages w = false :: false :: true :: o ->
  lookupById cat_id (PostController.new_category body) (categories (db w))
  = Some cat ->
  status_of_string (requested_status body) = Some st ->
  Post.validate (created_post w actor body st) = None ->
  slug_taken (slug (created_post w actor body st)) (posts (db w)) = false ->
  fst (PostController.createPost actor body w)
  = failure 500 "Server error creating post"
  /\ posts (db (snd (PostController.createPost actor body w)))
     = (posts (db w) ++ [created_post w actor body st])%list
  /\ categories (db (snd (PostController.createPost actor body w)))
     = categories (db w).
Proof.
  intros Ho L Hst Hv Hs.
  unfold PostController.createPost, catching.
  assert (F : Category.findById (PostController.new_category body) w
              = (Ok (Some cat), with_outages (false :: true :: o) w)).
  { unfold Category.findById. run. unfold io. rewrite Ho. simpl. now rewrite L. }
  rewrite (bind_run _ _ _ _ _ F).
  set (w0 := with_outages (false :: true :: o) w).
  assert (C := Post_create_ok actor body st w0 Hst Hv Hs I).
  rewrite (bind_run _ _ _ _ _ C). simpl tl.
  unfold bind at 1. unfold io at 1. simpl. repeat split.
Qed.

(** X19.  With the database up, [createPost] answers 400 and changes nothing
    when the category is not stored, and answers 500 and stores nothing when
    the trimmed title or the content fails the schema, or when the slug of the
    title is already that of a stored post. *)
Theorem createPost_refusals
  (actor : ReqUser) (body : PostController.CreateBody) (w : World) :
  healthy w ->
  (lookupById cat_id (PostController.new_category body) (categories (db w))
   = None ->
   PostController.createPost actor body w
   = (failure 400 "Invalid category", w))
  /\ (forall cat st,
        lookupById cat_id (PostController.new_category body) (categories (db w))
        = Some cat ->
        status_of_string (requested_status body) = Some st ->
        slug_taken (slug (created_post w actor body st)) (posts (db w)) = true
        \/ Post.validate (created_post w actor body st) <> None ->
        fst (PostController.createPost actor body w)
        = failure 500 "Server error creating post"
        /\ db (snd (PostController.createPost actor body w)) = db w).
Proof.
  intros Hw. split.
  - intros L. unfold PostController.createPost, catching.
    now rewrite (bind_run _ _ _ _ _
                   (Category_findById_healthy (PostController.new_category body)
                      w Hw)), L.
  - intros cat st L Hst Hs. unfold PostController.createPost, catching.
    rewrite (bind_run _ _ _ _ _
               (Category_findById_healthy (PostController.new_category body)
                  w Hw)), L.
    unfold Post.create. run. fold (requested_status body). rewrite Hst.
    unfold slug_taken, Post.validate, created_post in Hs. simpl in Hs.
    destruct (Post.validate _) eqn:V; [split; reflexivity|].
    destruct Hs as [Hs|Hs].
    + unfold io. simpl. pose proof Hw as Ho. unfold healthy in Ho. rewrite Ho.
      simpl. rewrite Hs. split; reflexivity.
    + unfold Post.validate in V. simpl in V. now contradiction Hs.
Qed.


Lemma createPost_keeps_the_post_on_failure_witness :
  fst (PostController.createPost (User.select_no_password Sample.bob)
         MoreSamples.second (MoreSamples.world_with [false; false; true]))
  = failure 500 "Server error creating post"
  /\ posts (db (snd (PostController.createPost
                       (User.select_no_password Sample.bob) MoreSamples.second
                       (MoreSamples.world_with [false; false; true]))))
     = [Sample.hello;
        created_post MoreSamples.world (User.select_no_password Sample.bob)
          MoreSamples.second Published].
Proof.
  pose proof (createPost_keeps_the_post_on_failure
                (User.select_no_password Sample.bob) MoreSamples.second
                MoreSamples.retired Published
                (MoreSamples.world_with [false; false; true]) []
                eq_refl eq_refl eq_refl eq_refl eq_refl) as H.
  split; [exact (proj1 H)|exact (proj1 (proj2 H))].
Defined.

Lemma createPost_refusals_witness :
  PostController.createPost (User.select_no_password Sample.bob)
    (PostController.mkCreateBody "A title" "Content long enough" 99%N None None)
    MoreSamples.world
  = (failure 400 "Invalid category", MoreSamples.world)
  /\ (fst (PostController.createPost (User.select_no_password Sample.bob)
             MoreSamples.again MoreSamples.world)
      = failure 500 "Server error creating post"
      /\ db (snd (PostController.createPost (User.select_no_password Sample.bob)
                    MoreSamples.again MoreSamples.world))
         = db MoreSamples.world)
  /\ (String.length (PostController.new_title MoreSamples.two_letters) = 2%nat
      /\ fst (PostController.createPost (User.select_no_password Sample.bob)
                MoreSamples.two_letters MoreSamples.world)
         = failure 500 "Server error creating post"
      /\ db (snd (PostController.createPost (User.select_no_password Sample.bob)
                    MoreSamples.two_letters MoreSamples.world))
         = db MoreSamples.world).
Proof.
  split; [|split].
  - exact (proj1 (createPost_refusals (User.select_no_password Sample.bob)
                    (PostController.mkCreateBody "A title" "Content long enough"
                                                 99%N None None)
                    MoreSamples.world eq_refl)
             eq_refl).
  - exact (proj2 (createPost_refusals (User.select_no_password Sample.bob)
                    MoreSamples.again MoreSamples.world eq_refl)
             Sample.tech Published eq_refl eq_refl (or_introl eq_refl)).
  - split; [reflexivity|].
    refine (proj2 (createPost_refusals (User.select_no_password Sample.bob)
                     MoreSamples.two_letters MoreSamples.world eq_refl)
              Sample.tech Published eq_refl eq_refl (or_intror _)).
    vm_compute. discriminate.
Defined.

(** ** What an update keeps *)

Lemma findByIdAndUpdate_run (id : ObjectId) (u : Post.Update) (w w' : World)
      (o : Outcome (option PostDoc)) :
  Post.findByIdAndUpdate id u w = (o, w') ->
  match o with
  | Ok (Some p') =>
      exists p, lookupById post_id id (posts (db w)) = Some p
                /\ p' = Post.apply_update (Post.cast_update u) p
                /\ db w' = with_posts (replaceById post_id p' (posts (db w))) (db w)
  | Ok None => db w' = db w
  | Throw _ => db w' = db w
  end.
Proof.
  unfold Post.findByIdAndUpdate.
  destruct (Post.validate_update _); [run; intros H; inversion H; now subst|].
  run. unfold io.
  destruct (outages w) as [|[] l]; simpl;
    try (intros H; inversion H; now subst);
    destruct (lookupById post_id id (posts (db w))) as [p|] eqn:L;
    intros H; inversion H; subst; simpl; try reflexivity;
    exists p; repeat split.
Qed.

Lemma Category_findById_frame (id : ObjectId) (w w' : World)
      (o : Outcome (option CategoryDoc)) :
  Category.findById id w = (o, w') -> db w' = db w.
Proof.
  unfold Category.findById. run. unfold io.
  destruct (outages w) as [|[] l]; simpl; intros H; inversion H; now subst.
Qed.

(** X20.  An update that answers 200 replaces the stored post by one that
    differs from it at most in title, content, category, tags and status: the
    author, the slug (also when the title changes), the views, the likes, the
    comments and the publication date stay, and so do the accounts and the
    categories. *)
Theorem updatePost_keeps_the_rest
  (actor : ReqUser) (id : ObjectId) (body : Post.Update) (w w1 : World)
  (r : Response) :
  PostController.updatePost actor id body w = (r, w1) ->
  res_status r = 200%nat ->
  exists old new,
    lookupById post_id id (posts (db w)) = Some old
    /\ lookupById post_id id (posts (db w1)) = Some new
    /\ r = updated_ok new
    /\ post_id new = post_id old /\ author new = author old
    /\ slug new = slug old /\ views new = views old
    /\ likes new = likes old /\ comments new = comments old
    /\ publishedAt new = publishedAt old
    /\ users (db w1) = users (db w)
    /\ categories (db w1) = categories (db w).
Proof.
  intros H H200. unfold PostController.updatePost, catching in H.
  unfold bind at 1 in H.
  destruct (Post.findById id w) as [[found|e] v] eqn:F.
  2: { inversion H; subst. discriminate. }
  destruct (Post_findById_frame _ _ _ _ F) as [Hdb _].
  apply Post_findById_result in F. destruct F as (-> & _ & _).
  destruct (lookupById post_id id (posts (db w))) as [old|] eqn:L.
  2: { unfold ret in H. inversion H; subst. discriminate. }
  assert (Hid : post_id old = id) by (eapply lookupById_id; eauto).
  destruct (PostController.forbidden old actor).
  { unfold ret in H. inversion H; subst. discriminate. }
  unfold bind at 1 in H.
  assert (C : exists b v', (match Post.upd_category body with
                            | Some cat =>
                                (categoryExists <- Category.findById cat ;;
                                 ret (match categoryExists with
                                      | Some _ => true | None => false end))
                            | None => ret true
                            end) v = (b, v') /\ db v' = db v).
  { destruct (Post.upd_category body) as [cat|].
    - unfold bind. destruct (Category.findById cat v) as [[c|e] v'] eqn:K;
        apply Category_findById_frame in K; eexists; eexists;
        (split; [reflexivity|exact K]).
    - eexists; eexists; split; reflexivity. }
  destruct C as (b & v' & C & Hdb'). rewrite C in H.
  destruct b as [[]|e]; simpl in H;
    try (unfold ret in H; inversion H; subst; discriminate).
  unfold bind at 1 in H.
  destruct (Post.findByIdAndUpdate id body v') as [[[new|]|e] v2] eqn:U;
    try (unfold throw in H; inversion H; subst; discriminate).
  apply findByIdAndUpdate_run in U. destruct U as (p & Lp & Hnew & Hdb2).
  unfold ret in H. inversion H; subst r w1. clear H.
  rewrite Hdb', Hdb in Lp, Hdb2. rewrite L in Lp. inversion Lp; subst p.
  exists old, new. rewrite Hdb2. simpl.
  assert (Hn : post_id new = post_id old) by (now subst new).
  repeat split; try (now subst new).
  rewrite <- Hid, <- Hn.
  apply (lookupById_replaceById post_id new old). now rewrite Hn, Hid.
Qed.

Lemma updatePost_keeps_the_rest_witness :
  option_map slug
    (lookupById post_id 20%N
       (posts (db (snd (PostController.updatePost
                          (User.select_no_password Sample.alice) 20%N
                          (Post.mkUpdate (Some "A new title") None None None None)
                          Sample.world)))))
  = Some "hello-world"
  /\ option_map title
       (lookupById post_id 20%N
          (posts (db (snd (PostController.updatePost
                             (User.select_no_password Sample.alice) 20%N
                             (Post.mkUpdate (Some "A new title") None None None None)
                             Sample.world)))))
     = Some "A new title".
Proof.
  split; [|reflexivity].
  destruct (updatePost_keeps_the_rest
              (User.select_no_password Sample.alice) 20%N
              (Post.mkUpdate (Some "A new title") None None None None)
              Sample.world
              (snd (PostController.updatePost
                      (User.select_no_password Sample.alice) 20%N
                      (Post.mkUpdate (Some "A new title") None None None None)
                      Sample.world))
              (fst (PostController.updatePost
                      (User.select_no_password Sample.alice) 20%N
                      (Post.mkUpdate (Some "A new title") None None None None)
                      Sample.world))
              (surjective_pairing _) eq_refl)
    as (old & new & Lo & Ln & _ & _ & _ & Hs & _).
  rewrite Ln. simpl. rewrite Hs.
  vm_compute in Lo. inversion Lo. reflexivity.
Defined.

(** ** The published-post count, on the sample store *)

Lemma createPost_recounts_witness :
  exists c,
    lookupById cat_id 11%N
      (categories (db (snd (PostController.createPost
                              (User.select_no_password Sample.bob)
                              MoreSamples.second MoreSamples.world))))
    = Some c
    /\ postCount c
       = Post.count 11%N Published
           (posts (db (snd (PostController.createPost
                              (User.select_no_password Sample.bob)
                              MoreSamples.second MoreSamples.world)))).
Proof.
  exact (createPost_recounts (User.select_no_password Sample.bob)
           MoreSamples.second MoreSamples.world _ _ eq_refl eq_refl eq_refl).
Defined.

Lemma deletePost_recounts_witness :
  postCount (Category.set_postCount 0%N Sample.tech)
  = Post.count 10%N Published
      (posts (db (snd (PostController.deletePost
                         (User.select_no_password Sample.alice) 20%N
                         Sample.world)))).
Proof.
  exact (deletePost_recounts (User.select_no_password Sample.alice) 20%N
           Sample.hello Sample.world _ _ (Category.set_postCount 0%N Sample.tech)
           eq_refl eq_refl eq_refl eq_refl eq_refl).
Defined.

(** ** Removing a document *)
Section RemoveFacts.
Context {D : Type} (id_of : D -> ObjectId).

Lemma map_replaceById (d : D) (l : list D) :
  map id_of (replaceById id_of d l) = map id_of l.
Proof.
  induction l as [|y l IH]; simpl; [reflexivity|].
  destruct (N.eqb (id_of y) (id_of d)) eqn:E; simpl.
  - apply N.eqb_eq in E. now rewrite E.
  - now rewrite IH.
Qed.

Lemma lookupById_replaceById_other (j : ObjectId) (d : D) (l : list D) :
  j <> id_of d ->
  lookupById id_of j (replaceById id_of d l) = lookupById id_of j l.
Proof.
  intros Hj. unfold lookupById. induction l as [|y l IH]; simpl; [reflexivity|].
  destruct (N.eqb (id_of y) (id_of d)) eqn:E; simpl.
  - apply N.eqb_eq in E.
    destruct (N.eqb (id_of d) j) eqn:E1; [apply N.eqb_eq in E1; congruence|].
    now rewrite E, E1.
  - now rewrite IH.
Qed.

Lemma lookupById_removeById_same (id : ObjectId) (l : list D) :
  NoDup (map id_of l) -> lookupById id_of id (removeById id_of id l) = None.
Proof.
  unfold lookupById. induction l as [|y l IH]; simpl; [reflexivity|].
  intros H. inversion H as [|? ? Hy Hl]; subst.
  destruct (N.eqb (id_of y) id) eqn:E; simpl.
  - apply N.eqb_eq in E. subst id.
    destruct (find (fun d => N.eqb (id_of d) (id_of y)) l) eqn:F; [|reflexivity].
    apply find_some in F. destruct F as [Hin Heq]. apply N.eqb_eq in Heq.
    exfalso. apply Hy. rewrite <- Heq. now apply in_map.
  - rewrite E. now apply IH.
Qed.

Lemma lookupById_removeById_other (j id : ObjectId) (l : list D) :
  j <> id ->
  lookupById id_of j (removeById id_of id l) = lookupById id_of j l.
Proof.
  intros Hj. unfold lookupById. induction l as [|y l IH]; simpl; [reflexivity|].
  destruct (N.eqb (id_of y) id) eqn:E; simpl.
  - apply N.eqb_eq in E.
    destruct (N.eqb (id_of y) j) eqn:E1;
      [apply N.eqb_eq in E1; congruence|reflexivity].
  - now rewrite IH.
Qed.
End RemoveFacts.

Lemma deletePost_run (actor : ReqUser) (id : ObjectId) (w : World) :
  res_status (fst (PostController.deletePost actor id w)) = 200%nat ->
  posts (db (snd (PostController.deletePost actor id w)))
  = removeById post_id id (posts (db w))
  /\ users (db (snd (PostController.deletePost actor id w))) = users (db w).
Proof.
  unfold PostController.deletePost, catching, Post.findById,
    Post.findByIdAndDelete, Category.findById, Category.updatePostCount,
    Post.countDocuments, Category.save.
  run. unfold io.
  repeat case_split; intros H; try discriminate; split; reflexivity.
Qed.

(** X23.  A deleted post is gone.  In a collection where no two posts share
    an identifier, after a delete that answers 200 the post is no longer
    found, every other post is found as before, the accounts are untouched,
    and a retrieval of the post answers 404. *)
Theorem deleted_post_is_gone
  (actor : ReqUser) (id : ObjectId) (w w1 : World) (r : Response) :
  NoDup (map post_id (posts (db w))) ->
  PostController.deletePost actor id w = (r, w1) ->
  res_status r = 200%nat ->
  lookupById post_id id (posts (db w1)) = None
  /\ (forall j, j <> id ->
        lookupById post_id j (posts (db w1))
        = lookupById post_id j (posts (db w)))
  /\ users (db w1) = users (db w)
  /\ (healthy w1 ->
      PostController.getPost id w1 = (failure 404 "Post not found", w1)).
Proof.
  intros Hu H H200.
  pose proof (deletePost_run actor id w) as R. rewrite H in R. simpl in R.
  destruct (R H200) as [Hp Hus]. clear R.
  assert (Hgone : lookupById post_id id (posts (db w1)) = None)
    by (rewrite Hp; now apply lookupById_removeById_same).
  split; [exact Hgone|]. split; [|split; [exact Hus|]].
  - intros j Hj. rewrite Hp. now apply lookupById_removeById_other.
  - intros Hw1. unfold PostController.getPost, catching.
    rewrite (bind_run _ _ _ _ _ (Post_findById_healthy id w1 Hw1)), Hgone.
    reflexivity.
Qed.

Lemma deleted_post_is_gone_witness :
  lookupById post_id 20%N
    (posts (db (snd (PostController.deletePost
                       (User.select_no_password Sample.root) 20%N Sample.world))))
  = None
  /\ PostController.getPost 20%N
       (snd (PostController.deletePost
               (User.select_no_password Sample.root) 20%N Sample.world))
     = (failure 404 "Post not found",
        snd (PostController.deletePost
               (User.select_no_password Sample.root) 20%N Sample.world)).
Proof.
  pose proof (deleted_post_is_gone (User.select_no_password Sample.root) 20%N
                Sample.world _ _
                ltac:(vm_compute; repeat constructor; simpl; tauto)
                eq_refl eq_refl) as H.
  split; [exact (proj1 H)|exact (proj2 (proj2 (proj2 H)) eq_refl)].
Defined.

(** ** What the engagement requests write *)

Lemma same_article_refl (p : PostDoc) : same_article p p.
Proof. unfold same_article. tauto. Qed.

Lemma wrote_at_most_touches (id : ObjectId) (w w1 : World) :
  wrote_at_most id w w1 -> touches_one_post id w w1.
Proof.
  intros [E|(p & q & L & S & E)]; unfold touches_one_post; rewrite E.
  - repeat split; try reflexivity.
    intros p L. exists p. split; [exact L|apply same_article_refl].
  - simpl.
    assert (Hq : post_id q = id).
    { destruct S as (Hid & _). rewrite Hid. eapply lookupById_id; eauto. }
    repeat split.
    + apply map_replaceById.
    + intros j Hj. apply lookupById_replaceById_other. now rewrite Hq.
    + intros p' L'. rewrite L in L'. inversion L'; subst p'.
      exists q. split; [|exact S].
      rewrite <- Hq. apply (lookupById_replaceById post_id q p).
      now rewrite Hq.
Qed.

Lemma Post_save_wrote (v : bool) (p q : PostDoc) (id : ObjectId) (w w1 : World)
      (o : Outcome PostDoc) :
  lookupById post_id id (posts (db w)) = Some p ->
  same_article p q ->
  Post.save v q w = (o, w1) -> wrote_at_most id w w1.
Proof.
  intros L S. unfold Post.save.
  destruct (if v then Post.validate q else None);
    [run; intros H; inversion H; now left|].
  run. unfold io.
  destruct (outages w) as [|[] l]; simpl;
    try (intros H; inversion H; now left);
    destruct (lookupById post_id (post_id q) (posts (db w)));
    intros H; inversion H; subst; simpl;
    try (now left); right; exists p, q; repeat split; auto; apply S.
Qed.

Lemma found_then_wrote {R} (id : ObjectId) (k : PostDoc -> M R) (w : World)
      (missing failed : R) :
  (forall p v o v1,
     lookupById post_id id (posts (db v)) = Some p ->
     k p v = (o, v1) -> wrote_at_most id v v1) ->
  wrote_at_most id w
    (snd (catching
            (found <- Post.findById id ;;
             match found with
             | None => ret missing
             | Some post => k post
             end) failed w)).
Proof.
  intros Hk. unfold catching. unfold bind at 1.
  destruct (Post.findById id w) as [[found|e] v] eqn:F.
  - destruct (Post_findById_frame _ _ _ _ F) as [Hdb _].
    apply Post_findById_result in F. destruct F as (-> & _ & _).
    destruct (lookupById post_id id (posts (db w))) as [p|] eqn:L.
    + destruct (k p v) as [o v1] eqn:K.
      assert (W : wrote_at_most id v v1)
        by (eapply Hk; [rewrite Hdb; exact L|exact K]).
      assert (E : snd (match o with
                       | Ok a => (a, v1)
                       | Throw _ => (failed, v1)
                       end) = v1) by (now destruct o).
      rewrite E. unfold wrote_at_most in *. rewrite Hdb in W. exact W.
    + simpl. now left.
  - destruct (Post_findById_frame _ _ _ _ F) as [Hdb _]. simpl. now left.
Qed.

(** X24.  A retrieval, a like, an unlike and a comment write at most the one
    post they name, and of that post only the views, the likes and the
    comments: whatever they answer, the identifiers of the stored posts and
    their order, every other post, the article of the post itself (title,
    content, slug, category, author, tags, status, dates), the accounts and
    the categories are as before. *)
Theorem engagement_touches_one_post
  (actor : ReqUser) (id : ObjectId) (text : string) (w : World) :
  touches_one_post id w (snd (PostController.getPost id w))
  /\ touches_one_post id w (snd (PostController.likePost actor id w))
  /\ touches_one_post id w (snd (PostController.unlikePost actor id w))
  /\ touches_one_post id w (snd (PostControllerMore.addComment actor id text w)).
Proof.
  split; [|split; [|split]]; apply wrote_at_most_touches.
  - unfold PostController.getPost. apply found_then_wrote.
    intros p v o v1 L K. unfold bind in K.
    destruct (Post.save false (Post.set_views (views p + 1)%N p) v)
      as [s v'] eqn:S.
    assert (W : wrote_at_most id v v')
      by (eapply (Post_save_wrote false p); eauto; unfold same_article; simpl; tauto).
    destruct s; inversion K; now subst.
  - unfold PostController.likePost. apply found_then_wrote.
    intros p v o v1 L K. unfold bind in K.
    destruct (Post.addLike (ru_id actor) p v) as [s v'] eqn:S.
    assert (W : wrote_at_most id v v').
    { unfold Post.addLike in S. destruct (negb (Post.liked_by (ru_id actor) p)).
      - run. eapply (Post_save_wrote true p); eauto.
        unfold same_article; simpl; tauto.
      - run. inversion S. now left. }
    destruct s; inversion K; now subst.
  - unfold PostController.unlikePost. apply found_then_wrote.
    intros p v o v1 L K. unfold bind in K.
    destruct (Post.removeLike (ru_id actor) p v) as [s v'] eqn:S.
    assert (W : wrote_at_most id v v')
      by (eapply (Post_save_wrote true p); eauto; unfold same_article; simpl; tauto).
    destruct s; inversion K; now subst.
  - unfold PostControllerMore.addComment. apply found_then_wrote.
    intros p v o v1 L K. unfold bind in K.
    destruct (PostMore.addComment (ru_id actor) text p v) as [s v'] eqn:S.
    assert (W : wrote_at_most id v v').
    { unfold PostMore.addComment in S. run.
      destruct (negb (PostMore.comment_valid _)).
      - inversion S. now left.
      - eapply (Post_save_wrote true p); eauto.
        unfold same_article; simpl; tauto. }
    destruct s; inversion K; now subst.
Qed.

(** ** Categories that were switched off *)

(** X25.  [validateCategoryExists] is stricter than [createPost].  With the
    database up the middleware hands the request on exactly when the category
    is stored and active, and answers 400 otherwise; it never writes, and
    never hands on a request whose category is missing or inactive.
    [createPost] itself answers 400 only when the category is missing: a
    category that was switched off is accepted. *)
Theorem validateCategoryExists_is_stricter
  (actor : ReqUser) (body : PostController.CreateBody) (w : World) :
  (healthy w ->
   Validation.validateCategoryExists (PostController.new_category body) w
   = (if active_category (PostController.new_category body) (db w)
      then Next tt
      else Respond (failure 400 "Category does not exist or is inactive"), w))
  /\ (forall s w1,
        Validation.validateCategoryExists (PostController.new_category body) w
        = (s, w1) ->
        db w1 = db w
        /\ (s = Next tt ->
            active_category (PostController.new_category body) (db w) = true))
  /\ (res_status (fst (PostController.createPost actor body w)) = 400%nat ->
      lookupById cat_id (PostController.new_category body) (categories (db w))
      = None).
Proof.
  split; [|split].
  - intros Hw. unfold Validation.validateCategoryExists, catching, active_category.
    rewrite (bind_run _ _ _ _ _
               (Category_findById_healthy (PostController.new_category body) w Hw)).
    destruct (lookupById cat_id _ _) as [c|]; [|reflexivity].
    now destruct (cat_isActive c).
  - intros s w1. unfold Validation.validateCategoryExists, catching,
      Category.findById, active_category.
    run. unfold io.
    destruct (outages w) as [|[] o]; simpl;
      destruct (lookupById cat_id _ _) as [c|]; try destruct (cat_isActive c);
      simpl; intros H; inversion H; subst; split; auto; discriminate.
  - unfold PostController.createPost, catching. unfold bind at 1.
    destruct (Category.findById (PostController.new_category body) w)
      as [[found|e] v] eqn:F; [|simpl; discriminate].
    assert (Hf : found = lookupById cat_id (PostController.new_category body)
                           (categories (db w))).
    { revert F. unfold Category.findById. run. unfold io.
      destruct (outages w) as [|[] o]; simpl; intros F; inversion F; now subst. }
    rewrite <- Hf. destruct found as [c|]; [|reflexivity].
    unfold bind at 1. destruct (Post.create _ _ _ _ _ _ v) as [[post|e] v1];
      [|simpl; discriminate].
    unfold bind at 1. destruct (io v1) as [[[]|e] v2]; [|simpl; discriminate].
    unfold bind at 1. destruct (io v2) as [[[]|e] v3]; [|simpl; discriminate].
    unfold bind at 1. destruct (Category.updatePostCount c v3) as [[c'|e] v4];
      simpl; discriminate.
Qed.

Lemma validateCategoryExists_is_stricter_witness :
  Validation.validateCategoryExists 11%N MoreSamples.world
  = (Respond (failure 400 "Category does not exist or is inactive"),
     MoreSamples.world)
  /\ res_status (fst (PostController.createPost
                        (User.select_no_password Sample.bob)
                        MoreSamples.second MoreSamples.world)) = 201%nat.
Proof.
  split; [|reflexivity].
  exact (proj1 (validateCategoryExists_is_stricter
                  (User.select_no_password Sample.bob) MoreSamples.second
                  MoreSamples.world) eq_refl).
Defined.

(** ** The post form of the client *)

Lemma trimStart_length (s : string) :
  (String.length (Js.trimStart s) <= String.length s)%nat.
Proof.
  induction s as [|c r IH]; simpl; [lia|].
  destruct (Js.is_space c); simpl; lia.
Qed.

Lemma trimEnd_length (s : string) :
  (String.length (Js.trimEnd s) <= String.length s)%nat.
Proof.
  induction s as [|c r IH]; simpl; [lia|].
  destruct (Js.trimEnd r); simpl in *; [destruct (Js.is_space c); simpl; lia|lia].
Qed.

Lemma trim_length (s : string) :
  (String.length (Js.trim s) <= String.length s)%nat.
Proof.
  unfold Js.trim. pose proof (trimEnd_length (Js.trimStart s)).
  pose proof (trimStart_length s). lia.
Qed.

Lemma validatePost_valid (form : ClientValidation.PostForm) :
  ClientValidation.isValid (ClientValidation.validatePost form)
  = ClientValidation.validateRequired (ClientValidation.form_title form)
    && ClientValidation.validateMinLength (ClientValidation.form_title form) 3
    && ClientValidation.validateMaxLength (ClientValidation.form_title form) 100
    && ClientValidation.validateRequired (ClientValidation.form_content form)
    && ClientValidation.validateMinLength (ClientValidation.form_content form) 10
    && ClientValidation.validateRequired (ClientValidation.form_category form).
Proof.
  unfold ClientValidation.validatePost, ClientValidation.isValid.
  destruct (ClientValidation.validateRequired (ClientValidation.form_title form)),
    (ClientValidation.validateMinLength (ClientValidation.form_title form) 3),
    (ClientValidation.validateMaxLength (ClientValidation.form_title form) 100),
    (ClientValidation.validateRequired (ClientValidation.form_content form)),
    (ClientValidation.validateMinLength (ClientValidation.form_content form) 10),
    (ClientValidation.validateRequired (ClientValidation.form_category form));
    reflexivity.
Qed.

(** X26.  What the client's post form accepts, the schema accepts.  A form
    that [validatePost] finds valid has a title of 3 to 100 characters and a
    content of at least 10 once trimmed, and a category that is not blank;
    the post [createPost] builds from that title and content passes the
    validators of the Post schema, whatever the actor, the status and the
    category. *)
Theorem valid_form_passes_the_schema
  (form : ClientValidation.PostForm) :
  ClientValidation.isValid (ClientValidation.validatePost form) = true ->
  exists t c k,
    form = ClientValidation.mkPostForm (Some t) (Some c) (Some k)
    /\ (3 <= String.length (Js.trim t) <= 100)%nat
    /\ (10 <= String.length (Js.trim c))%nat
    /\ (1 <= String.length (Js.trim k))%nat
    /\ forall w actor body st,
         PostController.new_title body = t ->
         PostController.new_content body = c ->
         Post.validate (created_post w actor body st) = None.
Proof.
  rewrite validatePost_valid. intros H.
  repeat (apply andb_true_iff in H; let H' := fresh "V" in destruct H as [H H']).
  destruct form as [[t|] [c|] [k|]];
    unfold ClientValidation.form_title, ClientValidation.form_content,
      ClientValidation.form_category, ClientValidation.validateRequired,
      ClientValidation.validateMinLength in *;
    try discriminate.
  match goal with
  | X : ClientValidation.validateMaxLength _ _ = true |- _ => rename X into VM
  end.
  repeat match goal with
         | X : (_ <=? _)%nat = true |- _ => apply Nat.leb_le in X
         | X : (_ <? _)%nat = true |- _ => apply Nat.ltb_lt in X
         end.
  assert (M : (String.length (Js.trim t) <= 100)%nat).
  { destruct t as [|a t']; [simpl; lia|].
    unfold ClientValidation.validateMaxLength in VM. now apply Nat.leb_le in VM. }
  exists t, c, k. repeat split; try lia.
  intros w actor body st Ht Hc. unfold Post.validate, created_post.
  cbn [title content]. rewrite Ht, Hc. pose proof (trim_length c) as Lc.
  destruct (String.length (Js.trim t) <? 3)%nat eqn:A;
    [apply Nat.ltb_lt in A; lia|].
  destruct (100 <? String.length (Js.trim t))%nat eqn:B;
    [apply Nat.ltb_lt in B; lia|].
  destruct (String.length c <? 10)%nat eqn:C;
    [apply Nat.ltb_lt in C; lia|].
  reflexivity.
Qed.

Lemma valid_form_passes_the_schema_witness :
  exists t c k,
    ClientValidation.mkPostForm (Some " Second post ")
      (Some "Content long enough") (Some "11")
    = ClientValidation.mkPostForm (Some t) (Some c) (Some k)
    /\ (3 <= String.length (Js.trim t) <= 100)%nat
    /\ (10 <= String.length (Js.trim c))%nat
    /\ (1 <= String.length (Js.trim k))%nat
    /\ forall w actor body st,
         PostController.new_title body = t ->
         PostController.new_content body = c ->
         Post.validate (created_post w actor body st) = None.
Proof.
  exact (valid_form_passes_the_schema
           (ClientValidation.mkPostForm (Some " Second post ")
              (Some "Content long enough") (Some "11"))
           eq_refl).
Defined.

(** A title of 60 times U+00E9 is 60 characters long, and the form is valid. *)
Lemma valid_form_counts_characters :
  ClientValidation.isValid
    (ClientValidation.validatePost
       (ClientValidation.mkPostForm
          (Some (MoreSamples.repeat_char MoreSamples.e_acute 60))
          (Some "Content long enough") (Some "11")))
  = true.
Proof. vm_compute. reflexivity. Qed.
